(** * mquery-fcs: the [searchRetrieve] operation of the FCS v1.2 handler

    A shallow embedding of [translateQuery] and [searchRetrieve]
    (package [v12]) together with the collaborators they call, and the
    properties of the dispatch and aggregation engine proved over it.

    Conventions.
    - A Go [int] is a [Z]; the only arithmetic done on request values is
      [startRecord - 1] and [len(..) + 1], neither of which leaves the
      64-bit range once validation has passed.
    - A Go pair [(value, error)] is a [result]; an [error] alone is an
      [option string], [None] for [nil].
    - [fcsResponse] is mutated through a pointer; here it is threaded
      through a small state-and-early-return monad, together with the log
      of the queries handed to the queue adapter.
    - Limits of allocation ([make] with a huge capacity) and a reply that
      never arrives are outside the model. *)

From Stdlib Require Import ZArith Ascii String.
From stdpp Require Import base tactics option list strings gmap.

Set Default Proof Using "Type".

(** ** Go values *)

Inductive result (A : Type) : Type :=
| Ok (a : A)
| Err (msg : string).
Arguments Ok {A} a.
Arguments Err {A} msg.

(** ** Package [strconv] (Go standard library) *)
Module strconv.

Definition maxInt : Z := 9223372036854775807.
Definition minInt : Z := -9223372036854775808.

Definition isDigit (c : ascii) : bool :=
    (48 <=? nat_of_ascii c)%nat && (nat_of_ascii c <=? 57)%nat.

Definition digitVal (c : ascii) : Z := Z.of_nat (nat_of_ascii c) - 48.

(** Base-10 accumulation over the digits; [None] on the first byte that
    is not a decimal digit (a syntax error). *)
Fixpoint digits (acc : Z) (s : string) : option Z :=
    match s with
    | EmptyString => Some acc
    | String c r =>
        if isDigit c then digits (acc * 10 + digitVal c) r else None
    end.

(** [strconv.Atoi]: an optional sign followed by at least one decimal
    digit; the value has to fit a 64-bit [int].  [None] stands for a
    non-nil error ([ErrSyntax] or [ErrRange]). *)
Definition Atoi (s : string) : option Z :=
    let '(neg, body) :=
      match s with
      | String "-" r => (true, r)
      | String "+" r => (false, r)
      | _ => (false, s)
      end in
    match body with
    | EmptyString => None
    | _ =>
        match digits 0 body with
        | Some n =>
            let v := if neg then (- n)%Z else n in
            if (minInt <=? v)%Z && (v <=? maxInt)%Z then Some v else None
        | None => None
        end
    end.

End strconv.

(** ** Package [strings] (Go standard library) *)
Module gostrings.

(** [strings.Split(s, sep)] for a one-byte separator: all the pieces
    between separators, so the empty string yields one empty piece. *)
Fixpoint Split (s : string) (sep : ascii) : list string :=
    match s with
    | EmptyString => [EmptyString]
    | String c r =>
        if Ascii.eqb c sep then EmptyString :: Split r sep
        else match Split r sep with
             | h :: t => String c h :: t
             | [] => [String c EmptyString]
             end
    end.

End gostrings.

(** ** The request: [url.Values] and gin's accessors *)
Module url.

(** [url.Values] is a [map[string][]string].  The handler ranges over
    it, and Go leaves the order of that iteration open, so the map is
    kept as the list of its entries in the order the range visits them;
    a lookup takes the first entry of the key. *)
Definition Values : Type := list (string * list string).

Definition lookup (v : Values) (key : string) : option (list string) :=
    snd <$> List.find (fun p => String.eqb (fst p) key) v.

Definition Has (v : Values) (key : string) : bool :=
    match lookup v key with Some _ => true | None => false end.

Definition keys (v : Values) : list string := map fst v.

End url.

(** gin's [Context], as far as the handler reads it: [GetQuery] finds
    the first value of a key, [Query] and [DefaultQuery] fall back to the
    empty string and to the given default. *)
Module gin.

Record Context := { URLQuery : url.Values }.

Definition GetQuery (ctx : Context) (key : string) : option string :=
    match url.lookup (URLQuery ctx) key with
    | Some (x :: _) => Some x
    | _ => None
    end.

Definition Query (ctx : Context) (key : string) : string :=
    default EmptyString (GetQuery ctx key).

Definition DefaultQuery (ctx : Context) (key dflt : string) : string :=
    default dflt (GetQuery ctx key).

End gin.

(** ** Package [general]: diagnostics and status codes *)
Module general.

Inductive DiagnosticCode : Type :=
  | DCGeneralSystemError
  | DCUnsupportedParameter
  | DCUnsupportedParameterValue
  | DCMandatoryParameterNotSupplied
  | DCQuerySyntaxError
  | DCQueryCannotProcess
  | DCFirstRecordPosOutOfRange.

Record FCSError := {
    Code : DiagnosticCode;
    Ident : string;
    Message : string
  }.

(** Modelled from the spec: the declarations of the three status
    constants are not part of the files embedded here; the spec gives
    "400 (conformant bad request), 422 (conformant unprocessable),
    500 (general server error)". *)
Definition ConformantStatusBadRequest : Z := 400.
Definition ConformantUnprocessableEntity : Z := 422.
Definition ConformandGeneralServerError : Z := 500.

End general.

Module http.
Definition StatusOK : Z := 200.
Definition StatusInternalServerError : Z := 500.
End http.

(** ** Package [corpus]: the resource registry *)
Module corpus.

Record PosAttr := {
  ID : string;
  Name : string;
  Layer : string;
  IsLayerDefault : bool
}.

Record StructureMapping := {
  SentenceStruct : string;
  UtteranceStruct : string;
  ParagraphStruct : string;
  TurnStruct : string;
  TextStruct : string;
  SessionStruct : string
}.

(** The fields of a resource that the handler reads, and its name. *)
Record CorpusSetup := {
  rscName : string;
  URI : string;
  PosAttrs : list PosAttr;
  StructMapping : StructureMapping
}.

(** Modelled from the spec: the registry type is not part of the
    files embedded here.  The spec describes a "mapping from corpus name to
    CorpusResource"; the entries are kept in configuration order. *)
Definition SrchResources : Type := list CorpusSetup.

(** Modelled from the spec: "get(name) -> Resource | NotFound". *)
Definition GetResource (r : SrchResources) (name : string)
  : result CorpusSetup :=
  match List.find (fun c => String.eqb (rscName c) name) r with
  | Some c => Ok c
  | None => Err ("unknown resource " +:+ name)
  end.

(** Modelled from the spec: "listAll() -> [name]". *)
Definition GetCorpora (r : SrchResources) : list string :=
  map rscName r.

Definition attrNames (c : CorpusSetup) : list string :=
  map Name (PosAttrs c).

Definition hasName (names : list string) (n : string) : bool :=
  existsb (String.eqb n) names.

(** Narrows [acc] to the names every corpus of [names] has. *)
Fixpoint commonWith (acc : list string) (r : SrchResources)
  (names : list string) : result (list string) :=
  match names with
  | [] => Ok acc
  | n :: rest =>
      match GetResource r n with
      | Ok c => commonWith (List.filter (hasName (attrNames c)) acc) r rest
      | Err e => Err e
      end
  end.

(** Modelled from the spec: "commonPosAttrNames(names...) -> [string]
    returning the ordered intersection of posAttrs.name across the given
    corpora", in the order of the first corpus; a name that does not
    resolve is the one way the lookup can fail. *)
Definition GetCommonPosAttrNames (r : SrchResources) (names : list string)
  : result (list string) :=
  match names with
  | [] => Ok []
  | n :: rest =>
      match GetResource r n with
      | Ok c => commonWith (attrNames c) r rest
      | Err e => Err e
      end
  end.

Record CorporaSetup := {
  Resources : SrchResources;
  MaximumRecords : Z
}.

End corpus.

(** ** Package [mango] *)
Module mango.

(** Modelled from the spec: "The sentinel error string `rows range out
    of conc` signals out-of-range". *)
Definition ErrRowsRangeOutOfConc : string := "rows range out of conc".

End mango.

(** ** Package [rdb]: queue payloads and replies *)
Module rdb.

(** The field [Query] of the source is [QueryCQL] here, the name
    [Query] being the one of the job record. *)
Record ConcExampleArgs := {
  CorpusPath : string;
  QueryCQL : string;
  Attrs : list string;
  StartLine : Z;
  MaxItems : Z
}.

Record Query (Payload : Type) := {
  Func : string;
  Args : Payload
}.
Arguments Func {Payload} _.
Arguments Args {Payload} _.

Record Token := { Word : string; Strong : bool }.

Record ConcordanceLine := { Text : list Token }.

(** A decoded reply: the rows and what [Err()] returns for it. *)
Record ConcExampleResult := {
  Lines : list ConcordanceLine;
  ResErr : option string
}.

End rdb.

(** ** Package [query]: the range planner *)
Module query.

Record PartialRange := {
  Rsc : string;
  From : Z
}.

(** Modelled from the spec: [CalculatePartialRanges] is not part of the
    files embedded here.  "The same logical offset/limit applies to each
    corpus independently ... Per-corpus entry is (name=C[i], from=S,
    maxItems=K)."  The handler reads [Rsc] and [From] of an entry and
    takes [maxItems] from its own [maximumRecords]. *)
Definition CalculatePartialRanges (corpora : list string) (S K : Z)
  : list PartialRange :=
  map (fun c => {| Rsc := c; From := S |}) corpora.

End query.

(** ** Package [result]: the round-robin selector *)
Module result.

(** Modelled from the spec: the error slot of a corpus,
    "an error slot (none | outOfRange | fatal)". *)
Inductive SlotError : Type :=
| NoError
| OutOfRange (err : string)
| Fatal (err : string).

(** Modelled from the spec: the per-corpus state, "a lazy stream of rows
    (may be empty), a cursor, and an error slot".  [Cursor] counts the
    rows already drawn from [Rows]. *)
Record rscSlot := {
  Name : string;
  Rows : list rdb.ConcordanceLine;
  Cursor : nat;
  SlotErr : SlotError
}.

(** Modelled from the spec: the selector, "initialized with K (page
    size) and the ordered corpora list", with "a global cursor g starting
    at 0" and the corpus marked current by the most recent [Next]. *)
Record RoundRobinLineSel := {
  PageSize : Z;
  Slots : list rscSlot;
  G : nat;
  Curr : option nat
}.

(** Modelled from the spec: a fresh selector has one slot per corpus,
    in the order given, with no rows and no error. *)
Definition NewRoundRobinLineSel (K : Z) (corpora : list string)
  : RoundRobinLineSel :=
  {| PageSize := K;
     Slots := map (fun c => {| Name := c; Rows := []; Cursor := 0;
                               SlotErr := NoError |}) corpora;
     G := 0;
     Curr := None |}.

(** Modelled from the spec: an error equal to the sentinel text marks a
    slot [outOfRange], any other error [fatal]. *)
Definition classifyErr (err : string) : SlotError :=
  if String.eqb err mango.ErrRowsRangeOutOfConc
  then OutOfRange err else Fatal err.

Definition withErr (e : SlotError) (s : rscSlot) : rscSlot :=
  {| Name := Name s; Rows := Rows s; Cursor := Cursor s; SlotErr := e |}.

Definition withRows (rows : list rdb.ConcordanceLine) (s : rscSlot)
  : rscSlot :=
  {| Name := Name s; Rows := rows; Cursor := 0; SlotErr := SlotErr s |}.

Definition withSlots (slots : list rscSlot) (r : RoundRobinLineSel)
  : RoundRobinLineSel :=
  {| PageSize := PageSize r; Slots := slots; G := G r; Curr := Curr r |}.

(** Modelled from the spec: [RscSetErrorAt(i, err)] "mark[s] that
    corpus's slot outOfRange with the error"; an index past the last
    slot changes nothing here. *)
Definition RscSetErrorAt (i : nat) (err : string) (r : RoundRobinLineSel)
  : RoundRobinLineSel :=
  withSlots (alter (withErr (classifyErr err)) i (Slots r)) r.

Fixpoint setRowsByName (name : string) (rows : list rdb.ConcordanceLine)
  (slots : list rscSlot) : list rscSlot :=
  match slots with
  | [] => []
  | s :: rest =>
      if String.eqb (Name s) name then withRows rows s :: rest
      else s :: setRowsByName name rows rest
  end.

(** Modelled from the spec: [SetRscLines(name, res)] "store[s] the
    returned rows for that corpus", the first slot of that name; the
    error slot is left as it is. *)
Definition SetRscLines (name : string) (res : rdb.ConcExampleResult)
  (r : RoundRobinLineSel) : RoundRobinLineSel :=
  withSlots (setRowsByName name (rdb.Lines res) (Slots r)) r.

Definition isOutOfRange (s : rscSlot) : bool :=
  match SlotErr s with OutOfRange _ => true | _ => false end.

Definition isFatal (s : rscSlot) : bool :=
  match SlotErr s with Fatal _ => true | _ => false end.

(** Modelled from the spec: "true iff every corpus slot is
    outOfRange". *)
Definition AllHasOutOfRangeError (r : RoundRobinLineSel) : bool :=
  forallb isOutOfRange (Slots r).

(** Modelled from the spec: "true iff any slot is fatal". *)
Definition HasFatalError (r : RoundRobinLineSel) : bool :=
  existsb isFatal (Slots r).

Definition slotErrText (s : rscSlot) : option string :=
  match SlotErr s with
  | NoError => None
  | OutOfRange e | Fatal e => Some e
  end.

(** Modelled from the spec: "lowest-index error, for reporting";
    [None] is the nil error of a selector without errors. *)
Definition GetFirstError (r : RoundRobinLineSel) : option string :=
  list_find (fun s => is_Some (slotErrText s)) (Slots r)
    ≫= fun p => slotErrText (snd p).

Definition drawable (s : rscSlot) : bool :=
  (Cursor s <? length (Rows s))%nat.

(** One pass of at most [steps] slots, from [start] onwards modulo the
    number of slots, for "a corpus whose row index is within its row
    list". *)
Fixpoint findDrawable (slots : list rscSlot) (start steps : nat)
  : option nat :=
  match steps with
  | O => None
  | S k =>
      let i := (start mod length slots)%nat in
      match slots !! i with
      | Some s => if drawable s then Some i
                  else findDrawable slots (S i) k
      | None => None
      end
  end.

Definition advance (s : rscSlot) : rscSlot :=
  {| Name := Name s; Rows := Rows s; Cursor := S (Cursor s);
     SlotErr := SlotErr s |}.

(** Modelled from the spec: [Next()].  "Starting at g, step forward
    (mod N) looking for a corpus whose row index is within its row list.
    If none exists in a full pass, return false.  Mark the found corpus
    as current; advance g to (found+1) mod N; advance that corpus's row
    index.  Return true."  The boolean comes with the selector as the
    call leaves it. *)
Definition Next (r : RoundRobinLineSel) : bool * RoundRobinLineSel :=
  let n := length (Slots r) in
  match findDrawable (Slots r) (G r) n with
  | None => (false, r)
  | Some i =>
      (true, {| PageSize := PageSize r;
                Slots := alter advance i (Slots r);
                G := (S i mod n)%nat;
                Curr := Some i |})
  end.

Definition currSlot (r : RoundRobinLineSel) : option rscSlot :=
  Curr r ≫= fun i => Slots r !! i.

(** Modelled from the spec: the corpus name "for the most recent
    Next()"; the empty string before the first one. *)
Definition CurrRscName (r : RoundRobinLineSel) : string :=
  from_option Name EmptyString (currSlot r).

(** Modelled from the spec: the row "for the most recent Next()", the
    one just below the advanced cursor; a line without tokens before
    the first one. *)
Definition CurrLine (r : RoundRobinLineSel) : rdb.ConcordanceLine :=
  default {| rdb.Text := [] |}
    (currSlot r ≫= fun s => Rows s !! pred (Cursor s)).

(** The corpus names and the error slots, slot by slot. *)
Definition names (r : RoundRobinLineSel) : list string :=
  map Name (Slots r).

Definition errors (r : RoundRobinLineSel) : list SlotError :=
  map SlotErr (Slots r).

(** Rows not yet drawn: what bounds the number of successful [Next]s. *)
Definition remaining (slots : list rscSlot) : nat :=
  sum_list (map (fun s => length (Rows s) - Cursor s)%nat slots).

End result.

(** ** Package [v12]: the handler *)
Module v12.

(** Modelled from the spec: the names of the [SearchRetrArg] constants'
    strings, whose declarations are not part of the files embedded here;
    "the parameters are: query, startRecord, maximumRecords,
    x-fcs-context". *)
Definition SearchRetrArgQuery : string := "query".
Definition SearchRetrStartRecord : string := "startRecord".
Definition SearchMaximumRecords : string := "maximumRecords".
Definition SearchRetrArgFCSContext : string := "x-fcs-context".

Record Token := { TokText : string; Hit : bool }.

Record FCSSearchRow := {
  Position : Z;
  PID : string;
  Ref : string;
  Tokens : list Token
}.

(** The fields of [FCSResponse] that [searchRetrieve] writes:
    [General.Errors], [SearchRetrieve.EchoedSRRequest.Query],
    [SearchRetrieve.EchoedSRRequest.StartRecord] and
    [SearchRetrieve.Results]. *)
Record FCSResponse := {
  GeneralErrors : list general.FCSError;
  EchoedQuery : string;
  EchoedStartRecord : Z;
  Results : list FCSSearchRow
}.

Definition emptyResponse : FCSResponse :=
  {| GeneralErrors := []; EchoedQuery := ""; EchoedStartRecord := 0;
     Results := [] |}.

(** [General.AddError], which adds the diagnostic at the end of the
    list, and the assignments to the response's fields. *)
Definition addError (e : general.FCSError) (r : FCSResponse) : FCSResponse :=
  {| GeneralErrors := GeneralErrors r ++ [e];
     EchoedQuery := EchoedQuery r;
     EchoedStartRecord := EchoedStartRecord r;
     Results := Results r |}.

Definition withEchoedQuery (q : string) (r : FCSResponse) : FCSResponse :=
  {| GeneralErrors := GeneralErrors r;
     EchoedQuery := q;
     EchoedStartRecord := EchoedStartRecord r;
     Results := Results r |}.

Definition withEchoedStartRecord (n : Z) (r : FCSResponse) : FCSResponse :=
  {| GeneralErrors := GeneralErrors r;
     EchoedQuery := EchoedQuery r;
     EchoedStartRecord := n;
     Results := Results r |}.

Definition withResults (rows : list FCSSearchRow) (r : FCSResponse)
  : FCSResponse :=
  {| GeneralErrors := GeneralErrors r;
     EchoedQuery := EchoedQuery r;
     EchoedStartRecord := EchoedStartRecord r;
     Results := rows |}.

Record FCSSubHandlerV12 := { corporaConf : corpus.CorporaSetup }.

(** The local variables of [searchRetrieve] that are live once the
    request has been validated (line 168). *)
Record srLocals := {
  fcsQuery : string;
  startRecord : Z;
  maximumRecords : Z;
  corpora : list string;
  retrieveAttrs : list string
}.

Section Handler.

(** What the handler is linked against and is defined outside of the
    files embedded here: the parameter table behind
    [SearchRetrArg.Validate], the diagnostics' messages, the query parser
    and the generator of the AST it returns, the registry-path lookup, the
    JSON encoder, and the queue adapter with the decoder of its
    replies. *)
Context {AST Payload WorkerResult : Type}.
Variable Validate : string -> option string.
Variable AsMessage : general.DiagnosticCode -> string.
Variable ParseQuery :
  string -> list corpus.PosAttr -> corpus.StructureMapping -> result AST.
(** [Generate] collects the semantic errors that [Errors()] then
    reports, hence both results at once. *)
Variable Generate : AST -> string * list string.
Variable GetRegistryPath : corpus.CorporaSetup -> string -> string.
Variable Marshal : rdb.ConcExampleArgs -> result Payload.
(** A reply channel is read exactly once, so it is identified with the
    raw reply the worker sends on it; the adapter sees the position of
    the job among the request's jobs and the job itself. *)
Variable PublishQuery : nat -> rdb.Query Payload -> result WorkerResult.
Variable DeserializeConcExampleResult :
  WorkerResult -> result rdb.ConcExampleResult.
(** [make([]FCSSearchRow, 0, cap)]: whether the runtime gives the slice.
    It panics ([makeslice: cap out of range]) when [cap] rows are more
    than it allocates, a bound that comes from the size of
    [FCSSearchRow], declared outside the files embedded here, and from
    the platform. *)
Variable makeRows : Z -> bool.

(** *** State and early return *)

(** The response under construction and every query handed to
    [PublishQuery] so far, oldest first. *)
Record World := {
  Response : FCSResponse;
  Published : list (rdb.Query Payload)
}.

(** A step either goes on with a value, leaves [searchRetrieve] with a
    status ([return]), panics (a nil error, an index out of range or a
    slice that cannot be made), or is cut short by the bound put on the
    merge loop. *)
Inductive Step (A : Type) : Type :=
| Continue (a : A) (w : World)
| Return (status : Z) (w : World)
| Panic (w : World)
| OutOfFuel (w : World).
Arguments Continue {A} a w.
Arguments Return {A} status w.
Arguments Panic {A} w.
Arguments OutOfFuel {A} w.

Definition worldOf {A} (s : Step A) : World :=
  match s with
  | Continue _ w | Return _ w | Panic w | OutOfFuel w => w
  end.

Definition onResponse (f : FCSResponse -> FCSResponse) (w : World) : World :=
  {| Response := f (Response w); Published := Published w |}.

Definition M (A : Type) : Type := World -> Step A.

#[export] Instance M_ret : MRet M := fun A a w => Continue a w.

#[export] Instance M_bind : MBind M := fun A B f m w =>
  match m w with
  | Continue a w' => f a w'
  | Return s w' => Return s w'
  | Panic w' => Panic w'
  | OutOfFuel w' => OutOfFuel w'
  end.

Definition exit {A} (status : Z) : M A := fun w => Return status w.

Definition panic {A} : M A := fun w => Panic w.

Definition outOfFuel {A} : M A := fun w => OutOfFuel w.

Definition withResponse (f : FCSResponse -> FCSResponse) : M unit :=
  fun w => Continue tt (onResponse f w).

Definition AddError (e : general.FCSError) : M unit :=
  withResponse (addError e).

Definition setEchoedQuery (q : string) : M unit :=
  withResponse (withEchoedQuery q).

Definition setEchoedStartRecord (n : Z) : M unit :=
  withResponse (withEchoedStartRecord n).

Definition setResults (rows : list FCSSearchRow) : M unit :=
  withResponse (withResults rows).

Definition getResults : M (list FCSSearchRow) :=
  fun w => Continue (Results (Response w)) w.

(** The call of [PublishQuery]: the query joins the log whether or not
    the adapter accepts it. *)
Definition publish (i : nat) (q : rdb.Query Payload)
  : M (result WorkerResult) :=
  fun w => Continue (PublishQuery i q)
             {| Response := Response w; Published := Published w ++ [q] |}.

(** *** [translateQuery] *)

Definition translateQuery (a : FCSSubHandlerV12) (corpusName query : string)
  : AST + general.FCSError :=
  match corpus.GetResource (corpus.Resources (corporaConf a)) corpusName with
  | Err err =>
      inr {| general.Code := general.DCGeneralSystemError;
             general.Ident := err;
             general.Message := AsMessage general.DCGeneralSystemError |}
  | Ok res =>
      match ParseQuery query (corpus.PosAttrs res) (corpus.StructMapping res) with
      | Err _ =>
          inr {| general.Code := general.DCQuerySyntaxError;
                 general.Ident := query;
                 general.Message := "Invalid query syntax" |}
      | Ok ast => inl ast
      end
  end.

(** *** [searchRetrieve], region by region *)

(** Lines 69-78: every key of the URL query has to be a supported
    parameter. *)
Fixpoint checkParams (keys : list string) : M unit :=
  match keys with
  | [] => mret tt
  | key :: rest =>
      match Validate key with
      | Some err =>
          AddError {| general.Code := general.DCUnsupportedParameter;
                      general.Ident := key;
                      general.Message := err |} ;;
          exit general.ConformantStatusBadRequest
      | None => checkParams rest
      end
  end.

(** Lines 80-89: the mandatory [query]. *)
Definition readQuery (ctx : gin.Context) : M string :=
  let fcsQuery := gin.Query ctx "query" in
  if (String.length fcsQuery =? 0)%nat then
    AddError {| general.Code := general.DCMandatoryParameterNotSupplied;
                general.Ident := "fcs_query";
                general.Message := "Mandatory parameter not supplied" |} ;;
    exit general.ConformantStatusBadRequest
  else
    setEchoedQuery fcsQuery ;; mret fcsQuery.

Definition unsupportedValue (ident : string) : general.FCSError :=
  {| general.Code := general.DCUnsupportedParameterValue;
     general.Ident := ident;
     general.Message := AsMessage general.DCUnsupportedParameterValue |}.

(** Lines 91-109: [startRecord]. *)
Definition readStartRecord (ctx : gin.Context) : M Z :=
  let xStartRecord := gin.DefaultQuery ctx SearchRetrStartRecord "1" in
  match strconv.Atoi xStartRecord with
  | None =>
      AddError (unsupportedValue SearchRetrStartRecord) ;;
      exit general.ConformantUnprocessableEntity
  | Some startRecord =>
      if (startRecord <? 1)%Z then
        AddError (unsupportedValue SearchRetrStartRecord) ;;
        exit general.ConformantUnprocessableEntity
      else
        setEchoedStartRecord startRecord ;; mret startRecord
  end.

(** Lines 111-130: [maximumRecords]. *)
Definition readMaximumRecords (a : FCSSubHandlerV12) (ctx : gin.Context)
  : M Z :=
  let xMaximumRecords := gin.Query ctx SearchMaximumRecords in
  maximumRecords ←
    (if (0 <? String.length xMaximumRecords)%nat then
       match strconv.Atoi xMaximumRecords with
       | None =>
           AddError (unsupportedValue SearchMaximumRecords) ;;
           exit general.ConformantUnprocessableEntity
       | Some n => mret n
       end
     else mret (corpus.MaximumRecords (corporaConf a)));
  if (maximumRecords <? 1)%Z then
    AddError (unsupportedValue SearchMaximumRecords) ;;
    exit general.ConformantUnprocessableEntity
  else mret maximumRecords.

(** Lines 132-135: the corpora to search.  [Has] is asked for the
    value of [x-fcs-context], as the source has it. *)
Definition selectCorpora (a : FCSSubHandlerV12) (ctx : gin.Context)
  : list string :=
  let corpora := corpus.GetCorpora (corpus.Resources (corporaConf a)) in
  if url.Has (gin.URLQuery ctx) (gin.Query ctx SearchRetrArgFCSContext)
  then gostrings.Split (gin.Query ctx SearchRetrArgFCSContext) ","
  else corpora.

(** Lines 139-149: every selected corpus has to be in the registry. *)
Fixpoint checkResources (a : FCSSubHandlerV12) (corpora : list string)
  : M unit :=
  match corpora with
  | [] => mret tt
  | v :: rest =>
      match corpus.GetResource (corpus.Resources (corporaConf a)) v with
      | Err _ =>
          AddError {| general.Code := general.DCUnsupportedParameterValue;
                      general.Ident := SearchRetrArgFCSContext;
                      general.Message := "Unknown context " +:+ v |} ;;
          exit general.ConformantStatusBadRequest
      | Ok _ => checkResources a rest
      end
  end.

(** Lines 138-158. *)
Definition checkCorpora (a : FCSSubHandlerV12) (corpora : list string)
  : M unit :=
  if (0 <? length corpora)%nat then checkResources a corpora
  else
    AddError {| general.Code := general.DCUnsupportedParameterValue;
                general.Ident := SearchRetrArgFCSContext;
                general.Message := "Empty context" |} ;;
    exit general.ConformantStatusBadRequest.

Definition generalSystemError (ident message : string) : general.FCSError :=
  {| general.Code := general.DCGeneralSystemError;
     general.Ident := ident;
     general.Message := message |}.

(** Lines 159-167. *)
Definition commonAttrs (a : FCSSubHandlerV12) (corpora : list string)
  : M (list string) :=
  match corpus.GetCommonPosAttrNames
          (corpus.Resources (corporaConf a)) corpora with
  | Err err =>
      AddError (generalSystemError err
                  (AsMessage general.DCGeneralSystemError)) ;;
      exit http.StatusInternalServerError
  | Ok retrieveAttrs => mret retrieveAttrs
  end.

(** Lines 173-217: translate and publish, one corpus after the other.
    [waits[i] = wait] fills the vector front to back, so the channels
    are collected in a list. *)
Fixpoint dispatch (a : FCSSubHandlerV12) (fcsQuery : string)
  (retrieveAttrs : list string) (maximumRecords : Z) (i : nat)
  (ranges : list query.PartialRange) : M (list WorkerResult) :=
  match ranges with
  | [] => mret []
  | rng :: rest =>
      match translateQuery a (query.Rsc rng) fcsQuery with
      | inr fcsErr =>
          AddError fcsErr ;;
          exit general.ConformantUnprocessableEntity
      | inl ast =>
          let '(cql, errors) := Generate ast in
          match errors with
          | e0 :: _ =>
              AddError {| general.Code := general.DCQueryCannotProcess;
                          general.Ident := SearchRetrArgQuery;
                          general.Message := e0 |} ;;
              exit general.ConformantUnprocessableEntity
          | [] =>
              match Marshal
                      {| rdb.CorpusPath :=
                           GetRegistryPath (corporaConf a) (query.Rsc rng);
                         rdb.QueryCQL := cql;
                         rdb.Attrs := retrieveAttrs;
                         rdb.StartLine := query.From rng;
                         rdb.MaxItems := maximumRecords |} with
              | Err err =>
                  AddError (generalSystemError err "General system error") ;;
                  exit http.StatusInternalServerError
              | Ok args =>
                  r ← publish i {| rdb.Func := "concExample";
                                   rdb.Args := args |};
                  match r with
                  | Err err =>
                      AddError
                        (generalSystemError err "General system error") ;;
                      exit http.StatusInternalServerError
                  | Ok wait =>
                      waits ← dispatch a fcsQuery retrieveAttrs
                                maximumRecords (S i) rest;
                      mret (wait :: waits)
                  end
              end
          end
      end
  end.

Definition cannotProcess (ident : string) : general.FCSError :=
  {| general.Code := general.DCQueryCannotProcess;
     general.Ident := ident;
     general.Message := AsMessage general.DCQueryCannotProcess |}.

(** Lines 223-246: the body of the collecting loop for the reply read
    from [waits[i]]. *)
Definition collectOne (corpora : list string) (i : nat)
  (rawResult : WorkerResult) (fromResource : result.RoundRobinLineSel)
  : M result.RoundRobinLineSel :=
  match DeserializeConcExampleResult rawResult with
  | Err err =>
      AddError (generalSystemError err
                  (AsMessage general.DCGeneralSystemError)) ;;
      exit http.StatusInternalServerError
  | Ok res =>
      fromResource' ←
        match rdb.ResErr res with
        | Some err =>
            if String.eqb err mango.ErrRowsRangeOutOfConc
            then mret (result.RscSetErrorAt i err fromResource)
            else
              AddError (cannotProcess err) ;;
              exit http.StatusInternalServerError
        | None => mret fromResource
        end;
      match corpora !! i with
      | Some c => mret (result.SetRscLines c res fromResource')
      | None => panic
      end
  end.

(** Lines 222-247: the replies are awaited in index order. *)
Fixpoint collect (corpora : list string) (i : nat)
  (waits : list WorkerResult) (fromResource : result.RoundRobinLineSel)
  : M result.RoundRobinLineSel :=
  match waits with
  | [] => mret fromResource
  | wait :: rest =>
      fromResource' ← collectOne corpora i wait fromResource;
      collect corpora (S i) rest fromResource'
  end.

(** Lines 248-263: the classification after all replies are in.
    [GetFirstError().Error()] on a selector without any error is a call
    on a nil error. *)
Definition classify (fromResource : result.RoundRobinLineSel) : M unit :=
  if result.AllHasOutOfRangeError fromResource then
    match result.GetFirstError fromResource with
    | Some err =>
        AddError {| general.Code := general.DCFirstRecordPosOutOfRange;
                    general.Ident := err;
                    general.Message :=
                      AsMessage general.DCFirstRecordPosOutOfRange |} ;;
        exit general.ConformantUnprocessableEntity
    | None => panic
    end
  else if result.HasFatalError fromResource then
    match result.GetFirstError fromResource with
    | Some err =>
        AddError (cannotProcess err) ;;
        exit general.ConformandGeneralServerError
    | None => panic
    end
  else mret tt.

Definition toToken (t : rdb.Token) : Token :=
  {| TokText := rdb.Word t; Hit := rdb.Strong t |}.

(** Lines 268-295: the merge loop.  Every turn of the loop follows a
    [Next()] that returned true, which takes a row off the selector, so
    [fuel] bounds the turns: [OutOfFuel] is what is left when a turn is
    due and no fuel is.  [segmentPos] is written and never read, and is
    left out. *)
Fixpoint mergeLoop (fuel : nat) (a : FCSSubHandlerV12) (maximumRecords : Z)
  (fromResource : result.RoundRobinLineSel) : M result.RoundRobinLineSel :=
  results ← getResults;
  if (Z.of_nat (length results) <? maximumRecords)%Z then
    let '(more, fromResource') := result.Next fromResource in
    if more then
      match fuel with
      | O => outOfFuel
      | S fuel' =>
          match corpus.GetResource (corpus.Resources (corporaConf a))
                  (result.CurrRscName fromResource') with
          | Err err =>
              AddError (generalSystemError err
                          (AsMessage general.DCGeneralSystemError)) ;;
              exit http.StatusInternalServerError
          | Ok res =>
              let row :=
                {| Position := Z.of_nat (length results) + 1;
                   PID := result.CurrRscName fromResource';
                   Ref := corpus.URI res;
                   Tokens := map toToken
                               (rdb.Text (result.CurrLine fromResource')) |} in
              setResults (results ++ [row]) ;;
              mergeLoop fuel' a maximumRecords fromResource'
          end
      end
    else mret fromResource'
  else mret fromResource.

(** Line 266: the results become a fresh, empty slice with room for
    [maximumRecords] rows, if the runtime gives one. *)
Definition makeResults (maximumRecords : Z) : M unit :=
  if makeRows maximumRecords then setResults [] else panic.

(** Lines 266-296. *)
Definition merge (a : FCSSubHandlerV12) (maximumRecords : Z)
  (fromResource : result.RoundRobinLineSel) : M unit :=
  makeResults maximumRecords ;;
  mergeLoop (result.remaining (result.Slots fromResource))
    a maximumRecords fromResource ;;
  exit http.StatusOK.

(** Lines 69-167: the request is validated and the corpora chosen. *)
Definition validate (a : FCSSubHandlerV12) (ctx : gin.Context)
  : M srLocals :=
  checkParams (url.keys (gin.URLQuery ctx)) ;;
  fcsQuery ← readQuery ctx;
  startRecord ← readStartRecord ctx;
  maximumRecords ← readMaximumRecords a ctx;
  let corpora := selectCorpora a ctx in
  checkCorpora a corpora ;;
  retrieveAttrs ← commonAttrs a corpora;
  mret {| fcsQuery := fcsQuery; startRecord := startRecord;
          maximumRecords := maximumRecords; corpora := corpora;
          retrieveAttrs := retrieveAttrs |}.

Definition ranges (l : srLocals) : list query.PartialRange :=
  query.CalculatePartialRanges (corpora l) (startRecord l - 1)
    (maximumRecords l).

Definition searchRetrieve (a : FCSSubHandlerV12) (ctx : gin.Context)
  : M unit :=
  l ← validate a ctx;
  waits ← dispatch a (fcsQuery l) (retrieveAttrs l) (maximumRecords l)
            0 (ranges l);
  let fromResource :=
    result.NewRoundRobinLineSel (maximumRecords l) (corpora l) in
  fromResource' ← collect (corpora l) 0 waits fromResource;
  classify fromResource' ;;
  merge a (maximumRecords l) fromResource'.


(** *** Notions the properties are stated with *)

(** The registry has the corpus. *)
Definition resolves (a : FCSSubHandlerV12) (name : string) : Prop :=
  exists res,
    corpus.GetResource (corpus.Resources (corporaConf a)) name = Ok res.

(** The value [maximumRecords] has when its validation starts: the
    configured one unless the parameter carries a non-empty text. *)
Definition maximumRecordsText (a : FCSSubHandlerV12) (ctx : gin.Context) : option Z :=
  if (0 <? String.length (gin.Query ctx SearchMaximumRecords))%nat
  then strconv.Atoi (gin.Query ctx SearchMaximumRecords)
  else Some (corpus.MaximumRecords (corporaConf a)).

(** The job [dispatch] builds for a range entry from the generated
    CQL. *)
Definition jobArgs (a : FCSSubHandlerV12) (attrs : list string) (K : Z)
  (rng : query.PartialRange) (cql : string) : rdb.ConcExampleArgs :=
  {| rdb.CorpusPath := GetRegistryPath (corporaConf a) (query.Rsc rng);
     rdb.QueryCQL := cql;
     rdb.Attrs := attrs;
     rdb.StartLine := query.From rng;
     rdb.MaxItems := K |}.

Definition isJobFor (a : FCSSubHandlerV12) (attrs : list string) (K : Z)
  (rng : query.PartialRange) (job : rdb.Query Payload) : Prop :=
  exists cql,
    rdb.Func job = "concExample" /\
    Marshal (jobArgs a attrs K rng cql) = Ok (rdb.Args job).

(** A computation that leaves the log of published jobs as it is. *)
Definition quiet {A} (m : M A) : Prop :=
  forall w, Published (worldOf (m w)) = Published w.

(** What is claimed of the row at index [j] of the results. *)
Definition rowOk (a : FCSSubHandlerV12) (names : list string) (j : nat) (row : FCSSearchRow)
  : Prop :=
  Position row = (Z.of_nat j + 1)%Z /\
  PID row ∈ names /\
  exists res,
    corpus.GetResource (corpus.Resources (corporaConf a)) (PID row) = Ok res /\
    Ref row = corpus.URI res.

Definition rowsOk (a : FCSSubHandlerV12) (names : list string) (rows : list FCSSearchRow)
  : Prop :=
  forall j row, rows !! j = Some row -> rowOk a names j row.

(** The page as the specification words it, to be compared with what
    [mergeLoop] leaves in the response: "the caller drains [Next()]
    until the accumulated output reaches [K] rows or [Next()] returns
    false.  Row positions are assigned [1..K] in emission order; [pid] is
    the contributing corpus", [ref] "the resource URI" and the tokens the
    text and the hit mark of the row drawn.  [n] is the number of rows
    still wanted, [position] the position of the next one. *)
Fixpoint drainSpec (a : FCSSubHandlerV12) (n : nat) (position : Z)
  (fromResource : result.RoundRobinLineSel) : list FCSSearchRow :=
  match n with
  | O => []
  | S n' =>
      match result.Next fromResource with
      | (true, fromResource') =>
          {| Position := position;
             PID := result.CurrRscName fromResource';
             Ref := match corpus.GetResource
                            (corpus.Resources (corporaConf a))
                            (result.CurrRscName fromResource') with
                    | Ok res => corpus.URI res
                    | Err _ => EmptyString
                    end;
             Tokens := map toToken
                         (rdb.Text (result.CurrLine fromResource')) |}
          :: drainSpec a n' (position + 1) fromResource'
      | (false, _) => []
      end
  end.

(** The later steps of [searchRetrieve] leave the diagnostics, the
    records and the echoed request as they are ([frame]) or add one
    diagnostic of a code that goes with the status ([rejected]). *)
Definition frame (w w' : World) : Prop :=
  GeneralErrors (Response w') = GeneralErrors (Response w) /\
  Results (Response w') = Results (Response w) /\
  EchoedQuery (Response w') = EchoedQuery (Response w) /\
  EchoedStartRecord (Response w') = EchoedStartRecord (Response w).

Definition rejected (tbl : list (Z * general.DiagnosticCode))
  (w : World) (s : Z) (w' : World) : Prop :=
  exists e,
    (s, general.Code e) ∈ tbl /\
    GeneralErrors (Response w') = GeneralErrors (Response w) ++ [e] /\
    Results (Response w') = Results (Response w) /\
    EchoedQuery (Response w') = EchoedQuery (Response w) /\
    EchoedStartRecord (Response w') = EchoedStartRecord (Response w).

Definition phaseOk {A} (tbl : list (Z * general.DiagnosticCode)) (m : M A)
  : Prop :=
  forall w,
    match m w with
    | Continue _ w' => frame w w'
    | Return s w' => rejected tbl w s w'
    | Panic _ | OutOfFuel _ => True
    end.

(** The statuses and codes of the steps. *)
Definition validateTable : list (Z * general.DiagnosticCode) :=
  [(400%Z, general.DCUnsupportedParameter);
   (400%Z, general.DCMandatoryParameterNotSupplied);
   (422%Z, general.DCUnsupportedParameterValue);
   (400%Z, general.DCUnsupportedParameterValue);
   (500%Z, general.DCGeneralSystemError)].

Definition dispatchTable : list (Z * general.DiagnosticCode) :=
  [(422%Z, general.DCQuerySyntaxError);
   (422%Z, general.DCQueryCannotProcess);
   (500%Z, general.DCGeneralSystemError)].

Definition collectTable : list (Z * general.DiagnosticCode) :=
  [(500%Z, general.DCGeneralSystemError);
   (500%Z, general.DCQueryCannotProcess)].

Definition classifyTable : list (Z * general.DiagnosticCode) :=
  [(422%Z, general.DCFirstRecordPosOutOfRange);
   (500%Z, general.DCQueryCannotProcess)].

(** A computation that goes on or returns, whatever the state: it
    neither panics nor is cut short. *)
Definition settles {A} (m : M A) : Prop :=
  forall w,
    match m w with
    | Continue _ _ | Return _ _ => True
    | Panic _ | OutOfFuel _ => False
    end.

(** The job of a range entry: the CQL generated, without errors, from
    the query parsed for the attributes and structures of the entry's
    corpus, encoded with the common attributes and the window. *)
Definition jobOf (a : FCSSubHandlerV12) (fcsQuery : string)
  (attrs : list string) (K : Z) (rng : query.PartialRange)
  (job : rdb.Query Payload) : Prop :=
  exists res ast cql,
    corpus.GetResource (corpus.Resources (corporaConf a)) (query.Rsc rng)
      = Ok res /\
    ParseQuery fcsQuery (corpus.PosAttrs res) (corpus.StructMapping res)
      = Ok ast /\
    Generate ast = (cql, []) /\
    rdb.Func job = "concExample" /\
    Marshal (jobArgs a attrs K rng cql) = Ok (rdb.Args job).

End Handler.

Arguments World : clear implicits.
Arguments Step : clear implicits.
Arguments M : clear implicits.
Arguments Continue {Payload A} a w.
Arguments Return {Payload A} status w.
Arguments Panic {Payload A} w.
Arguments OutOfFuel {Payload A} w.

End v12.

(** ** A concrete installation

    Two corpora behind a toy queue: enough to run the handler on
    requests and to have inputs for the theorems below. *)
Module demo.

Definition knownArgs : list string :=
  ["operation"; "version"; "query"; "startRecord"; "maximumRecords";
   "x-fcs-context"].

Definition Validate (key : string) : option string :=
  if existsb (String.eqb key) knownArgs then None
  else Some ("unsupported argument " +:+ key).

Definition AsMessage (c : general.DiagnosticCode) : string :=
  match c with
  | general.DCGeneralSystemError => "General system error"
  | general.DCUnsupportedParameter => "Unsupported parameter"
  | general.DCUnsupportedParameterValue => "Unsupported parameter value"
  | general.DCMandatoryParameterNotSupplied =>
      "Mandatory parameter not supplied"
  | general.DCQuerySyntaxError => "Query syntax error"
  | general.DCQueryCannotProcess => "Cannot process query; reason unknown"
  | general.DCFirstRecordPosOutOfRange =>
      "First record position out of range"
  end.

(** A one-word query language.  The word [(] does not parse; a word
    [@name] asks for the attribute [name], which the corpus may not
    have; any other word is looked up in [word].  The AST is the word
    with the attribute names of the corpus it was parsed for. *)
Definition ParseQuery (q : string) (attrs : list corpus.PosAttr)
  (sm : corpus.StructureMapping) : result (string * list string) :=
  if String.eqb q "(" then Err "1:1: no match found"
  else Ok (q, map corpus.Name attrs).

Definition Generate (ast : string * list string) : string * list string :=
  match fst ast with
  | String "@" attr =>
      ("[" +:+ attr +:+ "=.*]",
       if corpus.hasName (snd ast) attr then []
       else ["unknown attribute " +:+ attr])
  | q => ("[word=" +:+ q +:+ "]", [])
  end.

Definition GetRegistryPath (conf : corpus.CorporaSetup) (name : string)
  : string := "/var/lib/manatee/registry/" +:+ name.

Definition Marshal (args : rdb.ConcExampleArgs)
  : result rdb.ConcExampleArgs := Ok args.

Definition line (w : string) : rdb.ConcordanceLine :=
  {| rdb.Text := [ {| rdb.Word := w; rdb.Strong := true |} ] |}.

(** What each corpus holds for any query. *)
Definition concordance (path : string) : list rdb.ConcordanceLine :=
  if String.eqb path "/var/lib/manatee/registry/a"
  then [line "a1"; line "a2"]
  else if String.eqb path "/var/lib/manatee/registry/b"
  then [line "b1"; line "b2"; line "b3"]
  else [].

(** The worker: the rows [StartLine, StartLine + MaxItems) of the
    concordance, the sentinel error when [StartLine] is past its end, and
    another error for the query [[word=crash]].  The raw reply of the
    query [[word=garbled]] does not decode. *)
Definition worker (args : rdb.ConcExampleArgs)
  : result rdb.ConcExampleResult :=
  let conc := concordance (rdb.CorpusPath args) in
  if String.eqb (rdb.QueryCQL args) "[word=garbled]" then
    Err "unexpected end of JSON input"
  else if String.eqb (rdb.QueryCQL args) "[word=crash]" then
    Ok {| rdb.Lines := []; rdb.ResErr := Some "corpus engine failure" |}
  else if (length conc <=? Z.to_nat (rdb.StartLine args))%nat then
    Ok {| rdb.Lines := [];
          rdb.ResErr := Some mango.ErrRowsRangeOutOfConc |}
  else
    Ok {| rdb.Lines := take (Z.to_nat (rdb.MaxItems args))
                         (drop (Z.to_nat (rdb.StartLine args)) conc);
          rdb.ResErr := None |}.

Definition PublishQuery (i : nat) (q : rdb.Query rdb.ConcExampleArgs)
  : result (result rdb.ConcExampleResult) :=
  Ok (worker (rdb.Args q)).

(** A queue that is down from the second job of a request on, and an
    encoder that gives up on the job of corpus [b]. *)
Definition PublishQueryDown (i : nat) (q : rdb.Query rdb.ConcExampleArgs)
  : result (result rdb.ConcExampleResult) :=
  if (1 <=? i)%nat then Err "redis: connection refused"
  else PublishQuery i q.

Definition MarshalPartial (args : rdb.ConcExampleArgs)
  : result rdb.ConcExampleArgs :=
  if String.eqb (rdb.CorpusPath args) "/var/lib/manatee/registry/b"
  then Err "json: unsupported value"
  else Ok args.

Definition DeserializeConcExampleResult
  (raw : result rdb.ConcExampleResult) : result rdb.ConcExampleResult := raw.

(** The runtime gives a slice of up to 2^42 rows, which is 2^48 bytes
    of rows of 64 bytes. *)
Definition makeRows (cap : Z) : bool := (cap <=? 4398046511104)%Z.

Definition noMapping : corpus.StructureMapping :=
  {| corpus.SentenceStruct := "s"; corpus.UtteranceStruct := "";
     corpus.ParagraphStruct := "p"; corpus.TurnStruct := "";
     corpus.TextStruct := "doc"; corpus.SessionStruct := "" |}.

Definition word : corpus.PosAttr :=
  {| corpus.ID := "w"; corpus.Name := "word"; corpus.Layer := "text";
     corpus.IsLayerDefault := true |}.

Definition lemma : corpus.PosAttr :=
  {| corpus.ID := "l"; corpus.Name := "lemma"; corpus.Layer := "lemma";
     corpus.IsLayerDefault := true |}.

Definition rsc (name : string) (attrs : list corpus.PosAttr)
  : corpus.CorpusSetup :=
  {| corpus.rscName := name;
     corpus.URI := "https://example.org/corpora/" +:+ name;
     corpus.PosAttrs := attrs;
     corpus.StructMapping := noMapping |}.

(** Corpus [a] has the attributes [word] and [lemma], corpus [b] only
    [word]. *)
Definition handler : v12.FCSSubHandlerV12 :=
  {| v12.corporaConf :=
       {| corpus.Resources := [rsc "a" [word; lemma]; rsc "b" [word]];
          corpus.MaximumRecords := 4 |} |}.

Definition request (params : list (string * string)) : gin.Context :=
  {| gin.URLQuery := map (fun p => (fst p, [snd p])) params |}.

(** The requests used below. *)
Definition reqPlain : gin.Context := request [("query", "cat")].
Definition reqBogus : gin.Context :=
  request [("startRecord", "x"); ("bogus", "1")].
Definition reqStartZero : gin.Context :=
  request [("query", "cat"); ("startRecord", "0")].
Definition reqEmptyMaximum : gin.Context :=
  request [("query", "cat"); ("maximumRecords", "")].
Definition reqContextB : gin.Context :=
  request [("query", "cat"); ("x-fcs-context", "b")].
Definition reqContextUnknown : gin.Context :=
  request [("query", "cat"); ("x-fcs-context", "nosuch")].
Definition reqPage : gin.Context :=
  request [("query", "cat"); ("startRecord", "2"); ("maximumRecords", "3")].
Definition reqThird : gin.Context :=
  request [("query", "cat"); ("startRecord", "3")].
Definition reqFar : gin.Context :=
  request [("query", "cat"); ("startRecord", "1000")].
Definition reqLemma : gin.Context := request [("query", "@lemma")].
Definition reqNoQuery : gin.Context := request [("startRecord", "0")].
Definition reqContextQuery : gin.Context :=
  request [("query", "cat"); ("x-fcs-context", "query")].
Definition reqHuge : gin.Context :=
  request [("query", "cat"); ("maximumRecords", "9223372036854775807")].

Definition fresh : v12.World rdb.ConcExampleArgs :=
  {| v12.Response := v12.emptyResponse; v12.Published := [] |}.

Definition validate (ctx : gin.Context)
  : v12.Step rdb.ConcExampleArgs v12.srLocals :=
  v12.validate Validate AsMessage handler ctx fresh.

Definition dispatch (l : v12.srLocals) (rs : list query.PartialRange)
  : v12.M rdb.ConcExampleArgs (list (result rdb.ConcExampleResult)) :=
  v12.dispatch AsMessage ParseQuery Generate GetRegistryPath Marshal
    PublishQuery handler (v12.fcsQuery l) (v12.retrieveAttrs l)
    (v12.maximumRecords l) 0 rs.

Definition collect (l : v12.srLocals)
  (waits : list (result rdb.ConcExampleResult))
  : v12.M rdb.ConcExampleArgs result.RoundRobinLineSel :=
  v12.collect AsMessage DeserializeConcExampleResult (v12.corpora l) 0 waits
    (result.NewRoundRobinLineSel (v12.maximumRecords l) (v12.corpora l)).

Definition searchRetrieve (ctx : gin.Context)
  : v12.Step rdb.ConcExampleArgs unit :=
  v12.searchRetrieve Validate AsMessage ParseQuery Generate GetRegistryPath
    Marshal PublishQuery DeserializeConcExampleResult makeRows handler ctx
    fresh.

(** What a run of [searchRetrieve] shows to the client and to the
    queue: the status, the diagnostics' codes, the corpus and the text of
    the first token of each record, and the corpus path of each job. *)
Definition observe (s : v12.Step rdb.ConcExampleArgs unit)
  : option Z * list general.DiagnosticCode * list (string * string)
    * list string :=
  let w := v12.worldOf s in
  (match s with v12.Return status _ => Some status | _ => None end,
   map general.Code (v12.GeneralErrors (v12.Response w)),
   map (fun r => (v12.PID r,
                  match v12.Tokens r with
                  | t :: _ => v12.TokText t
                  | [] => ""
                  end)) (v12.Results (v12.Response w)),
   map (fun q => rdb.CorpusPath (rdb.Args q)) (v12.Published w)).

End demo.

(** ** Package [cnf]: the configuration (conf.go) *)
Module cnf.

Definition dfltServerWriteTimeoutSecs : Z := 30.
Definition dfltTimeZone : string := "Europe/Prague".
Definition dfltSourcesRootDir : string := ".".
Definition dfltAssetsURLPath : string := "/".

(** A Go map that may be [nil] is an [option]: [None] is the nil map,
    [Some ∅] the empty one. *)
Record ServerInfo := {
  ServerHost : string;
  ServerPort : string;
  Database : string;
  DatabaseTitle : option (gmap string string);
  DatabaseDescription : option (gmap string string);
  DatabaseAuthor : option (gmap string string);
  PrimaryLanguage : string;
  ExternalURLPath : string
}.

(** [_, ok := m["en"]] *)
Definition hasEn (m : gmap string string) : bool :=
  bool_decide (is_Some (m !! "en")).

(** What the check of an optional section contributes: nothing for a
    nil map or a map with an [en] entry, the error otherwise. *)
Definition optionalEn (m : option (gmap string string)) (err : string)
  (rest : option string) : option string :=
  match m with
  | Some m' => if hasEn m' then rest else Some err
  | None => rest
  end.

(** The method [Validate] of [ServerInfo], lines 82-120; the receiver
    may be nil. *)
Definition Validate (s : option ServerInfo) : option string :=
  match s with
  | None => Some "missing serverInfo section"
  | Some s =>
      if String.eqb (ServerHost s) "" then
        Some "missing configuration `serverInfo.ServerHost`"
      else if String.eqb (ServerPort s) "" then
        Some "missing configuration `serverInfo.ServerPort`"
      else if String.eqb (Database s) "" then
        Some "missing configuration `serverInfo.Database`"
      else
        match DatabaseTitle s with
        | None =>
            Some "missing configuration section `serverInfo.databaseTitle`"
        | Some title =>
            if negb (hasEn title) then
              Some "missing required configuration for `serverInfo.databaseTitle.en`"
            else
              optionalEn (DatabaseDescription s)
                "missing required configuration for `serverInfo.databaseDescription.en`"
                (optionalEn (DatabaseAuthor s)
                   "missing required configuration for `serverInfo.databaseAuthor.en`"
                   None)
        end
  end.

Record WatchdogReqFilter := {
  HTTPIdHeaderName : string;
  HTTPIdHeaderToken : string
}.

(** The corpora section: the fields of [corpus.CorporaSetup] the
    handler reads, and the directory of per-corpus files that the loader
    reads. *)
Record CorporaSetup := {
  Setup : corpus.CorporaSetup;
  ResourcesConfDir : string
}.

Definition appendResources (rsrcs : list corpus.CorpusSetup)
  (cs : CorporaSetup) : CorporaSetup :=
  {| Setup :=
       {| corpus.Resources := corpus.Resources (Setup cs) ++ rsrcs;
          corpus.MaximumRecords := corpus.MaximumRecords (Setup cs) |};
     ResourcesConfDir := ResourcesConfDir cs |}.

(** What the process writes: log entries, with their fields, and lines
    on the standard output. *)
Inductive Level : Type := LevelWarn | LevelFatal.

Inductive Event : Type :=
| Log (level : Level) (fields : list (string * string)) (msg : string)
| Stdout (line : string).

(** A computation ends with a value, or the process exits
    ([log.Fatal] calls [os.Exit] once the entry is written), or it
    panics on a nil pointer; in each case with what was written. *)
Inductive Outcome (A : Type) : Type :=
| Done (a : A) (out : list Event)
| Exit (out : list Event)
| Panic (out : list Event).
Arguments Done {A} a out.
Arguments Exit {A} out.
Arguments Panic {A} out.

#[global] Instance Outcome_ret : MRet Outcome := fun A a => Done a [].

#[global] Instance Outcome_bind : MBind Outcome := fun A B f m =>
  match m with
  | Done a out =>
      match f a with
      | Done b out' => Done b (out ++ out')
      | Exit out' => Exit (out ++ out')
      | Panic out' => Panic (out ++ out')
      end
  | Exit out => Exit out
  | Panic out => Panic out
  end.

Definition written {A} (o : Outcome A) : list Event :=
  match o with Done _ out | Exit out | Panic out => out end.

Definition warn (fields : list (string * string)) (msg : string)
  : Outcome unit := Done tt [Log LevelWarn fields msg].

Definition fatal {A} (fields : list (string * string)) (msg : string)
  : Outcome A := Exit [Log LevelFatal fields msg].

Definition println (line : string) : Outcome unit := Done tt [Stdout line].

Definition nilPointer {A} : Outcome A := Panic [].

Section Conf.

(** The types and functions of other packages that the configuration
    refers to: the Redis and logging sections, [time.Location] with
    [time.LoadLocation], the validators of the corpora and Redis
    sections (the former may change the section it validates), the
    file system, [filepath.Join] and the JSON decoders. *)
Context {RedisConf LoggingConf Location : Type}.

Record Conf := {
  ListenAddress : string;
  ListenPort : Z;
  ServerReadTimeoutSecs : Z;
  ServerWriteTimeoutSecs : Z;
  CorsAllowedOrigins : list string;
  TrustedProxies : list string;
  SourcesRootDir : string;
  AssetsURLPath : string;
  Info : option ServerInfo;
  Watchdog : option WatchdogReqFilter;
  Corpora : option CorporaSetup;
  Redis : option RedisConf;
  Logging : LoggingConf;
  TimeZone : string;
  srcPath : string
}.

Variable LoadLocation : string -> result Location.
Variable CorporaValidateAndDefaults :
  option CorporaSetup -> string -> option CorporaSetup * option string.
Variable RedisValidate : option RedisConf -> option string.
Variable ReadDir : string -> result (list string).
Variable ReadFile : string -> result string.
Variable Join : string -> string -> string.
Variable UnmarshalConf : string -> result Conf.
Variable UnmarshalCorpus : string -> result corpus.CorpusSetup.

Definition withServerWriteTimeoutSecs (n : Z) (c : Conf) : Conf :=
  {| ListenAddress := ListenAddress c; ListenPort := ListenPort c;
     ServerReadTimeoutSecs := ServerReadTimeoutSecs c;
     ServerWriteTimeoutSecs := n;
     CorsAllowedOrigins := CorsAllowedOrigins c;
     TrustedProxies := TrustedProxies c;
     SourcesRootDir := SourcesRootDir c; AssetsURLPath := AssetsURLPath c;
     Info := Info c; Watchdog := Watchdog c; Corpora := Corpora c;
     Redis := Redis c; Logging := Logging c; TimeZone := TimeZone c;
     srcPath := srcPath c |}.

Definition withSourcesRootDir (d : string) (c : Conf) : Conf :=
  {| ListenAddress := ListenAddress c; ListenPort := ListenPort c;
     ServerReadTimeoutSecs := ServerReadTimeoutSecs c;
     ServerWriteTimeoutSecs := ServerWriteTimeoutSecs c;
     CorsAllowedOrigins := CorsAllowedOrigins c;
     TrustedProxies := TrustedProxies c;
     SourcesRootDir := d; AssetsURLPath := AssetsURLPath c;
     Info := Info c; Watchdog := Watchdog c; Corpora := Corpora c;
     Redis := Redis c; Logging := Logging c; TimeZone := TimeZone c;
     srcPath := srcPath c |}.

Definition withAssetsURLPath (u : string) (c : Conf) : Conf :=
  {| ListenAddress := ListenAddress c; ListenPort := ListenPort c;
     ServerReadTimeoutSecs := ServerReadTimeoutSecs c;
     ServerWriteTimeoutSecs := ServerWriteTimeoutSecs c;
     CorsAllowedOrigins := CorsAllowedOrigins c;
     TrustedProxies := TrustedProxies c;
     SourcesRootDir := SourcesRootDir c; AssetsURLPath := u;
     Info := Info c; Watchdog := Watchdog c; Corpora := Corpora c;
     Redis := Redis c; Logging := Logging c; TimeZone := TimeZone c;
     srcPath := srcPath c |}.

Definition withCorpora (cs : option CorporaSetup) (c : Conf) : Conf :=
  {| ListenAddress := ListenAddress c; ListenPort := ListenPort c;
     ServerReadTimeoutSecs := ServerReadTimeoutSecs c;
     ServerWriteTimeoutSecs := ServerWriteTimeoutSecs c;
     CorsAllowedOrigins := CorsAllowedOrigins c;
     TrustedProxies := TrustedProxies c;
     SourcesRootDir := SourcesRootDir c; AssetsURLPath := AssetsURLPath c;
     Info := Info c; Watchdog := Watchdog c; Corpora := cs;
     Redis := Redis c; Logging := Logging c; TimeZone := TimeZone c;
     srcPath := srcPath c |}.

Definition withSrcPath (path : string) (c : Conf) : Conf :=
  {| ListenAddress := ListenAddress c; ListenPort := ListenPort c;
     ServerReadTimeoutSecs := ServerReadTimeoutSecs c;
     ServerWriteTimeoutSecs := ServerWriteTimeoutSecs c;
     CorsAllowedOrigins := CorsAllowedOrigins c;
     TrustedProxies := TrustedProxies c;
     SourcesRootDir := SourcesRootDir c; AssetsURLPath := AssetsURLPath c;
     Info := Info c; Watchdog := Watchdog c; Corpora := Corpora c;
     Redis := Redis c; Logging := Logging c; TimeZone := TimeZone c;
     srcPath := path |}.

(** The method [TimezoneLocation] of [Conf], lines 153-159: the error of
    [time.LoadLocation] is dropped, which leaves a nil location. *)
Definition TimezoneLocation (conf : Conf) : option Location :=
  match LoadLocation (TimeZone conf) with
  | Ok loc => Some loc
  | Err _ => None
  end.

(** [loadResources], lines 181-193: the loop over the directory
    entries, with the resources read so far. *)
Fixpoint loadItems (path : string) (items : list string)
  (ans : list corpus.CorpusSetup)
  : Outcome (list corpus.CorpusSetup * option string) :=
  match items with
  | [] => mret (ans, None)
  | item :: rest =>
      println ("item:  " +:+ item) ;;
      match ReadFile (Join path item) with
      | Err err =>
          mret (ans, Some ("failed to list resource conf file " +:+ item
                           +:+ ": " +:+ err))
      | Ok rawConf =>
          match UnmarshalCorpus rawConf with
          | Err err =>
              mret (ans, Some ("failed to parse resource conf file "
                               +:+ item +:+ ": " +:+ err))
          | Ok cs => loadItems path rest (ans ++ [cs])
          end
      end
  end.

(** [loadResources], lines 175-195. *)
Definition loadResources (path : string)
  : Outcome (list corpus.CorpusSetup * option string) :=
  match ReadDir path with
  | Err err =>
      mret ([], Some ("failed to list resource conf directory: " +:+ err))
  | Ok items => loadItems path items []
  end.

(** [LoadConfig], lines 197-219.  The decoder fills the exported
    fields, so [srcPath] keeps the path assigned before the decoding;
    [conf.CorporaSetup.ResourcesConfDir] on a configuration without the
    corpora section reads through a nil pointer. *)
Definition LoadConfig (path : string) : Outcome Conf :=
  if String.eqb path "" then
    fatal [] "Cannot load config - path not specified"
  else
    match ReadFile path with
    | Err err => fatal [("error", err)] "Cannot load config"
    | Ok rawData =>
        match UnmarshalConf rawData with
        | Err err => fatal [("error", err)] "Cannot load config"
        | Ok decoded =>
            let conf := withSrcPath path decoded in
            match Corpora conf with
            | None => nilPointer
            | Some cs =>
                if negb (String.eqb (ResourcesConfDir cs) "") then
                  r ← loadResources (ResourcesConfDir cs);
                  match snd r with
                  | Some err =>
                      fatal [("error", err)]
                        "Cannot load individual resource configs"
                  | None =>
                      mret (withCorpora
                              (Some (appendResources (fst r) cs)) conf)
                  end
                else mret conf
            end
        end
    end.

(** [ValidateAndDefaults], lines 221-267. *)
Definition ValidateAndDefaults (conf : Conf) : Outcome Conf :=
  conf ←
    (if (ServerWriteTimeoutSecs conf =? 0)%Z then
       warn [] "serverWriteTimeoutSecs not specified, using default: 30" ;;
       mret (withServerWriteTimeoutSecs dfltServerWriteTimeoutSecs conf)
     else mret conf);
  match Validate (Info conf) with
  | Some err => fatal [("error", err)] "invalid configuration"
  | None =>
      let '(cs1, e1) := CorporaValidateAndDefaults (Corpora conf) "corpora" in
      match e1 with
      | Some err => fatal [("error", err)] "invalid configuration"
      | None =>
          let '(cs2, e2) := CorporaValidateAndDefaults cs1 "corporaSetup" in
          let conf := withCorpora cs2 conf in
          match e2 with
          | Some err => fatal [("error", err)] "invalid configuration"
          | None =>
              match RedisValidate (Redis conf) with
              | Some err => fatal [("error", err)] "invalid configuration"
              | None =>
                  (if String.eqb (TimeZone conf) "" then
                     warn [("timeZone", dfltTimeZone)]
                       "time zone not specified, using default"
                   else mret tt) ;;
                  match LoadLocation (TimeZone conf) with
                  | Err err => fatal [("error", err)] "invalid time zone"
                  | Ok _ =>
                      conf ←
                        (if String.eqb (SourcesRootDir conf) "" then
                           warn [("sourcesRootDir", dfltSourcesRootDir)]
                             "sources root directory not specified, using default" ;;
                           mret (withSourcesRootDir dfltSourcesRootDir conf)
                         else mret conf);
                      (if String.eqb (AssetsURLPath conf) "" then
                         warn [("assetsURLPath", dfltAssetsURLPath)]
                           "URL path of assets not set, using default (this is needed only for UI features)" ;;
                         mret (withAssetsURLPath dfltAssetsURLPath conf)
                       else mret conf)
                  end
              end
          end
      end
  end.

(** The file [item] of the directory [path] reads and decodes as
    [cs]. *)
Definition readsAs (path item : string) (cs : corpus.CorpusSetup) : Prop :=
  exists rawConf,
    ReadFile (Join path item) = Ok rawConf /\
    UnmarshalCorpus rawConf = Ok cs.

End Conf.

Arguments Conf : clear implicits.

End cnf.

(** ** Package [main]: the environment (main.go) *)
Module main.

(** [getEnv], lines 41-49, over what [os.Environ()] returns. *)
Fixpoint getEnv (environ : list string) (name : string) : string :=
  match environ with
  | [] => ""
  | p :: rest =>
      match gostrings.Split p "=" with
      | [item0; item1] =>
          if String.eqb item0 name then item1 else getEnv rest name
      | _ => getEnv rest name
      end
  end.

(** The number of bytes [c] in [s], and whether the entry [p] is one
    that [getEnv] takes for a definition of [name]. *)
Fixpoint countByte (c : ascii) (s : string) : nat :=
  match s with
  | EmptyString => 0
  | String c' r => (if Ascii.eqb c' c then 1 else 0) + countByte c r
  end.

Definition defines (name p : string) : bool :=
  match gostrings.Split p "=" with
  | [item0; _] => String.eqb item0 name
  | _ => false
  end.

(** [getWorkerID], lines 112-118. *)
Definition getWorkerID (environ : list string) : string :=
  let workerID := getEnv environ "WORKER_ID" in
  if String.eqb workerID "" then "0" else workerID.

End main.

(** ** A concrete configuration

    A small file system with a main configuration file and a directory
    of two resource files, and stand-ins for the validators of the other
    packages. *)
Module demoConf.

Definition LoadLocation (name : string) : result string :=
  if String.eqb name "" then Ok "UTC"
  else if String.eqb name "Europe/Prague" then Ok "Europe/Prague"
  else Err ("unknown time zone " +:+ name).

Definition CorporaValidateAndDefaults (cs : option cnf.CorporaSetup)
  (name : string) : option cnf.CorporaSetup * option string :=
  match cs with
  | None => (None, Some ("missing configuration section " +:+ name))
  | Some _ => (cs, None)
  end.

Definition RedisValidate (r : option string) : option string :=
  match r with
  | None => Some "missing redis section"
  | Some _ => None
  end.

Definition ReadDir (path : string) : result (list string) :=
  if String.eqb path "/etc/fcs/resources" then Ok ["a.json"; "b.json"]
  else Err ("open " +:+ path +:+ ": no such file or directory").

Definition ReadFile (path : string) : result string :=
  if String.eqb path "/etc/fcs/conf.json" then Ok "main"
  else if String.eqb path "/etc/fcs/bare.json" then Ok "bare"
  else if String.eqb path "/etc/fcs/resources/a.json" then Ok "a"
  else if String.eqb path "/etc/fcs/resources/b.json" then Ok "b"
  else Err ("open " +:+ path +:+ ": no such file or directory").

Definition Join (dir name : string) : string := dir +:+ "/" +:+ name.

Definition UnmarshalCorpus (raw : string) : result corpus.CorpusSetup :=
  if String.eqb raw "a" then Ok (demo.rsc "a" [demo.word; demo.lemma])
  else if String.eqb raw "b" then Ok (demo.rsc "b" [demo.word])
  else Err "unexpected end of JSON input".

Definition info : cnf.ServerInfo :=
  {| cnf.ServerHost := "fcs.example.org";
     cnf.ServerPort := "443";
     cnf.Database := "fcs";
     cnf.DatabaseTitle := Some {[ "en" := "" ]};
     cnf.DatabaseDescription := None;
     cnf.DatabaseAuthor := Some {[ "cs" := "UCNK"; "en" := "CNC" ]};
     cnf.PrimaryLanguage := "";
     cnf.ExternalURLPath := "" |}.

(** What the main file decodes to: no write timeout, no sources root,
    no time zone, one resource given in the file itself. *)
Definition decoded (corpora : option cnf.CorporaSetup)
  : cnf.Conf string unit :=
  {| cnf.ListenAddress := "127.0.0.1";
     cnf.ListenPort := 8080;
     cnf.ServerReadTimeoutSecs := 0;
     cnf.ServerWriteTimeoutSecs := 0;
     cnf.CorsAllowedOrigins := [];
     cnf.TrustedProxies := [];
     cnf.SourcesRootDir := "";
     cnf.AssetsURLPath := "/static";
     cnf.Info := Some info;
     cnf.Watchdog := None;
     cnf.Corpora := corpora;
     cnf.Redis := Some "127.0.0.1:6379";
     cnf.Logging := tt;
     cnf.TimeZone := "";
     cnf.srcPath := "" |}.

Definition inlineCorpora : cnf.CorporaSetup :=
  {| cnf.Setup :=
       {| corpus.Resources := [demo.rsc "inline" [demo.word]];
          corpus.MaximumRecords := 50 |};
     cnf.ResourcesConfDir := "/etc/fcs/resources" |}.

Definition UnmarshalConf (raw : string) : result (cnf.Conf string unit) :=
  if String.eqb raw "main" then Ok (decoded (Some inlineCorpora))
  else if String.eqb raw "bare" then Ok (decoded None)
  else Err "invalid character".

Definition LoadConfig (path : string) : cnf.Outcome (cnf.Conf string unit) :=
  cnf.LoadConfig ReadDir ReadFile Join UnmarshalConf UnmarshalCorpus path.

(** What loading the main file gives, and what validation makes of
    it. *)
Definition loaded : cnf.Conf string unit :=
  cnf.withCorpora
    (Some (cnf.appendResources
             [demo.rsc "a" [demo.word; demo.lemma]; demo.rsc "b" [demo.word]]
             inlineCorpora))
    (cnf.withSrcPath "/etc/fcs/conf.json" (decoded (Some inlineCorpora))).

Definition validated : cnf.Conf string unit :=
  cnf.withSourcesRootDir "."
    (cnf.withCorpora (cnf.Corpora loaded)
       (cnf.withServerWriteTimeoutSecs 30 loaded)).

Definition validationLog : list cnf.Event :=
  [cnf.Log cnf.LevelWarn []
     "serverWriteTimeoutSecs not specified, using default: 30";
   cnf.Log cnf.LevelWarn [("timeZone", "Europe/Prague")]
     "time zone not specified, using default";
   cnf.Log cnf.LevelWarn [("sourcesRootDir", ".")]
     "sources root directory not specified, using default"].

Definition ValidateAndDefaults (conf : cnf.Conf string unit)
  : cnf.Outcome (cnf.Conf string unit) :=
  cnf.ValidateAndDefaults LoadLocation CorporaValidateAndDefaults
    RedisValidate conf.

End demoConf.

(** * Properties *)

Import v12.

(** ** The monad *)

Section Monad.

Context {Payload : Type}.
Implicit Types w : World Payload.

Lemma bind_Continue {A B} (m : M Payload A) (f : A -> M Payload B) w a w' :
  m w = Continue a w' -> (m ≫= f) w = f a w'.
Proof. intros H. unfold mbind, M_bind. by rewrite H. Qed.

Lemma bind_Return {A B} (m : M Payload A) (f : A -> M Payload B) w s w' :
  m w = Return s w' -> (m ≫= f) w = Return s w'.
Proof. intros H. unfold mbind, M_bind. by rewrite H. Qed.

Lemma bind_inv_Continue {A B} (m : M Payload A) (f : A -> M Payload B)
  w b w'' :
  (m ≫= f) w = Continue b w'' ->
  exists a w', m w = Continue a w' /\ f a w' = Continue b w''.
Proof.
  unfold mbind, M_bind. destruct (m w) as [a w'| | |]; try discriminate.
  eauto.
Qed.

Lemma fail_with {A} (e : general.FCSError) (status : Z) w :
  (AddError e ;; exit status : M Payload A) w
  = Return status (onResponse (addError e) w).
Proof. reflexivity. Qed.

End Monad.

(** Unfolds one level of the monad's operations. *)
Ltac munfold :=
  unfold mbind, M_bind, mret, M_ret, AddError, setEchoedQuery,
    setEchoedStartRecord, setResults, getResults, withResponse, exit,
    panic, outOfFuel in *.

(** ** The selector *)

Section Selector.

Implicit Types (r : result.RoundRobinLineSel) (slots : list result.rscSlot)
  (s : result.rscSlot) (i j : nat).

Lemma classifyErr_sentinel :
  result.classifyErr mango.ErrRowsRangeOutOfConc
  = result.OutOfRange mango.ErrRowsRangeOutOfConc.
Proof. reflexivity. Qed.

Lemma names_New (K : Z) (names : list string) :
  result.names (result.NewRoundRobinLineSel K names) = names.
Proof.
  unfold result.names. simpl. rewrite map_map. simpl. apply map_id.
Qed.

Lemma setRowsByName_name c rows slots :
  map result.Name (result.setRowsByName c rows slots)
  = map result.Name slots.
Proof.
  induction slots as [|s slots IH]; simpl; [done|].
  destruct (String.eqb _ _); simpl; [done|]. by rewrite IH.
Qed.

Lemma setRowsByName_err c rows slots :
  map result.SlotErr (result.setRowsByName c rows slots)
  = map result.SlotErr slots.
Proof.
  induction slots as [|s slots IH]; simpl; [done|].
  destruct (String.eqb _ _); simpl; [done|]. by rewrite IH.
Qed.

Lemma names_SetRscLines c res r :
  result.names (result.SetRscLines c res r) = result.names r.
Proof. apply setRowsByName_name. Qed.

Lemma errors_SetRscLines c res r :
  result.errors (result.SetRscLines c res r) = result.errors r.
Proof. apply setRowsByName_err. Qed.

Lemma names_RscSetErrorAt i e r :
  result.names (result.RscSetErrorAt i e r) = result.names r.
Proof.
  unfold result.names, result.RscSetErrorAt. simpl.
  change (map ?f ?x) with (f <$> x).
  apply list_eq. intros j. rewrite !list_lookup_fmap.
  destruct (decide (i = j)) as [->|Hne].
  - rewrite list_lookup_alter_eq. by destruct (result.Slots r !! j).
  - by rewrite list_lookup_alter_ne.
Qed.

Lemma errors_RscSetErrorAt i e r :
  result.errors (result.RscSetErrorAt i e r)
  = <[i := result.classifyErr e]> (result.errors r).
Proof.
  unfold result.errors, result.RscSetErrorAt. simpl.
  change (map ?f ?x) with (f <$> x).
  apply list_eq. intros j. rewrite list_lookup_fmap.
  destruct (decide (i = j)) as [->|Hne].
  - rewrite list_lookup_alter_eq.
    destruct (result.Slots r !! j) as [s|] eqn:Hj; simpl.
    + rewrite list_lookup_insert_eq; [done|].
      rewrite length_fmap. by eapply lookup_lt_Some.
    + rewrite list_insert_ge; [by rewrite list_lookup_fmap, Hj|].
      rewrite length_fmap. by apply lookup_ge_None.
  - rewrite list_lookup_alter_ne, list_lookup_insert_ne by done.
    by rewrite list_lookup_fmap.
Qed.

Lemma HasFatalError_errors r :
  result.HasFatalError r = false <->
  Forall (fun e => forall err, e <> result.Fatal err) (result.errors r).
Proof.
  unfold result.HasFatalError, result.errors, result.isFatal.
  induction (result.Slots r) as [|s slots IH]; simpl.
  - split; [constructor|done].
  - rewrite orb_false_iff, IH, Forall_cons.
    destruct (result.SlotErr s); split; intros [H1 H2]; split;
      try done.
    by specialize (H1 err).
Qed.

Lemma AllHasOutOfRangeError_errors r :
  result.AllHasOutOfRangeError r = true <->
  Forall (fun e => exists err, e = result.OutOfRange err) (result.errors r).
Proof.
  unfold result.AllHasOutOfRangeError, result.errors, result.isOutOfRange.
  induction (result.Slots r) as [|s slots IH]; simpl.
  - split; [constructor|done].
  - rewrite andb_true_iff, IH, Forall_cons.
    destruct (result.SlotErr s); split; intros [H1 H2]; split;
      try done; try (by eexists); by destruct H1.
Qed.

Lemma findDrawable_Some slots steps :
  forall start i,
  result.findDrawable slots start steps = Some i ->
  exists s, slots !! i = Some s /\ result.drawable s = true.
Proof.
  induction steps as [|steps IH]; intros start i; simpl; [done|].
  destruct (slots !! (start mod length slots)) as [s|] eqn:Hs; [|done].
  destruct (result.drawable s) eqn:Hd; [|by apply IH].
  intros [= <-]. by exists s.
Qed.

Lemma Next_true r r' :
  result.Next r = (true, r') ->
  exists i s,
    result.Slots r !! i = Some s /\ result.drawable s = true /\
    result.Slots r' = alter result.advance i (result.Slots r) /\
    result.Curr r' = Some i.
Proof.
  unfold result.Next.
  destruct (result.findDrawable _ _ _) as [i|] eqn:Hf; [|done].
  intros [= <-]. apply findDrawable_Some in Hf as (s & Hs & Hd).
  by exists i, s.
Qed.

Lemma Next_false r r' : result.Next r = (false, r') -> r' = r.
Proof.
  unfold result.Next. destruct (result.findDrawable _ _ _); [done|].
  by intros [= <-].
Qed.

Lemma names_alter_advance i slots :
  map result.Name (alter result.advance i slots) = map result.Name slots.
Proof.
  change (map ?f ?x) with (f <$> x).
  apply list_eq. intros j. rewrite !list_lookup_fmap.
  destruct (decide (i = j)) as [->|Hne].
  - rewrite list_lookup_alter_eq. by destruct (slots !! j).
  - by rewrite list_lookup_alter_ne.
Qed.

Lemma names_Next r r' :
  result.Next r = (true, r') -> result.names r' = result.names r.
Proof.
  intros (i & s & _ & _ & Hslots & _)%Next_true.
  unfold result.names. rewrite Hslots. apply names_alter_advance.
Qed.

Lemma CurrRscName_Next r r' :
  result.Next r = (true, r') -> result.CurrRscName r' ∈ result.names r.
Proof.
  intros (i & s & Hs & _ & Hslots & Hcurr)%Next_true.
  unfold result.CurrRscName, result.currSlot. rewrite Hcurr, Hslots. simpl.
  rewrite list_lookup_alter_eq, Hs. simpl.
  unfold result.names. change (map ?f ?x) with (f <$> x).
  apply list_elem_of_fmap. exists s. split; [done|].
  by eapply list_elem_of_lookup_2.
Qed.

Lemma remaining_alter_advance slots :
  forall i s,
  slots !! i = Some s -> result.drawable s = true ->
  S (result.remaining (alter result.advance i slots))
  = result.remaining slots.
Proof.
  unfold result.remaining, result.drawable.
  induction slots as [|s0 slots IH]; intros [|i] s Hs Hd; try done.
  - injection Hs as ->. apply Nat.ltb_lt in Hd. cbn. lia.
  - specialize (IH i s Hs Hd). cbn in *. lia.
Qed.

Lemma remaining_Next r r' :
  result.Next r = (true, r') ->
  S (result.remaining (result.Slots r')) = result.remaining (result.Slots r).
Proof.
  intros (i & s & Hs & Hd & -> & _)%Next_true.
  by eapply remaining_alter_advance.
Qed.

End Selector.

Section Properties.

Context {AST Payload WorkerResult : Type}.
Variable Validate : string -> option string.
Variable AsMessage : general.DiagnosticCode -> string.
Variable ParseQuery :
  string -> list corpus.PosAttr -> corpus.StructureMapping -> result AST.
Variable Generate : AST -> string * list string.
Variable GetRegistryPath : corpus.CorporaSetup -> string -> string.
Variable Marshal : rdb.ConcExampleArgs -> result Payload.
Variable PublishQuery : nat -> rdb.Query Payload -> result WorkerResult.
Variable DeserializeConcExampleResult :
  WorkerResult -> result rdb.ConcExampleResult.
Variable makeRows : Z -> bool.

Implicit Types (w : World Payload) (a : FCSSubHandlerV12)
  (ctx : gin.Context).

#[local] Abbreviation checkParams := (v12.checkParams (Payload:=Payload) Validate).
#[local] Abbreviation readQuery := (v12.readQuery (Payload:=Payload)).
#[local] Abbreviation readStartRecord :=
  (v12.readStartRecord (Payload:=Payload) AsMessage).
#[local] Abbreviation readMaximumRecords :=
  (v12.readMaximumRecords (Payload:=Payload) AsMessage).
#[local] Abbreviation checkResources := (v12.checkResources (Payload:=Payload)).
#[local] Abbreviation checkCorpora := (v12.checkCorpora (Payload:=Payload)).
#[local] Abbreviation commonAttrs := (v12.commonAttrs (Payload:=Payload) AsMessage).
#[local] Abbreviation validate := (v12.validate (Payload:=Payload) Validate AsMessage).
#[local] Abbreviation translateQuery := (v12.translateQuery AsMessage ParseQuery).
#[local] Abbreviation dispatch :=
  (v12.dispatch AsMessage ParseQuery Generate GetRegistryPath Marshal
     PublishQuery).
#[local] Abbreviation collectOne :=
  (v12.collectOne (Payload:=Payload) AsMessage DeserializeConcExampleResult).
#[local] Abbreviation collect :=
  (v12.collect (Payload:=Payload) AsMessage DeserializeConcExampleResult).
#[local] Abbreviation classify := (v12.classify (Payload:=Payload) AsMessage).
#[local] Abbreviation mergeLoop := (v12.mergeLoop (Payload:=Payload) AsMessage).
#[local] Abbreviation merge :=
  (v12.merge (Payload:=Payload) AsMessage makeRows).
#[local] Abbreviation jobArgs := (v12.jobArgs GetRegistryPath).
#[local] Abbreviation isJobFor := (v12.isJobFor GetRegistryPath Marshal).
#[local] Abbreviation quiet := (v12.quiet (Payload:=Payload)).
#[local] Abbreviation searchRetrieve :=
  (v12.searchRetrieve Validate AsMessage ParseQuery Generate GetRegistryPath
     Marshal PublishQuery DeserializeConcExampleResult makeRows).

(** *** Parameter keys (lines 69-78) *)

Lemma checkParams_pass (keys : list string) w :
  Forall (fun k => Validate k = None) keys ->
  checkParams keys w = Continue tt w.
Proof.
  induction 1 as [|k keys Hk _ IH]; simpl; [done|]. by rewrite Hk.
Qed.

Lemma checkParams_reject (keys : list string) w :
  (exists k, k ∈ keys /\ Validate k <> None) ->
  exists key msg,
    key ∈ keys /\ Validate key = Some msg /\
    checkParams keys w
    = Return general.ConformantStatusBadRequest
        (onResponse
           (addError {| general.Code := general.DCUnsupportedParameter;
                        general.Ident := key;
                        general.Message := msg |}) w).
Proof.
  induction keys as [|k keys IH]; intros (k0 & Hin & Hk0).
  - by apply elem_of_nil in Hin.
  - simpl. destruct (Validate k) as [msg|] eqn:Hk.
    + exists k, msg. split; [left|]. by rewrite fail_with.
    + apply elem_of_cons in Hin as [->|Hin]; [congruence|].
      destruct IH as (key & msg & ? & ? & ?); [by eauto|].
      exists key, msg. split; [by right|done].
Qed.

(** C8. A URL query with a key that [Validate] rejects ends the request
    with status 400 and one more diagnostic, [DCUnsupportedParameter],
    whose identifier is a rejected key of the query (the first one the
    range visits) and whose message is the validation error.  Nothing
    else is assumed of the request or of the handler, so the check comes
    before every other validation: the query may be missing and the
    other parameters malformed. *)
Theorem unsupported_parameter_rejected_first a ctx w :
  (exists k, k ∈ url.keys (gin.URLQuery ctx) /\ Validate k <> None) ->
  exists key msg,
    key ∈ url.keys (gin.URLQuery ctx) /\ Validate key = Some msg /\
    searchRetrieve a ctx w
    = Return 400
        (onResponse
           (addError {| general.Code := general.DCUnsupportedParameter;
                        general.Ident := key;
                        general.Message := msg |}) w).
Proof.
  intros H. destruct (checkParams_reject _ w H) as (key & msg & ? & ? & Hc).
  exists key, msg. repeat split; [done..|].
  unfold v12.searchRetrieve. apply bind_Return.
  unfold v12.validate. by apply bind_Return.
Qed.

(** *** Validation as a whole (lines 69-167) *)

Lemma checkParams_inv (keys : list string) w w' :
  checkParams keys w = Continue tt w' ->
  Forall (fun k => Validate k = None) keys /\ w' = w.
Proof.
  induction keys as [|k keys IH]; simpl.
  - intros [= ->]. by split.
  - destruct (Validate k) eqn:Hk; [by rewrite fail_with|].
    intros [? ->]%IH. by split; [constructor|].
Qed.

Lemma checkResources_inv a (names : list string) w w' :
  checkResources a names w = Continue tt w' ->
  Forall (resolves a) names /\ w' = w.
Proof.
  induction names as [|v names IH]; simpl.
  - intros [= ->]. by split.
  - destruct (corpus.GetResource _ v) as [res|] eqn:Hv;
      [|by rewrite fail_with].
    intros [? ->]%IH. split; [constructor; [by exists res|done]|done].
Qed.

Lemma validate_inv a ctx w l w' :
  validate a ctx w = Continue l w' ->
  Forall (fun k => Validate k = None) (url.keys (gin.URLQuery ctx)) /\
  fcsQuery l = gin.Query ctx "query" /\ fcsQuery l <> "" /\
  strconv.Atoi (gin.DefaultQuery ctx SearchRetrStartRecord "1")
    = Some (startRecord l) /\
  (1 <= startRecord l)%Z /\
  maximumRecordsText a ctx = Some (maximumRecords l) /\
  (1 <= maximumRecords l)%Z /\
  corpora l = selectCorpora a ctx /\ corpora l <> [] /\
  Forall (resolves a) (corpora l) /\
  corpus.GetCommonPosAttrNames (corpus.Resources (corporaConf a)) (corpora l)
    = Ok (retrieveAttrs l) /\
  w' = onResponse (fun r => withEchoedStartRecord (startRecord l)
                              (withEchoedQuery (fcsQuery l) r)) w.
Proof.
  unfold v12.validate. intros H.
  apply bind_inv_Continue in H as ([] & w0 & [Hkeys ->]%checkParams_inv & H).
  apply bind_inv_Continue in H as (q & w1 & Hq & H).
  apply bind_inv_Continue in H as (sr & w2 & Hsr & H).
  apply bind_inv_Continue in H as (K & w3 & HK & H).
  apply bind_inv_Continue in H as ([] & w4 & Hc & H).
  apply bind_inv_Continue in H as (attrs & w5 & Hattrs & H).
  injection H as <- <-. simpl.
  (* query *)
  unfold v12.readQuery in Hq.
  destruct (String.length (gin.Query ctx "query") =? 0)%nat eqn:Hlen;
    [by rewrite fail_with in Hq|].
  injection Hq as <- <-.
  (* startRecord *)
  unfold v12.readStartRecord in Hsr.
  destruct (strconv.Atoi _) as [n|] eqn:Hatoi; [|by rewrite fail_with in Hsr].
  destruct (n <? 1)%Z eqn:Hn; [by rewrite fail_with in Hsr|].
  injection Hsr as <- <-.
  (* maximumRecords *)
  unfold v12.readMaximumRecords in HK.
  apply bind_inv_Continue in HK as (K0 & w3' & HK0 & HK).
  destruct (K0 <? 1)%Z eqn:HK1; [by rewrite fail_with in HK|].
  injection HK as <- <-.
  assert (maximumRecordsText a ctx = Some K0 /\ w3' =
          onResponse (withEchoedStartRecord n)
            (onResponse (withEchoedQuery (gin.Query ctx "query")) w))
    as [HKt ->].
  { unfold maximumRecordsText.
    destruct (0 <? String.length _)%nat.
    - destruct (strconv.Atoi (gin.Query ctx SearchMaximumRecords));
        [|by rewrite fail_with in HK0].
      by injection HK0 as <- <-.
    - by injection HK0 as <- <-. }
  (* corpora *)
  unfold v12.checkCorpora in Hc.
  destruct (0 <? length (selectCorpora a ctx))%nat eqn:Hne;
    [|by rewrite fail_with in Hc].
  apply checkResources_inv in Hc as [Hres ->].
  unfold v12.commonAttrs in Hattrs.
  destruct (corpus.GetCommonPosAttrNames _ _) as [attrs'|] eqn:Hcommon;
    [|by rewrite fail_with in Hattrs].
  injection Hattrs as <- <-.
  repeat split; try done.
  - intros Hq. rewrite Hq in Hlen. discriminate.
  - by apply Z.ltb_ge.
  - by apply Z.ltb_ge.
  - intros Hnil. rewrite Hnil in Hne. discriminate.
Qed.

(** *** The scalar parameters (lines 80-130) *)

Lemma readQuery_pass ctx w :
  gin.Query ctx "query" <> "" ->
  readQuery ctx w
  = Continue (gin.Query ctx "query")
      (onResponse (withEchoedQuery (gin.Query ctx "query")) w).
Proof.
  intros Hq. unfold v12.readQuery.
  by destruct (gin.Query ctx "query") eqn:E.
Qed.

Lemma readStartRecord_pass ctx w n :
  strconv.Atoi (gin.DefaultQuery ctx SearchRetrStartRecord "1") = Some n ->
  (1 <= n)%Z ->
  readStartRecord ctx w
  = Continue n (onResponse (withEchoedStartRecord n) w).
Proof.
  intros Hn Hle. unfold v12.readStartRecord. rewrite Hn.
  by apply Z.ltb_ge in Hle as ->.
Qed.

Lemma readStartRecord_reject ctx w :
  (forall n,
     strconv.Atoi (gin.DefaultQuery ctx SearchRetrStartRecord "1") = Some n ->
     (n < 1)%Z) ->
  readStartRecord ctx w
  = Return 422
      (onResponse (addError (unsupportedValue AsMessage SearchRetrStartRecord))
         w).
Proof.
  intros Hbad. unfold v12.readStartRecord.
  destruct (strconv.Atoi _) as [n|]; [|done].
  specialize (Hbad n eq_refl). by apply Z.ltb_lt in Hbad as ->.
Qed.

Lemma readMaximumRecords_pass a ctx w n :
  maximumRecordsText a ctx = Some n -> (1 <= n)%Z ->
  readMaximumRecords a ctx w = Continue n w.
Proof.
  unfold maximumRecordsText, v12.readMaximumRecords. intros Hn Hle.
  apply Z.ltb_ge in Hle.
  destruct (0 <? String.length _)%nat.
  - rewrite Hn. munfold. by rewrite Hle.
  - injection Hn as ->. munfold. by rewrite Hle.
Qed.

Lemma readMaximumRecords_reject a ctx w :
  (forall n, maximumRecordsText a ctx = Some n -> (n < 1)%Z) ->
  readMaximumRecords a ctx w
  = Return 422
      (onResponse (addError (unsupportedValue AsMessage SearchMaximumRecords))
         w).
Proof.
  unfold maximumRecordsText, v12.readMaximumRecords. intros Hbad.
  destruct (0 <? String.length _)%nat.
  - destruct (strconv.Atoi _) as [n|]; [|done].
    specialize (Hbad n eq_refl). munfold. by apply Z.ltb_lt in Hbad as ->.
  - specialize (Hbad _ eq_refl). munfold. by apply Z.ltb_lt in Hbad as ->.
Qed.

(** C7, as the code has it.  For a request whose keys are all
    supported and whose [query] is not empty:
    - once validation is through, [startRecord] is 1 if the parameter
      is absent and [maximumRecords] is the configured value if the
      parameter is absent or empty, and both are at least 1;
    - a supplied [startRecord] that does not parse as an integer of at
      least 1 ends the request with 422 and [DCUnsupportedParameterValue];
    - with a good [startRecord], a non-empty [maximumRecords] that does
      not parse as an integer of at least 1 ends the request with 422 and
      [DCUnsupportedParameterValue], and so does a configured value
      below 1 when the parameter is absent or empty. *)
Theorem start_and_maximum_records_validated a ctx w :
  Forall (fun k => Validate k = None) (url.keys (gin.URLQuery ctx)) ->
  gin.Query ctx "query" <> "" ->
  let w1 := onResponse (withEchoedQuery (gin.Query ctx "query")) w in
  (forall l w', validate a ctx w = Continue l w' ->
     (gin.GetQuery ctx "startRecord" = None -> startRecord l = 1%Z) /\
     (gin.Query ctx "maximumRecords" = "" ->
        maximumRecords l = corpus.MaximumRecords (corporaConf a)) /\
     (1 <= startRecord l)%Z /\ (1 <= maximumRecords l)%Z) /\
  (forall v, gin.GetQuery ctx "startRecord" = Some v ->
     (forall n, strconv.Atoi v = Some n -> (n < 1)%Z) ->
     searchRetrieve a ctx w
     = Return 422
         (onResponse
            (addError
               {| general.Code := general.DCUnsupportedParameterValue;
                  general.Ident := "startRecord";
                  general.Message :=
                    AsMessage general.DCUnsupportedParameterValue |}) w1)) /\
  (forall sr,
     strconv.Atoi (gin.DefaultQuery ctx "startRecord" "1") = Some sr ->
     (1 <= sr)%Z ->
     let w2 := onResponse (withEchoedStartRecord sr) w1 in
     let rejected :=
       Return 422
         (onResponse
            (addError
               {| general.Code := general.DCUnsupportedParameterValue;
                  general.Ident := "maximumRecords";
                  general.Message :=
                    AsMessage general.DCUnsupportedParameterValue |}) w2) in
     (gin.Query ctx "maximumRecords" <> "" ->
      (forall n, strconv.Atoi (gin.Query ctx "maximumRecords") = Some n ->
                 (n < 1)%Z) ->
      searchRetrieve a ctx w = rejected) /\
     (gin.Query ctx "maximumRecords" = "" ->
      (corpus.MaximumRecords (corporaConf a) < 1)%Z ->
      searchRetrieve a ctx w = rejected)).
Proof.
  intros Hkeys Hq w1. split; [|split].
  - intros l w' Hv. apply validate_inv in Hv
      as (_ & _ & _ & Hsr & Hsr1 & HK & HK1 & _).
    repeat split; [| |done..].
    + intros Habs. unfold gin.DefaultQuery, SearchRetrStartRecord in Hsr.
      rewrite Habs in Hsr. by injection Hsr.
    + intros Hemp. unfold maximumRecordsText, SearchMaximumRecords in HK.
      rewrite Hemp in HK. by injection HK.
  - intros v Hv Hbad.
    unfold v12.searchRetrieve. apply bind_Return.
    unfold v12.validate.
    erewrite bind_Continue by by apply checkParams_pass.
    erewrite bind_Continue by by apply readQuery_pass.
    apply bind_Return. apply readStartRecord_reject.
    unfold gin.DefaultQuery, SearchRetrStartRecord. rewrite Hv. exact Hbad.
  - intros sr Hsr Hsr1 w2 rejected.
    assert (
      (forall n, maximumRecordsText a ctx = Some n -> (n < 1)%Z) ->
      searchRetrieve a ctx w = rejected) as Hrej.
    { intros Hbad. unfold v12.searchRetrieve. apply bind_Return.
      unfold v12.validate.
      erewrite bind_Continue by by apply checkParams_pass.
      erewrite bind_Continue by by apply readQuery_pass.
      erewrite bind_Continue by by apply readStartRecord_pass.
      apply bind_Return. by apply readMaximumRecords_reject. }
    split; intros Hmax Hbad; apply Hrej; intros n;
      unfold maximumRecordsText, SearchMaximumRecords.
    + destruct (gin.Query ctx "maximumRecords") eqn:E; [done|]. apply Hbad.
    + rewrite Hmax. simpl. by intros [= <-].
Qed.

(** *** The corpora (lines 132-158) *)

Lemma Has_keys (v : url.Values) (key : string) :
  url.Has v key = true -> key ∈ url.keys v.
Proof.
  unfold url.Has, url.lookup, url.keys.
  induction v as [|[k vals] v IH]; simpl; [done|].
  destruct (String.eqb k key) eqn:Hk.
  - apply String.eqb_eq in Hk as ->. intros _. apply list_elem_of_here.
  - intros H. apply list_elem_of_further. by apply IH.
Qed.

(** What does hold of the corpus selection: without [x-fcs-context],
    and with the empty name not a supported parameter, all registered
    corpora are selected; an empty selection and a selected corpus that
    the registry does not have are answered with 400. *)
Lemma selectCorpora_absent a ctx :
  Forall (fun k => Validate k = None) (url.keys (gin.URLQuery ctx)) ->
  Validate "" <> None ->
  gin.GetQuery ctx "x-fcs-context" = None ->
  selectCorpora a ctx
  = corpus.GetCorpora (corpus.Resources (corporaConf a)).
Proof.
  intros Hkeys Hempty Habs.
  unfold selectCorpora, SearchRetrArgFCSContext, gin.Query. rewrite Habs.
  simpl. destruct (url.Has _ "") eqn:Hhas; [|done].
  apply Has_keys in Hhas. destruct Hempty.
  by eapply Forall_forall in Hkeys.
Qed.

Lemma checkCorpora_empty a w :
  checkCorpora a [] w
  = Return 400
      (onResponse
         (addError {| general.Code := general.DCUnsupportedParameterValue;
                      general.Ident := "x-fcs-context";
                      general.Message := "Empty context" |}) w).
Proof. reflexivity. Qed.

Lemma checkCorpora_unknown a (names : list string) w :
  (exists v, v ∈ names /\ ~ resolves a v) ->
  exists v,
    v ∈ names /\ ~ resolves a v /\
    checkCorpora a names w
    = Return 400
        (onResponse
           (addError {| general.Code := general.DCUnsupportedParameterValue;
                        general.Ident := "x-fcs-context";
                        general.Message := "Unknown context " +:+ v |}) w).
Proof.
  intros Hex. unfold v12.checkCorpora.
  assert ((0 <? length names)%nat = true) as ->.
  { destruct Hex as (v & Hin & _). by destruct names; [inversion Hin|]. }
  induction names as [|c names IH]; destruct Hex as (v & Hin & Hv).
  - inversion Hin.
  - simpl. destruct (corpus.GetResource _ c) as [res|err] eqn:Hc.
    + apply elem_of_cons in Hin as [->|Hin]; [by destruct Hv; exists res|].
      destruct IH as (v' & ? & ? & ?); [by eauto|].
      exists v'. split; [by apply list_elem_of_further|done].
    + exists c. split; [apply list_elem_of_here|].
      split; [|by rewrite fail_with].
      intros [res Hres]. congruence.
Qed.

Lemma selectCorpora_not_a_key a ctx :
  url.Has (gin.URLQuery ctx) (gin.Query ctx "x-fcs-context") = false ->
  selectCorpora a ctx
  = corpus.GetCorpora (corpus.Resources (corporaConf a)).
Proof. unfold selectCorpora, SearchRetrArgFCSContext. by intros ->. Qed.

(** *** Translation and publishing (lines 173-217) *)

Lemma translateQuery_resolved a (name q : string) e :
  resolves a name ->
  translateQuery a name q = inr e ->
  e = {| general.Code := general.DCQuerySyntaxError;
         general.Ident := q;
         general.Message := "Invalid query syntax" |}.
Proof.
  intros [res Hres]. unfold v12.translateQuery. rewrite Hres.
  destruct (ParseQuery _ _ _); [done|]. by intros [= <-].
Qed.

Lemma dispatch_published a (q : string) (attrs : list string) (K : Z)
  (rs : list query.PartialRange) :
  forall (i : nat) w,
  exists jobs,
    Published (worldOf (dispatch a q attrs K i rs w)) = Published w ++ jobs /\
    Forall2 (isJobFor a attrs K) (take (length jobs) rs) jobs /\
    (forall waits w', dispatch a q attrs K i rs w = Continue waits w' ->
       length jobs = length rs /\ length waits = length rs).
Proof.
  induction rs as [|rng rs IH]; intros i w; simpl.
  - exists []. rewrite app_nil_r. split; [done|]. split; [constructor|].
    by intros ?? [= <- <-].
  - destruct (translateQuery a (query.Rsc rng) q) as [ast|e].
    2:{ rewrite fail_with. exists []. rewrite app_nil_r. simpl.
        split; [done|]. split; [constructor|]. by intros. }
    destruct (Generate ast) as [cql [|e0 es]] eqn:Hgen.
    2:{ rewrite fail_with. exists []. rewrite app_nil_r. simpl.
        split; [done|]. split; [constructor|]. by intros. }
    destruct (Marshal _) as [args|err] eqn:Hm.
    2:{ rewrite fail_with. exists []. rewrite app_nil_r. simpl.
        split; [done|]. split; [constructor|]. by intros. }
    set (job := {| rdb.Func := "concExample"; rdb.Args := args |}).
    assert (isJobFor a attrs K rng job) as Hjob by by exists cql.
    unfold mbind, M_bind, publish. simpl. fold job.
    destruct (PublishQuery i job) as [wait|err].
    2:{ rewrite ?fail_with. exists [job]. simpl.
        split; [done|]. split; [by repeat constructor|]. by intros. }
    remember {| Response := Response w;
                Published := Published w ++ [job] |} as w1 eqn:Hw1.
    destruct (IH (S i) w1) as (jobs & Hpub & Hjobs & Hlen).
    exists (job :: jobs).
    unfold mbind, M_bind, mret, M_ret.
    destruct (dispatch a q attrs K (S i) rs w1) as [waits w'| | |] eqn:Hd;
      simpl in *; rewrite Hpub, Hw1; simpl; rewrite <-app_assoc;
      (split; [done|]); (split; [by constructor|]); try done.
    intros ?? [= <- <-]. destruct (Hlen _ _ eq_refl) as [Hj Hw].
    simpl. by rewrite Hj, Hw.
Qed.

Lemma dispatch_app a (q : string) (attrs : list string) (K : Z)
  (pre post : list query.PartialRange) :
  forall (i : nat) w waits w1,
  dispatch a q attrs K i pre w = Continue waits w1 ->
  dispatch a q attrs K i (pre ++ post) w
  = (waits' ← dispatch a q attrs K (i + length pre) post;
     mret (waits ++ waits')) w1.
Proof.
  induction pre as [|rng pre IH]; intros i w waits w1; simpl.
  - intros [= <- <-]. rewrite Nat.add_0_r. unfold mbind, M_bind.
    by destruct (dispatch a q attrs K i post w).
  - destruct (translateQuery a (query.Rsc rng) q) as [ast|e]; [|done].
    destruct (Generate ast) as [cql [|e0 es]]; [|done].
    destruct (Marshal _) as [args|err]; [|done].
    unfold mbind, M_bind, mret, M_ret, publish in *. simpl.
    destruct (PublishQuery i _) as [wait|err]; [|done].
    destruct (dispatch a q attrs K (S i) pre _) as [waits0 w0| | |] eqn:Hpre;
      try done.
    intros [= <- <-]. rewrite (IH _ _ _ _ Hpre), <-Nat.add_succ_comm.
    by destruct (dispatch a q attrs K (S i + length pre) post w0).
Qed.

(** *** What leaves the log of published jobs alone *)

Lemma quiet_ret {A} (x : A) : quiet (mret x).
Proof. done. Qed.

Lemma quiet_exit {A} (s : Z) : quiet (exit s : M Payload A).
Proof. done. Qed.

Lemma quiet_panic {A} : quiet (panic : M Payload A).
Proof. done. Qed.

Lemma quiet_outOfFuel {A} : quiet (outOfFuel : M Payload A).
Proof. done. Qed.

Lemma quiet_withResponse f : quiet (withResponse (Payload:=Payload) f).
Proof. done. Qed.

Lemma quiet_bind {A B} (m : M Payload A) (f : A -> M Payload B) :
  quiet m -> (forall x, quiet (f x)) -> quiet (m ≫= f).
Proof.
  intros Hm Hf w. specialize (Hm w). unfold mbind, M_bind.
  destruct (m w) as [x w'| | |]; simpl in *; try done.
  by rewrite Hf.
Qed.

Lemma quiet_fail {A} e (s : Z) : quiet (AddError e ;; exit s : M Payload A).
Proof. done. Qed.

Lemma published_bind_quiet {A B} (m : M Payload A) (f : A -> M Payload B) w :
  (forall x, quiet (f x)) ->
  Published (worldOf ((m ≫= f) w)) = Published (worldOf (m w)).
Proof.
  intros Hf. unfold mbind, M_bind. destruct (m w); simpl; try done.
  apply Hf.
Qed.

Lemma quiet_collectOne (names : list string) i raw sel :
  quiet (collectOne names i raw sel).
Proof.
  unfold v12.collectOne.
  destruct (DeserializeConcExampleResult raw) as [res|]; [|apply quiet_fail].
  apply quiet_bind.
  - destruct (rdb.ResErr res) as [err|]; [|apply quiet_ret].
    destruct (String.eqb err _); [apply quiet_ret|apply quiet_fail].
  - intros sel'. destruct (names !! i); [apply quiet_ret|apply quiet_panic].
Qed.

Lemma quiet_collect (names : list string) waits :
  forall i sel, quiet (collect names i waits sel).
Proof.
  induction waits as [|raw waits IH]; intros i sel; simpl.
  - apply quiet_ret.
  - apply quiet_bind; [apply quiet_collectOne|]. intros sel'. apply IH.
Qed.

Lemma quiet_classify sel : quiet (classify sel).
Proof.
  unfold v12.classify.
  repeat case_match; by first [apply quiet_fail|apply quiet_panic|apply quiet_ret].
Qed.

Lemma quiet_mergeLoop a (K : Z) fuel :
  forall sel, quiet (mergeLoop fuel a K sel).
Proof.
  induction fuel as [|fuel IH]; intros sel; simpl;
    (apply quiet_bind; [done|]); intros rows;
    destruct (Z.of_nat (length rows) <? K)%Z; try apply quiet_ret;
    destruct (result.Next sel) as [[] sel']; try apply quiet_ret.
  - apply quiet_outOfFuel.
  - destruct (corpus.GetResource _ _); [|apply quiet_fail].
    apply quiet_bind; [apply quiet_withResponse|]. intros _. apply IH.
Qed.

Lemma quiet_merge a (K : Z) sel : quiet (merge a K sel).
Proof.
  unfold v12.merge. apply quiet_bind.
  { unfold v12.makeResults.
    destruct (makeRows K); [apply quiet_withResponse|apply quiet_panic]. }
  intros _. apply quiet_bind; [apply quiet_mergeLoop|].
  intros _. apply quiet_exit.
Qed.

Lemma searchRetrieve_validated a ctx w l w1 :
  validate a ctx w = Continue l w1 ->
  searchRetrieve a ctx w
  = (waits ← dispatch a (fcsQuery l) (retrieveAttrs l) (maximumRecords l)
               0 (ranges l);
     sel ← collect (corpora l) 0 waits
             (result.NewRoundRobinLineSel (maximumRecords l) (corpora l));
     classify sel ;; merge a (maximumRecords l) sel) w1.
Proof. intros H. unfold v12.searchRetrieve. by rewrite (bind_Continue _ _ _ _ _ H). Qed.

Lemma ranges_lookup l (j : nat) rng :
  ranges l !! j = Some rng ->
  exists c, corpora l !! j = Some c /\
            rng = {| query.Rsc := c; query.From := startRecord l - 1 |}.
Proof.
  unfold ranges, query.CalculatePartialRanges.
  change (map ?f ?x) with (f <$> x). rewrite list_lookup_fmap.
  destruct (corpora l !! j) as [c|]; [|done]. intros [= <-]. by exists c.
Qed.

(** C5. Once the request is validated, with [startRecord] the parsed
    wire value and [maximumRecords] the page size, every job the request
    publishes is [concExample] with the encoding of arguments whose
    [StartLine] is [startRecord - 1] and whose [MaxItems] is
    [maximumRecords]; the job at position [j] is the one of the [j]-th
    selected corpus, and when the dispatch loop runs to its end there is
    one job for each of them. *)
Theorem jobs_carry_the_same_window a ctx w l w1 :
  validate a ctx w = Continue l w1 ->
  strconv.Atoi (gin.DefaultQuery ctx "startRecord" "1")
    = Some (startRecord l) /\
  exists jobs,
    Published (worldOf (searchRetrieve a ctx w)) = Published w ++ jobs /\
    (forall (j : nat) job, jobs !! j = Some job ->
       exists c args,
         corpora l !! j = Some c /\
         rdb.Func job = "concExample" /\
         Marshal args = Ok (rdb.Args job) /\
         rdb.CorpusPath args = GetRegistryPath (corporaConf a) c /\
         rdb.StartLine args = (startRecord l - 1)%Z /\
         rdb.MaxItems args = maximumRecords l) /\
    (forall waits w2,
       dispatch a (fcsQuery l) (retrieveAttrs l) (maximumRecords l) 0
         (ranges l) w1 = Continue waits w2 ->
       length jobs = length (corpora l)).
Proof.
  intros Hv. pose proof (validate_inv _ _ _ _ _ Hv)
    as (_ & _ & _ & Hsr & _ & _ & _ & _ & _ & _ & _ & Hw1).
  split; [done|].
  destruct (dispatch_published a (fcsQuery l) (retrieveAttrs l)
              (maximumRecords l) (ranges l) 0 w1)
    as (jobs & Hpub & Hjobs & Hlen).
  exists jobs. split; [|split].
  - rewrite (searchRetrieve_validated _ _ _ _ _ Hv), published_bind_quiet.
    + rewrite Hpub, Hw1. done.
    + intros waits. apply quiet_bind; [apply quiet_collect|].
      intros sel. apply quiet_bind; [apply quiet_classify|].
      intros _. apply quiet_merge.
  - intros j job Hj.
    destruct (Forall2_lookup_r _ _ _ _ _ Hjobs Hj)
      as (rng & Hrng & cql & Hfunc & Hargs).
    apply lookup_take_Some in Hrng as [Hrng _].
    apply ranges_lookup in Hrng as (c & Hc & ->).
    by exists c, (jobArgs a (retrieveAttrs l) (maximumRecords l)
                 {| query.Rsc := c; query.From := startRecord l - 1 |} cql).
  - intros waits w2 Hd. destruct (Hlen _ _ Hd) as [-> _].
    unfold ranges, query.CalculatePartialRanges. by rewrite length_map.
Qed.

(** C10. Once the request is validated, every entry of the range plan
    names a corpus that the registry resolves, so for such a name
    [translateQuery] does not take its [GetResource] branch: whatever
    the query, an error it returns is the [DCQuerySyntaxError] one. *)
Theorem translateQuery_fails_with_syntax_error_only a ctx w l w1 :
  validate a ctx w = Continue l w1 ->
  forall rng, rng ∈ ranges l ->
    resolves a (query.Rsc rng) /\
    forall q e, translateQuery a (query.Rsc rng) q = inr e ->
      general.Code e = general.DCQuerySyntaxError /\
      general.Code e <> general.DCGeneralSystemError.
Proof.
  intros Hv rng Hin.
  apply validate_inv in Hv as (_ & _ & _ & _ & _ & _ & _ & _ & _ & Hres & _).
  apply list_elem_of_lookup in Hin as [j Hj].
  apply ranges_lookup in Hj as (c & Hc & ->). simpl.
  assert (resolves a c) as Hr.
  { eapply Forall_lookup_1; eauto. }
  split; [done|]. intros q e He.
  by rewrite (translateQuery_resolved _ _ _ _ Hr He).
Qed.

(** C6. Let the dispatch loop have gone through the entries [pre] of
    the range plan without leaving.  If the query does not parse for the
    next corpus, the request ends with 422 and [DCQuerySyntaxError]; if
    it parses and generation reports errors, the request ends with 422
    and [DCQueryCannotProcess] carrying the first of them.  In both
    cases the jobs published are the ones of [pre], one each: none for
    the failing corpus, none for a later one. *)
Theorem translation_failure_aborts_request a ctx w l w1 pre rng post
  waits w2 :
  validate a ctx w = Continue l w1 ->
  ranges l = pre ++ rng :: post ->
  dispatch a (fcsQuery l) (retrieveAttrs l) (maximumRecords l) 0 pre w1
    = Continue waits w2 ->
  (forall res msg,
     corpus.GetResource (corpus.Resources (corporaConf a)) (query.Rsc rng)
       = Ok res ->
     ParseQuery (fcsQuery l) (corpus.PosAttrs res) (corpus.StructMapping res)
       = Err msg ->
     searchRetrieve a ctx w
     = Return 422
         (onResponse
            (addError {| general.Code := general.DCQuerySyntaxError;
                         general.Ident := fcsQuery l;
                         general.Message := "Invalid query syntax" |}) w2)) /\
  (forall ast cql e0 es,
     translateQuery a (query.Rsc rng) (fcsQuery l) = inl ast ->
     Generate ast = (cql, e0 :: es) ->
     searchRetrieve a ctx w
     = Return 422
         (onResponse
            (addError {| general.Code := general.DCQueryCannotProcess;
                         general.Ident := "query";
                         general.Message := e0 |}) w2)) /\
  exists jobs,
    Published w2 = Published w ++ jobs /\ length jobs = length pre.
Proof.
  intros Hv Hr Hpre.
  assert (forall st,
    dispatch a (fcsQuery l) (retrieveAttrs l) (maximumRecords l)
      (0 + length pre) (rng :: post) w2 = Return 422 st ->
    searchRetrieve a ctx w = Return 422 st) as Hret.
  { intros st Hd. rewrite (searchRetrieve_validated _ _ _ _ _ Hv).
    apply bind_Return. rewrite Hr, (dispatch_app _ _ _ _ _ _ _ _ _ _ Hpre).
    by apply bind_Return. }
  split; [|split].
  - intros res msg Hres Hparse. apply Hret. simpl.
    unfold v12.translateQuery. by rewrite Hres, Hparse.
  - intros ast cql e0 es Hast Hgen. apply Hret. simpl.
    by rewrite Hast, Hgen.
  - destruct (dispatch_published a (fcsQuery l) (retrieveAttrs l)
                (maximumRecords l) pre 0 w1) as (jobs & Hpub & _ & Hlen).
    rewrite Hpre in Hpub. simpl in Hpub.
    apply validate_inv in Hv
      as (_ & _ & _ & _ & _ & _ & _ & _ & _ & _ & _ & ->).
    exists jobs. split; [done|]. by destruct (Hlen _ _ Hpre).
Qed.

(** *** Collecting the replies (lines 222-247) *)

Lemma collectOne_inv (names : list string) i raw sel w sel' w' :
  collectOne names i raw sel w = Continue sel' w' ->
  w' = w /\
  exists res c,
    DeserializeConcExampleResult raw = Ok res /\ names !! i = Some c /\
    ((rdb.ResErr res = None /\ sel' = result.SetRscLines c res sel) \/
     (rdb.ResErr res = Some mango.ErrRowsRangeOutOfConc /\
      sel' = result.SetRscLines c res
               (result.RscSetErrorAt i mango.ErrRowsRangeOutOfConc sel))).
Proof.
  unfold v12.collectOne.
  destruct (DeserializeConcExampleResult raw) as [res|]; [|done].
  destruct (rdb.ResErr res) as [err|] eqn:Herr.
  - destruct (String.eqb err _) eqn:Heq; [|done].
    apply String.eqb_eq in Heq as ->. munfold.
    destruct (names !! i) as [c|]; [|done].
    intros [= <- <-]. split; [done|]. exists res, c. by eauto.
  - munfold. destruct (names !! i) as [c|]; [|done].
    intros [= <- <-]. split; [done|]. exists res, c. by eauto.
Qed.

Lemma collect_inv (names : list string) waits :
  forall i sel w sel' w',
  collect names i waits sel w = Continue sel' w' ->
  w' = w /\
  result.names sel' = result.names sel /\
  (forall k, k < i -> result.errors sel' !! k = result.errors sel !! k) /\
  (forall k e, result.errors sel' !! k = Some e ->
     result.errors sel !! k = Some e \/
     e = result.OutOfRange mango.ErrRowsRangeOutOfConc) /\
  (forall k raw, waits !! k = Some raw ->
     exists res,
       DeserializeConcExampleResult raw = Ok res /\
       (rdb.ResErr res = None \/
        rdb.ResErr res = Some mango.ErrRowsRangeOutOfConc /\
        (i + k < length (result.Slots sel) ->
         result.errors sel' !! (i + k)
         = Some (result.OutOfRange mango.ErrRowsRangeOutOfConc)))).
Proof.
  induction waits as [|raw waits IH]; intros i sel w sel' w'; simpl.
  - intros [= <- <-]. repeat split; try done. by left.
  - intros (sel1 & w1 & H1 & Hrest)%bind_inv_Continue.
    apply collectOne_inv in H1 as (-> & res & c & Hres & Hc & Hsel1).
    apply IH in Hrest as (-> & Hn & Hlt & Hev & Hmarks).
    assert (result.names sel1 = result.names sel) as Hn1.
    { destruct Hsel1 as [[_ ->]|[_ ->]];
        by rewrite names_SetRscLines, ?names_RscSetErrorAt. }
    assert (length (result.Slots sel1) = length (result.Slots sel)) as Hlen.
    { apply (f_equal length) in Hn1. unfold result.names in Hn1.
      by rewrite !length_map in Hn1. }
    assert (rdb.ResErr res = None /\ result.errors sel1 = result.errors sel \/
            rdb.ResErr res = Some mango.ErrRowsRangeOutOfConc /\
            result.errors sel1
            = <[i := result.OutOfRange mango.ErrRowsRangeOutOfConc]>
                (result.errors sel)) as He1.
    { destruct Hsel1 as [[? ->]|[? ->]]; rewrite errors_SetRscLines;
        [by left|right]. by rewrite errors_RscSetErrorAt. }
    clear Hsel1.
    split; [done|]. split; [by rewrite Hn|]. split; [|split].
    + intros k Hk. rewrite Hlt by lia.
      destruct He1 as [[_ ->]|[_ ->]]; [done|].
      apply list_lookup_insert_ne. lia.
    + intros k e Hk. apply Hev in Hk as [Hk|Hk]; [|by right].
      destruct He1 as [[_ He1]|[_ He1]]; rewrite He1 in Hk; [by left|].
      destruct (decide (i = k)) as [->|Hne].
      * apply list_lookup_insert_Some in Hk as [(_ & <- & _)|[? _]];
          [by right|done].
      * rewrite list_lookup_insert_ne in Hk by done. by left.
    + intros [|k] raw' Hk; simpl in Hk.
      * injection Hk as <-. exists res. split; [done|].
        destruct He1 as [[? _]|[Herr He1]]; [by left|right].
        split; [done|]. rewrite Nat.add_0_r. intros Hi.
        rewrite Hlt, He1 by lia. apply list_lookup_insert_eq.
        unfold result.errors. rewrite length_map. lia.
      * destruct (Hmarks k raw' Hk) as (res' & Hres' & Hcase).
        exists res'. split; [done|].
        destruct Hcase as [?|[? Hmark]]; [by left|right].
        split; [done|]. rewrite Hlen in Hmark.
        by replace (i + S k) with (S i + k) by lia.
Qed.

Lemma collect_app (names : list string) pre post :
  forall i sel w sel1 w1,
  collect names i pre sel w = Continue sel1 w1 ->
  collect names i (pre ++ post) sel w
  = collect names (i + length pre) post sel1 w1.
Proof.
  induction pre as [|raw pre IH]; intros i sel w sel1 w1; simpl.
  - intros [= <- <-]. by rewrite Nat.add_0_r.
  - intros (sel0 & w0 & H0 & Hpre)%bind_inv_Continue.
    rewrite (bind_Continue _ _ _ _ _ H0), (IH _ _ _ _ _ Hpre).
    by rewrite Nat.add_succ_comm.
Qed.

Lemma errors_New (K : Z) (names : list string) :
  result.errors (result.NewRoundRobinLineSel K names)
  = replicate (length names) result.NoError.
Proof.
  unfold result.errors. simpl. rewrite map_map. simpl.
  induction names as [|c names IH]; simpl; [done|]. by rewrite IH.
Qed.

Lemma dispatch_waits a (q : string) (attrs : list string) (K : Z)
  (rs : list query.PartialRange) i w waits w' :
  dispatch a q attrs K i rs w = Continue waits w' ->
  length waits = length rs.
Proof.
  intros Hd. destruct (dispatch_published a q attrs K rs i w)
    as (jobs & _ & _ & Hlen).
  by destruct (Hlen _ _ Hd).
Qed.

Lemma length_ranges l : length (ranges l) = length (corpora l).
Proof. unfold ranges, query.CalculatePartialRanges. apply length_map. Qed.

Lemma searchRetrieve_dispatched a ctx w l w1 waits w2 :
  validate a ctx w = Continue l w1 ->
  dispatch a (fcsQuery l) (retrieveAttrs l) (maximumRecords l) 0 (ranges l) w1
    = Continue waits w2 ->
  searchRetrieve a ctx w
  = (sel ← collect (corpora l) 0 waits
             (result.NewRoundRobinLineSel (maximumRecords l) (corpora l));
     classify sel ;; merge a (maximumRecords l) sel) w2.
Proof.
  intros Hv Hd. rewrite (searchRetrieve_validated _ _ _ _ _ Hv).
  by rewrite (bind_Continue _ _ _ _ _ Hd).
Qed.

(** C1. Let the request be validated and dispatched, and let the
    collecting loop have taken the replies [pre] without leaving.  For
    the next reply:
    - if it does not decode, the request ends with 500 and
      [DCGeneralSystemError];
    - if it carries an application error whose text differs from the
      sentinel, the request ends with 500 and [DCQueryCannotProcess];
    - if it carries an application error whose text equals the
      sentinel, the loop goes on, with the response untouched and the
      slot of that corpus marked out-of-range, and the mark is still
      there whenever the loop runs to its end. *)
Theorem worker_reply_classified a ctx w l w1 pre raw post w2 sel1 w3 :
  validate a ctx w = Continue l w1 ->
  dispatch a (fcsQuery l) (retrieveAttrs l) (maximumRecords l) 0 (ranges l) w1
    = Continue (pre ++ raw :: post) w2 ->
  collect (corpora l) 0 pre
    (result.NewRoundRobinLineSel (maximumRecords l) (corpora l)) w2
    = Continue sel1 w3 ->
  (forall err,
     DeserializeConcExampleResult raw = Err err ->
     searchRetrieve a ctx w
     = Return 500
         (onResponse
            (addError {| general.Code := general.DCGeneralSystemError;
                         general.Ident := err;
                         general.Message :=
                           AsMessage general.DCGeneralSystemError |}) w3)) /\
  (forall res err,
     DeserializeConcExampleResult raw = Ok res ->
     rdb.ResErr res = Some err ->
     String.eqb err "rows range out of conc" = false ->
     searchRetrieve a ctx w
     = Return 500
         (onResponse
            (addError {| general.Code := general.DCQueryCannotProcess;
                         general.Ident := err;
                         general.Message :=
                           AsMessage general.DCQueryCannotProcess |}) w3)) /\
  (forall res err,
     DeserializeConcExampleResult raw = Ok res ->
     rdb.ResErr res = Some err ->
     String.eqb err "rows range out of conc" = true ->
     (exists sel2,
        collectOne (corpora l) (length pre) raw sel1 w3 = Continue sel2 w3 /\
        result.errors sel2 !! length pre = Some (result.OutOfRange err)) /\
     (forall sel' w',
        collect (corpora l) 0 (pre ++ raw :: post)
          (result.NewRoundRobinLineSel (maximumRecords l) (corpora l)) w2
          = Continue sel' w' ->
        w' = w2 /\
        result.errors sel' !! length pre = Some (result.OutOfRange err))).
Proof.
  intros Hv Hd Hpre.
  set (sel0 := result.NewRoundRobinLineSel (maximumRecords l) (corpora l))
    in *.
  pose proof (dispatch_waits _ _ _ _ _ _ _ _ _ Hd) as Hlen.
  rewrite length_ranges, length_app in Hlen. simpl in Hlen.
  assert (forall st,
    collectOne (corpora l) (length pre) raw sel1 w3 = Return 500 st ->
    searchRetrieve a ctx w = Return 500 st) as Hret.
  { intros st H1. rewrite (searchRetrieve_dispatched _ _ _ _ _ _ _ Hv Hd).
    apply bind_Return. rewrite (collect_app _ _ _ _ _ _ _ _ Hpre). simpl.
    by apply bind_Return. }
  pose proof (collect_inv _ _ _ _ _ _ _ Hpre) as (-> & Hn1 & Hlt1 & _).
  assert (length (result.Slots sel1) = length (corpora l)) as Hslots.
  { apply (f_equal length) in Hn1. subst sel0. rewrite names_New in Hn1.
    unfold result.names in Hn1. by rewrite length_map in Hn1. }
  split; [|split].
  - intros err Herr. apply Hret. unfold v12.collectOne. by rewrite Herr.
  - intros res err Hres Herr Hne. apply Hret. unfold v12.collectOne.
    rewrite Hres, Herr. unfold mango.ErrRowsRangeOutOfConc. by rewrite Hne.
  - intros res err Hres Herr Heq. apply String.eqb_eq in Heq as ->.
    split.
    + destruct (lookup_lt_is_Some_2 (corpora l) (length pre)) as [c Hc];
        [lia|].
      eexists. split.
      * unfold v12.collectOne. rewrite Hres, Herr. simpl. munfold.
        by rewrite Hc.
      * rewrite errors_SetRscLines, errors_RscSetErrorAt.
        apply list_lookup_insert_eq. unfold result.errors.
        rewrite length_map. lia.
    + intros sel' w' Hall.
      apply collect_inv in Hall as (-> & _ & _ & _ & Hmarks).
      split; [done|].
      destruct (Hmarks (length pre) raw) as (res' & Hres' & Hcase).
      { by rewrite list_lookup_middle. }
      rewrite Hres in Hres'. injection Hres' as <-.
      destruct Hcase as [?|[_ Hmark]]; [congruence|].
      apply Hmark. subst sel0. simpl. rewrite length_map. lia.
Qed.

(** *** The classification (lines 248-263) *)

Lemma dispatch_response a (q : string) (attrs : list string) (K : Z)
  (rs : list query.PartialRange) :
  forall i w waits w',
  dispatch a q attrs K i rs w = Continue waits w' ->
  Response w' = Response w.
Proof.
  induction rs as [|rng rs IH]; intros i w waits w'; simpl.
  - by intros [= _ <-].
  - destruct (translateQuery a (query.Rsc rng) q) as [ast|e]; [|done].
    destruct (Generate ast) as [cql [|e0 es]]; [|done].
    destruct (Marshal _) as [args|err]; [|done].
    unfold mbind, M_bind, mret, M_ret, publish. simpl.
    destruct (PublishQuery i _) as [wait|err]; [|done].
    destruct (dispatch a q attrs K (S i) rs _) as [waits0 w0| | |] eqn:Hrs;
      try done.
    intros [= _ <-]. by rewrite (IH _ _ _ _ Hrs).
Qed.

Lemma GetFirstError_all_out_of_range sel (e0 : string) :
  result.Slots sel <> [] ->
  Forall (fun e => e = result.OutOfRange e0) (result.errors sel) ->
  result.GetFirstError sel = Some e0.
Proof.
  unfold result.GetFirstError, result.errors.
  destruct (result.Slots sel) as [|s slots]; [done|]. intros _ Hall.
  apply Forall_cons in Hall as [Hs _]. simpl.
  assert (result.slotErrText s = Some e0) as Htext.
  { unfold result.slotErrText. by rewrite Hs. }
  rewrite decide_True by by rewrite Htext. done.
Qed.

(** What is known of the selector when the collecting loop has run to
    its end from a fresh selector: no reply touched the response, there
    is one slot per selected corpus, and a slot either has no error or is
    marked out-of-range with the sentinel. *)
Lemma collect_from_New (names : list string) (K : Z) waits w sel w' :
  collect names 0 waits (result.NewRoundRobinLineSel K names) w
    = Continue sel w' ->
  w' = w /\
  result.names sel = names /\
  Forall (fun e => e = result.NoError \/
                   e = result.OutOfRange mango.ErrRowsRangeOutOfConc)
    (result.errors sel).
Proof.
  intros (-> & Hn & _ & Hev & _)%collect_inv.
  rewrite names_New in Hn. repeat split; [done|].
  apply Forall_lookup_2. intros k e Hk.
  apply Hev in Hk as [Hk|Hk]; [left|by right].
  rewrite errors_New in Hk. by apply lookup_replicate in Hk as [-> _].
Qed.

Lemma classify_without_fatal a ctx w l w1 waits w2 sel w3 :
  validate a ctx w = Continue l w1 ->
  dispatch a (fcsQuery l) (retrieveAttrs l) (maximumRecords l) 0 (ranges l) w1
    = Continue waits w2 ->
  collect (corpora l) 0 waits
    (result.NewRoundRobinLineSel (maximumRecords l) (corpora l)) w2
    = Continue sel w3 ->
  Forall (fun e => forall err, e <> result.Fatal err) (result.errors sel) /\
  (result.AllHasOutOfRangeError sel = false ->
   classify sel w3 = Continue tt w3 /\
   searchRetrieve a ctx w = merge a (maximumRecords l) sel w3).
Proof.
  intros Hv Hd Hc.
  pose proof (collect_from_New _ _ _ _ _ _ Hc) as (-> & _ & Herrs).
  assert (Forall (fun e => forall err, e <> result.Fatal err)
            (result.errors sel)) as Hnf.
  { eapply Forall_impl; [exact Herrs|]. by intros e [->| ->] err. }
  split; [done|]. intros Hall.
  assert (classify sel w2 = Continue tt w2) as Hcl.
  { unfold v12.classify. rewrite Hall.
    by apply HasFatalError_errors in Hnf as ->. }
  split; [done|].
  rewrite (searchRetrieve_dispatched _ _ _ _ _ _ _ Hv Hd).
  rewrite (bind_Continue _ _ _ _ _ Hc).
  by rewrite (bind_Continue _ _ _ _ _ Hcl).
Qed.

(** C9. Let the request be validated and dispatched, and the collecting
    loop have run to its end.  Then no slot of the selector holds a fatal
    error, and the classification either takes its first branch (every
    slot out of range) or goes on to the merge: the [HasFatalError]
    branch is never taken. *)
Theorem fatal_branch_unreachable a ctx w l w1 waits w2 sel w3 :
  validate a ctx w = Continue l w1 ->
  dispatch a (fcsQuery l) (retrieveAttrs l) (maximumRecords l) 0 (ranges l) w1
    = Continue waits w2 ->
  collect (corpora l) 0 waits
    (result.NewRoundRobinLineSel (maximumRecords l) (corpora l)) w2
    = Continue sel w3 ->
  result.HasFatalError sel = false /\
  (forall k e, result.errors sel !! k = Some e ->
     forall err, e <> result.Fatal err) /\
  (result.AllHasOutOfRangeError sel = false ->
   classify sel w3 = Continue tt w3 /\
   searchRetrieve a ctx w = merge a (maximumRecords l) sel w3).
Proof.
  intros Hv Hd Hc.
  destruct (classify_without_fatal _ _ _ _ _ _ _ _ _ Hv Hd Hc) as [Hnf Hgo].
  split; [by apply HasFatalError_errors|]. split; [|done].
  intros k e Hk. by eapply Forall_lookup_1 in Hnf.
Qed.

(** C2. Let the request be validated and dispatched, and the collecting
    loop have run to its end.
    - If every slot is marked out-of-range, the request ends with 422
      and [DCFirstRecordPosOutOfRange], and the records of the response
      are what they were on entry: none is emitted.
    - If some slot is marked out-of-range and not all are, the
      classification adds no diagnostic and the request goes on with the
      merge. *)
Theorem out_of_range_sinks_request_only_if_all a ctx w l w1 waits w2 sel w3 :
  validate a ctx w = Continue l w1 ->
  dispatch a (fcsQuery l) (retrieveAttrs l) (maximumRecords l) 0 (ranges l) w1
    = Continue waits w2 ->
  collect (corpora l) 0 waits
    (result.NewRoundRobinLineSel (maximumRecords l) (corpora l)) w2
    = Continue sel w3 ->
  (result.AllHasOutOfRangeError sel = true ->
   searchRetrieve a ctx w
   = Return 422
       (onResponse
          (addError {| general.Code := general.DCFirstRecordPosOutOfRange;
                       general.Ident := "rows range out of conc";
                       general.Message :=
                         AsMessage general.DCFirstRecordPosOutOfRange |})
          w3) /\
   Results (Response w3) = Results (Response w)) /\
  (existsb result.isOutOfRange (result.Slots sel) = true ->
   result.AllHasOutOfRangeError sel = false ->
   classify sel w3 = Continue tt w3 /\
   searchRetrieve a ctx w = merge a (maximumRecords l) sel w3).
Proof.
  intros Hv Hd Hc. split.
  - intros Hall.
    pose proof (collect_from_New _ _ _ _ _ _ Hc) as (-> & Hn & Herrs).
    pose proof (validate_inv _ _ _ _ _ Hv)
      as (_ & _ & _ & _ & _ & _ & _ & _ & Hne & _ & _ & Hw1).
    assert (result.GetFirstError sel = Some mango.ErrRowsRangeOutOfConc)
      as Hfirst.
    { apply GetFirstError_all_out_of_range.
      - intros Hnil. unfold result.names in Hn. rewrite Hnil in Hn.
        by rewrite <-Hn in Hne.
      - apply AllHasOutOfRangeError_errors in Hall.
        apply Forall_lookup_2. intros k e Hk.
        pose proof (Forall_lookup_1 _ _ _ _ Hall Hk) as [err ->].
        by pose proof (Forall_lookup_1 _ _ _ _ Herrs Hk) as [?|?]. }
    split.
    + rewrite (searchRetrieve_dispatched _ _ _ _ _ _ _ Hv Hd).
      rewrite (bind_Continue _ _ _ _ _ Hc). apply bind_Return.
      unfold v12.classify. by rewrite Hall, Hfirst.
    + by rewrite (dispatch_response _ _ _ _ _ _ _ _ _ Hd), Hw1.
  - intros _ Hall.
    by apply (classify_without_fatal a ctx w l w1 waits w2 sel w3).
Qed.

(** *** The merge (lines 266-296) *)

Lemma mergeLoop_unfold a (K : Z) fuel sel w :
  mergeLoop fuel a K sel w
  = let results := Results (Response w) in
    if (Z.of_nat (length results) <? K)%Z then
      match result.Next sel with
      | (true, sel') =>
          match fuel with
          | O => OutOfFuel w
          | S fuel' =>
              match corpus.GetResource (corpus.Resources (corporaConf a))
                      (result.CurrRscName sel') with
              | Err err =>
                  Return 500
                    (onResponse
                       (addError
                          (generalSystemError err
                             (AsMessage general.DCGeneralSystemError))) w)
              | Ok res =>
                  mergeLoop fuel' a K sel'
                    (onResponse
                       (withResults
                          (results ++
                           [{| Position := Z.of_nat (length results) + 1;
                               PID := result.CurrRscName sel';
                               Ref := corpus.URI res;
                               Tokens :=
                                 map toToken
                                   (rdb.Text (result.CurrLine sel')) |}]))
                       w)
              end
          end
      | (false, sel') => Continue sel' w
      end
    else Continue sel w.
Proof.
  destruct fuel; simpl; unfold mbind, M_bind, getResults; simpl;
    destruct (Z.of_nat _ <? K)%Z; try done;
    destruct (result.Next sel) as [[] sel']; try done.
  by destruct (corpus.GetResource _ _).
Qed.

Lemma mergeLoop_spec a (K : Z) (names : list string) fuel :
  forall sel w,
  result.remaining (result.Slots sel) <= fuel ->
  result.names sel = names ->
  Forall (resolves a) names ->
  rowsOk a names (Results (Response w)) ->
  (Z.of_nat (length (Results (Response w))) <= K)%Z ->
  exists sel' w',
    mergeLoop fuel a K sel w = Continue sel' w' /\
    rowsOk a names (Results (Response w')) /\
    (Z.of_nat (length (Results (Response w'))) <= K)%Z /\
    (Z.of_nat (length (Results (Response w'))) = K \/
     fst (result.Next sel') = false) /\
    GeneralErrors (Response w') = GeneralErrors (Response w).
Proof.
  induction fuel as [|fuel IH]; intros sel w Hfuel Hn Hres Hrows Hlen;
    rewrite mergeLoop_unfold; simpl;
    (destruct (Z.of_nat _ <? K)%Z eqn:HK;
       [|apply Z.ltb_ge in HK; exists sel, w;
         split_and!; [done..|left; lia|done]]);
    destruct (result.Next sel) as [[] sel'] eqn:HNext.
  - apply remaining_Next in HNext. lia.
  - apply Next_false in HNext as Heq. subst sel'. exists sel, w.
    split_and!; [done..|right; by rewrite HNext|done].
  - pose proof (CurrRscName_Next _ _ HNext) as Hin. rewrite Hn in Hin.
    destruct (Forall_forall (resolves a) names) as [Hall _].
    destruct (Hall Hres _ Hin) as [res Hr]. rewrite Hr.
    apply Z.ltb_lt in HK.
    edestruct (IH sel')
      as (sel'' & w'' & Hloop & Hrows'' & Hlen'' & Hexit & Herr);
      [..|exists sel'', w''; split_and!; [exact Hloop|done..]].
    + apply remaining_Next in HNext. lia.
    + by rewrite (names_Next _ _ HNext).
    + done.
    + simpl. intros j row Hj.
      apply lookup_app_Some in Hj as [Hj|[Hge Hj]]; [by apply Hrows|].
      apply list_lookup_singleton_Some in Hj as [Hj0 <-].
      split_and!; simpl; [f_equal; lia|done|by exists res].
    + simpl. rewrite length_app. simpl. lia.
  - apply Next_false in HNext as Heq. subst sel'. exists sel, w.
    split_and!; [done..|right; by rewrite HNext|done].
Qed.

(** What the loop leaves in the response is what was there followed
    by the page of the specification, for the rows still wanted and from
    the next position on. *)
Lemma mergeLoop_drains a (K : Z) fuel :
  forall sel w sel' w',
  mergeLoop fuel a K sel w = Continue sel' w' ->
  Results (Response w')
  = Results (Response w)
    ++ drainSpec a (Z.to_nat K - length (Results (Response w)))
         (Z.of_nat (length (Results (Response w))) + 1) sel.
Proof.
  induction fuel as [|fuel IH]; intros sel w sel' w';
    rewrite mergeLoop_unfold; simpl;
    (destruct (Z.of_nat _ <? K)%Z eqn:HK;
       [apply Z.ltb_lt in HK
       |apply Z.ltb_ge in HK; intros [= _ <-];
        replace (Z.to_nat K - length (Results (Response w))) with 0 by lia;
        simpl; by rewrite app_nil_r]);
    replace (Z.to_nat K - length (Results (Response w)))
      with (S (Z.to_nat K - S (length (Results (Response w))))) by lia;
    simpl; destruct (result.Next sel) as [[] sel1] eqn:HNext; try done;
    try (intros [= _ <-]; by rewrite app_nil_r).
  destruct (corpus.GetResource _ _) as [res|err] eqn:Hres; [|done].
  intros Hloop. apply IH in Hloop. rewrite Hloop. simpl.
  rewrite length_app. simpl.
  rewrite Nat.add_1_r, Nat2Z.inj_succ, <-Z.add_1_r.
  by rewrite <-app_assoc.
Qed.

(** C4. Let the request be validated and dispatched, the collecting
    loop have run to its end, and not every slot be out of range.  Then
    the merge loop, started on the empty results, ends; the request
    returns 200 with what the loop leaves if the runtime gives the slice
    of line 266, and panics there if it does not.  The rows the loop
    leaves are the page of the specification: one row for every [Next()]
    that returned true while fewer than [maximumRecords] rows were
    there, in that order, with the name of the corpus that [Next()] made
    current as [PID], the URI of that corpus as [Ref] and the tokens of
    the row drawn.  So they are at most [maximumRecords] rows; the loop
    stops either with exactly that many rows or because [Next()] returned
    false; the row at index [j] has position [j + 1], its [PID] is one of
    the selected corpora and its [Ref] is the URI of that corpus in the
    registry. *)
Theorem merge_emits_at_most_K_positioned_rows a ctx w l w1 waits w2 sel w3 :
  validate a ctx w = Continue l w1 ->
  dispatch a (fcsQuery l) (retrieveAttrs l) (maximumRecords l) 0 (ranges l) w1
    = Continue waits w2 ->
  collect (corpora l) 0 waits
    (result.NewRoundRobinLineSel (maximumRecords l) (corpora l)) w2
    = Continue sel w3 ->
  result.AllHasOutOfRangeError sel = false ->
  exists sel' w',
    mergeLoop (result.remaining (result.Slots sel)) a (maximumRecords l) sel
      (onResponse (withResults []) w3) = Continue sel' w' /\
    (makeRows (maximumRecords l) = true ->
     searchRetrieve a ctx w = Return 200 w') /\
    (makeRows (maximumRecords l) = false ->
     searchRetrieve a ctx w = Panic w3) /\
    Results (Response w')
    = drainSpec a (Z.to_nat (maximumRecords l)) 1 sel /\
    (Z.of_nat (length (Results (Response w'))) <= maximumRecords l)%Z /\
    (Z.of_nat (length (Results (Response w'))) = maximumRecords l \/
     fst (result.Next sel') = false) /\
    forall (j : nat) row,
      Results (Response w') !! j = Some row ->
      Position row = (Z.of_nat j + 1)%Z /\
      PID row ∈ corpora l /\
      exists res,
        corpus.GetResource (corpus.Resources (corporaConf a)) (PID row)
          = Ok res /\
        Ref row = corpus.URI res.
Proof.
  intros Hv Hd Hc Hall.
  destruct (classify_without_fatal _ _ _ _ _ _ _ _ _ Hv Hd Hc) as [_ Hgo].
  destruct (Hgo Hall) as [_ ->].
  pose proof (collect_from_New _ _ _ _ _ _ Hc) as (_ & Hn & _).
  pose proof (validate_inv _ _ _ _ _ Hv)
    as (_ & _ & _ & _ & _ & _ & HK & _ & _ & Hres & _).
  destruct (mergeLoop_spec a (maximumRecords l) (corpora l)
              (result.remaining (result.Slots sel)) sel
              (onResponse (withResults []) w3))
    as (sel' & w' & Hloop & Hrows & Hlen & Hexit & _); try done.
  { simpl. lia. }
  exists sel', w'. split; [done|].
  split; [|split; [|split; [|done]]].
  - intros Hm. unfold v12.merge, v12.makeResults. rewrite Hm.
    unfold mbind at 1, M_bind at 1. simpl.
    by rewrite (bind_Continue _ _ _ _ _ Hloop).
  - intros Hm. unfold v12.merge, v12.makeResults. by rewrite Hm.
  - rewrite (mergeLoop_drains _ _ _ _ _ _ _ Hloop). simpl.
    by rewrite Nat.sub_0_r.
Qed.

End Properties.

(** ** The handler at work on the concrete installation *)

Section Scenarios.

(** The scenarios of the specification that the installation can play:
    two corpora interleave; a corpus runs dry within the page; every
    corpus is out of range; a semantic error; an unknown parameter. *)
Example scenario_interleave :
  demo.observe (demo.searchRetrieve demo.reqPlain)
  = (Some 200%Z, [],
     [("a", "a1"); ("b", "b1"); ("a", "a2"); ("b", "b2")],
     ["/var/lib/manatee/registry/a"; "/var/lib/manatee/registry/b"]).
Proof. vm_compute. reflexivity. Qed.

Example scenario_one_corpus_out_of_range :
  demo.observe (demo.searchRetrieve demo.reqThird)
  = (Some 200%Z, [], [("b", "b3")],
     ["/var/lib/manatee/registry/a"; "/var/lib/manatee/registry/b"]).
Proof. vm_compute. reflexivity. Qed.

Example scenario_all_out_of_range :
  demo.observe (demo.searchRetrieve demo.reqFar)
  = (Some 422%Z, [general.DCFirstRecordPosOutOfRange], [],
     ["/var/lib/manatee/registry/a"; "/var/lib/manatee/registry/b"]).
Proof. vm_compute. reflexivity. Qed.

Example scenario_semantic_error :
  demo.observe (demo.searchRetrieve demo.reqLemma)
  = (Some 422%Z, [general.DCQueryCannotProcess], [],
     ["/var/lib/manatee/registry/a"]).
Proof. vm_compute. reflexivity. Qed.

Example scenario_unknown_parameter :
  demo.observe (demo.searchRetrieve demo.reqBogus)
  = (Some 400%Z, [general.DCUnsupportedParameter], [], []).
Proof. vm_compute. reflexivity. Qed.

(** C8 at a request that has an unknown key, no [query] and a
    [startRecord] that is not a number. *)
Lemma unsupported_parameter_rejected_first_witness :
  (exists k, k ∈ url.keys (gin.URLQuery demo.reqBogus) /\
             demo.Validate k <> None) /\
  exists key msg,
    key ∈ url.keys (gin.URLQuery demo.reqBogus) /\
    demo.Validate key = Some msg /\
    demo.searchRetrieve demo.reqBogus
    = Return 400
        (onResponse
           (addError {| general.Code := general.DCUnsupportedParameter;
                        general.Ident := key;
                        general.Message := msg |}) demo.fresh).
Proof.
  assert (exists k, k ∈ url.keys (gin.URLQuery demo.reqBogus) /\
                    demo.Validate k <> None) as H.
  { exists "bogus". split; [|discriminate].
    apply list_elem_of_further, list_elem_of_here. }
  split; [exact H|].
  exact (unsupported_parameter_rejected_first demo.Validate demo.AsMessage
           demo.ParseQuery demo.Generate demo.GetRegistryPath demo.Marshal
           demo.PublishQuery demo.DeserializeConcExampleResult demo.makeRows
           demo.handler demo.reqBogus demo.fresh H).
Defined.

(** C7 at a request with [startRecord=0]: it ends with 422. *)
Lemma start_and_maximum_records_validated_witness :
  Forall (fun k => demo.Validate k = None)
    (url.keys (gin.URLQuery demo.reqStartZero)) /\
  gin.Query demo.reqStartZero "query" <> "" /\
  demo.searchRetrieve demo.reqStartZero
  = Return 422
      (onResponse
         (addError
            {| general.Code := general.DCUnsupportedParameterValue;
               general.Ident := "startRecord";
               general.Message :=
                 demo.AsMessage general.DCUnsupportedParameterValue |})
         (onResponse (withEchoedQuery "cat") demo.fresh)).
Proof.
  assert (Forall (fun k => demo.Validate k = None)
            (url.keys (gin.URLQuery demo.reqStartZero))) as Hkeys
    by (repeat constructor).
  assert (gin.Query demo.reqStartZero "query" <> "") as Hq by discriminate.
  split; [exact Hkeys|]. split; [exact Hq|].
  destruct (start_and_maximum_records_validated demo.Validate demo.AsMessage
              demo.ParseQuery demo.Generate demo.GetRegistryPath demo.Marshal
              demo.PublishQuery demo.DeserializeConcExampleResult demo.makeRows
              demo.handler demo.reqStartZero demo.fresh Hkeys Hq)
    as (_ & Hstart & _).
  apply (Hstart "0"); [reflexivity|].
  intros n Hn. vm_compute in Hn. injection Hn as <-. reflexivity.
Defined.

(** The claim C7 as the specification words it fails for an empty
    [maximumRecords]: the parameter is supplied, its value does not parse
    as an integer, and the request is answered with 200 from the
    configured page size. *)
Lemma maximumRecords_empty_value_not_rejected :
  Forall (fun k => demo.Validate k = None)
    (url.keys (gin.URLQuery demo.reqEmptyMaximum)) /\
  gin.Query demo.reqEmptyMaximum "query" = "cat" /\
  gin.GetQuery demo.reqEmptyMaximum "startRecord" = None /\
  gin.GetQuery demo.reqEmptyMaximum "maximumRecords" = Some "" /\
  strconv.Atoi "" = None /\
  (exists w', demo.searchRetrieve demo.reqEmptyMaximum = Return 200 w') /\
  (forall w', demo.searchRetrieve demo.reqEmptyMaximum <> Return 422 w').
Proof.
  split_and!; try reflexivity.
  - repeat constructor.
  - eexists. vm_compute. reflexivity.
  - intros w'. vm_compute. discriminate.
Qed.

(** C5 at a request for the page of three records that starts at the
    second one. *)
Lemma jobs_carry_the_same_window_witness :
  exists l w1,
    demo.validate demo.reqPage = Continue l w1 /\
    startRecord l = 2%Z /\ maximumRecords l = 3%Z /\
    exists jobs,
      Published (worldOf (demo.searchRetrieve demo.reqPage)) = [] ++ jobs /\
      length jobs = 2 /\
      forall (j : nat) job, jobs !! j = Some job ->
        exists c args,
          corpora l !! j = Some c /\
          rdb.Func job = "concExample" /\
          demo.Marshal args = Ok (rdb.Args job) /\
          rdb.CorpusPath args
          = demo.GetRegistryPath (corporaConf demo.handler) c /\
          rdb.StartLine args = 1%Z /\
          rdb.MaxItems args = 3%Z.
Proof.
  eassert (demo.validate demo.reqPage = Continue _ _) as Hv
    by (vm_compute; reflexivity).
  eexists _, _. split; [exact Hv|]. split; [reflexivity|].
  split; [reflexivity|].
  destruct (jobs_carry_the_same_window demo.Validate demo.AsMessage
              demo.ParseQuery demo.Generate demo.GetRegistryPath demo.Marshal
              demo.PublishQuery demo.DeserializeConcExampleResult demo.makeRows
              demo.handler demo.reqPage demo.fresh _ _ Hv)
    as (_ & jobs & Hpub & Hjobs & Hall).
  exists jobs. split; [exact Hpub|]. split; [|exact Hjobs].
  eapply Hall. vm_compute. reflexivity.
Defined.

(** C10 at the plain request and the range entry of corpus [a]. *)
Lemma translateQuery_fails_with_syntax_error_only_witness :
  exists l w1,
    demo.validate demo.reqPlain = Continue l w1 /\
    {| query.Rsc := "a"; query.From := 0 |} ∈ ranges l /\
    resolves demo.handler "a" /\
    forall q e,
      v12.translateQuery demo.AsMessage demo.ParseQuery demo.handler "a" q
        = inr e ->
      general.Code e = general.DCQuerySyntaxError /\
      general.Code e <> general.DCGeneralSystemError.
Proof.
  eassert (demo.validate demo.reqPlain = Continue _ _) as Hv
    by (vm_compute; reflexivity).
  eexists _, _. split; [exact Hv|].
  assert ({| query.Rsc := "a"; query.From := 0 |}
          ∈ ranges (Build_srLocals "cat" 1 4 ["a"; "b"] ["word"])) as Hin
    by apply list_elem_of_here.
  split; [exact Hin|].
  exact (translateQuery_fails_with_syntax_error_only demo.Validate
           demo.AsMessage demo.ParseQuery demo.handler demo.reqPlain
           demo.fresh _ _ Hv _ Hin).
Defined.

(** C6 at a query for the attribute [lemma], which corpus [a] has and
    corpus [b] has not: the job of [a] is published, the request ends
    with 422 at [b]. *)
Lemma translation_failure_aborts_request_witness :
  exists l w1 waits w2,
    demo.validate demo.reqLemma = Continue l w1 /\
    ranges l
    = [ {| query.Rsc := "a"; query.From := 0 |} ]
      ++ {| query.Rsc := "b"; query.From := 0 |} :: [] /\
    demo.dispatch l [ {| query.Rsc := "a"; query.From := 0 |} ] w1
    = Continue waits w2 /\
    demo.searchRetrieve demo.reqLemma
    = Return 422
        (onResponse
           (addError {| general.Code := general.DCQueryCannotProcess;
                        general.Ident := "query";
                        general.Message := "unknown attribute lemma" |})
           w2) /\
    exists jobs, Published w2 = [] ++ jobs /\ length jobs = 1.
Proof.
  eassert (demo.validate demo.reqLemma = Continue _ _) as Hv
    by (vm_compute; reflexivity).
  lazymatch type of Hv with
  | _ = Continue ?l ?w1 =>
      eassert (demo.dispatch l [ {| query.Rsc := "a"; query.From := 0 |} ] w1
               = Continue _ _) as Hd by (vm_compute; reflexivity)
  end.
  eexists _, _, _, _. split; [exact Hv|]. split; [reflexivity|].
  split; [exact Hd|].
  destruct (translation_failure_aborts_request demo.Validate demo.AsMessage
              demo.ParseQuery demo.Generate demo.GetRegistryPath demo.Marshal
              demo.PublishQuery demo.DeserializeConcExampleResult demo.makeRows
              demo.handler demo.reqLemma demo.fresh _ _
              [ {| query.Rsc := "a"; query.From := 0 |} ]
              {| query.Rsc := "b"; query.From := 0 |} [] _ _
              Hv eq_refl Hd)
    as (_ & Hsem & Hjobs).
  split; [|exact Hjobs].
  eapply Hsem; vm_compute; reflexivity.
Defined.

(** C1 at a request that starts past the end of corpus [a]: the first
    reply carries the sentinel and its slot is marked. *)
Lemma worker_reply_classified_witness :
  exists l w1 raw post w2 sel1 w3,
    demo.validate demo.reqThird = Continue l w1 /\
    demo.dispatch l (ranges l) w1 = Continue ([] ++ raw :: post) w2 /\
    demo.collect l [] w2 = Continue sel1 w3 /\
    exists sel2,
      v12.collectOne demo.AsMessage demo.DeserializeConcExampleResult
        (corpora l) 0 raw sel1 w3 = Continue sel2 w3 /\
      result.errors sel2 !! 0
      = Some (result.OutOfRange "rows range out of conc").
Proof.
  eassert (demo.validate demo.reqThird = Continue _ _) as Hv
    by (vm_compute; reflexivity).
  lazymatch type of Hv with
  | _ = Continue ?l ?w1 =>
      eassert (demo.dispatch l (ranges l) w1 = Continue ([] ++ _ :: _) _)
        as Hd by (vm_compute; reflexivity)
  end.
  lazymatch type of Hd with
  | demo.dispatch ?l _ _ = Continue _ ?w2 =>
      eassert (demo.collect l [] w2 = Continue _ _) as Hc
        by (vm_compute; reflexivity)
  end.
  eexists _, _, _, _, _, _, _. split; [exact Hv|]. split; [exact Hd|].
  split; [exact Hc|].
  destruct (worker_reply_classified demo.Validate demo.AsMessage
              demo.ParseQuery demo.Generate demo.GetRegistryPath demo.Marshal
              demo.PublishQuery demo.DeserializeConcExampleResult demo.makeRows
              demo.handler demo.reqThird demo.fresh _ _ _ _ _ _ _ _
              Hv Hd Hc)
    as (_ & _ & Hmark).
  eapply Hmark; reflexivity.
Defined.

(** Runs a request of the installation up to the end of the collecting
    loop and keeps the three equations. *)
Ltac run_to_collect ctx Hv Hd Hc :=
  eassert (demo.validate ctx = Continue _ _) as Hv
    by (vm_compute; reflexivity);
  lazymatch type of Hv with
  | _ = Continue ?l ?w1 =>
      eassert (demo.dispatch l (ranges l) w1 = Continue _ _) as Hd
        by (vm_compute; reflexivity)
  end;
  lazymatch type of Hd with
  | demo.dispatch ?l _ _ = Continue ?waits ?w2 =>
      eassert (demo.collect l waits w2 = Continue _ _) as Hc
        by (vm_compute; reflexivity)
  end.

(** C9 at the request that starts past the end of corpus [a]. *)
Lemma fatal_branch_unreachable_witness :
  exists l w1 waits w2 sel w3,
    demo.validate demo.reqThird = Continue l w1 /\
    demo.dispatch l (ranges l) w1 = Continue waits w2 /\
    demo.collect l waits w2 = Continue sel w3 /\
    result.HasFatalError sel = false /\
    (forall k e, result.errors sel !! k = Some e ->
       forall err, e <> result.Fatal err) /\
    (result.AllHasOutOfRangeError sel = false ->
     v12.classify demo.AsMessage sel w3 = Continue tt w3 /\
     demo.searchRetrieve demo.reqThird
     = v12.merge demo.AsMessage demo.makeRows demo.handler
         (maximumRecords l) sel w3).
Proof.
  run_to_collect demo.reqThird Hv Hd Hc.
  eexists _, _, _, _, _, _. split; [exact Hv|]. split; [exact Hd|].
  split; [exact Hc|].
  exact (fatal_branch_unreachable demo.Validate demo.AsMessage
           demo.ParseQuery demo.Generate demo.GetRegistryPath demo.Marshal
           demo.PublishQuery demo.DeserializeConcExampleResult demo.makeRows
           demo.handler demo.reqThird demo.fresh _ _ _ _ _ _ Hv Hd Hc).
Defined.

(** C2 at a request that starts past the end of both corpora. *)
Lemma out_of_range_sinks_request_only_if_all_witness :
  exists l w1 waits w2 sel w3,
    demo.validate demo.reqFar = Continue l w1 /\
    demo.dispatch l (ranges l) w1 = Continue waits w2 /\
    demo.collect l waits w2 = Continue sel w3 /\
    result.AllHasOutOfRangeError sel = true /\
    demo.searchRetrieve demo.reqFar
    = Return 422
        (onResponse
           (addError
              {| general.Code := general.DCFirstRecordPosOutOfRange;
                 general.Ident := "rows range out of conc";
                 general.Message :=
                   demo.AsMessage general.DCFirstRecordPosOutOfRange |})
           w3) /\
    Results (Response w3) = Results (Response demo.fresh).
Proof.
  run_to_collect demo.reqFar Hv Hd Hc.
  eexists _, _, _, _, _, _. split; [exact Hv|]. split; [exact Hd|].
  split; [exact Hc|]. split; [reflexivity|].
  destruct (out_of_range_sinks_request_only_if_all demo.Validate
              demo.AsMessage demo.ParseQuery demo.Generate
              demo.GetRegistryPath demo.Marshal demo.PublishQuery
              demo.DeserializeConcExampleResult demo.makeRows
              demo.handler demo.reqFar demo.fresh _ _ _ _ _ _ Hv Hd Hc)
    as [Hall _].
  apply Hall. reflexivity.
Defined.

(** C4 at the plain request: four rows, taken in turn from the two
    corpora. *)
Lemma merge_emits_at_most_K_positioned_rows_witness :
  exists l w1 waits w2 sel w3,
    demo.validate demo.reqPlain = Continue l w1 /\
    demo.dispatch l (ranges l) w1 = Continue waits w2 /\
    demo.collect l waits w2 = Continue sel w3 /\
    result.AllHasOutOfRangeError sel = false /\
    demo.makeRows (maximumRecords l) = true /\
    map (fun row => (Position row, PID row, Ref row, map TokText (Tokens row)))
      (drainSpec demo.handler (Z.to_nat (maximumRecords l)) 1 sel)
    = [ (1%Z, "a", "https://example.org/corpora/a", ["a1"]);
        (2%Z, "b", "https://example.org/corpora/b", ["b1"]);
        (3%Z, "a", "https://example.org/corpora/a", ["a2"]);
        (4%Z, "b", "https://example.org/corpora/b", ["b2"]) ] /\
    exists sel' w',
      v12.mergeLoop demo.AsMessage (result.remaining (result.Slots sel))
        demo.handler (maximumRecords l) sel
        (onResponse (withResults []) w3) = Continue sel' w' /\
      demo.searchRetrieve demo.reqPlain = Return 200 w' /\
      Results (Response w')
      = drainSpec demo.handler (Z.to_nat (maximumRecords l)) 1 sel /\
      (Z.of_nat (length (Results (Response w'))) <= maximumRecords l)%Z /\
      (Z.of_nat (length (Results (Response w'))) = maximumRecords l \/
       fst (result.Next sel') = false) /\
      forall (j : nat) row,
        Results (Response w') !! j = Some row ->
        Position row = (Z.of_nat j + 1)%Z /\
        PID row ∈ corpora l /\
        exists res,
          corpus.GetResource (corpus.Resources (corporaConf demo.handler))
            (PID row) = Ok res /\
          Ref row = corpus.URI res.
Proof.
  run_to_collect demo.reqPlain Hv Hd Hc.
  eexists _, _, _, _, _, _. split; [exact Hv|]. split; [exact Hd|].
  split; [exact Hc|]. split; [reflexivity|]. split; [reflexivity|].
  split; [vm_compute; reflexivity|].
  destruct (merge_emits_at_most_K_positioned_rows demo.Validate
              demo.AsMessage demo.ParseQuery demo.Generate
              demo.GetRegistryPath demo.Marshal demo.PublishQuery
              demo.DeserializeConcExampleResult demo.makeRows
              demo.handler demo.reqPlain demo.fresh _ _ _ _ _ _ Hv Hd Hc
              eq_refl)
    as (sel' & w' & Hloop & Hok & _ & Hpage & Hrest).
  exists sel', w'. split; [exact Hloop|]. split; [exact (Hok eq_refl)|].
  split; [exact Hpage|]. exact Hrest.
Defined.

(** C3 on the code: [x-fcs-context=b] is supplied, its one entry is
    [b], and the handler searches both registered corpora, because [b]
    is not the name of a parameter of the request; likewise an entry that
    the registry does not know is not answered with 400. *)
Theorem fcs_context_is_looked_up_by_its_value :
  gin.GetQuery demo.reqContextB "x-fcs-context" = Some "b" /\
  gostrings.Split "b" "," = ["b"] /\
  url.Has (gin.URLQuery demo.reqContextB) "b" = false /\
  selectCorpora demo.handler demo.reqContextB = ["a"; "b"] /\
  demo.observe (demo.searchRetrieve demo.reqContextB)
  = (Some 200%Z, [],
     [("a", "a1"); ("b", "b1"); ("a", "a2"); ("b", "b2")],
     ["/var/lib/manatee/registry/a"; "/var/lib/manatee/registry/b"]) /\
  gin.GetQuery demo.reqContextUnknown "x-fcs-context" = Some "nosuch" /\
  ~ resolves demo.handler "nosuch" /\
  demo.observe (demo.searchRetrieve demo.reqContextUnknown)
  = (Some 200%Z, [],
     [("a", "a1"); ("b", "b1"); ("a", "a2"); ("b", "b2")],
     ["/var/lib/manatee/registry/a"; "/var/lib/manatee/registry/b"]).
Proof.
  split_and!; try (vm_compute; reflexivity).
  intros [res Hres]. vm_compute in Hres. discriminate.
Qed.

End Scenarios.

(** * Further properties of the code *)

(** ** [getEnv] and [getWorkerID] *)

Section Environment.

Implicit Types (s name v p : string) (environ pre post : list string).

Lemma Split_nonempty s (sep : ascii) : gostrings.Split s sep <> [].
Proof.
  destruct s as [|c r]; simpl; [done|].
  destruct (Ascii.eqb c sep); [done|].
  by destruct (gostrings.Split r sep).
Qed.

Lemma length_Split s (sep : ascii) :
  length (gostrings.Split s sep) = S (main.countByte sep s).
Proof.
  induction s as [|c r IH]; simpl; [done|].
  destruct (Ascii.eqb c sep); simpl; [by rewrite IH|].
  destruct (gostrings.Split r sep) eqn:E; [by destruct (Split_nonempty r sep)|].
  done.
Qed.

Lemma Split_no_sep s (sep : ascii) :
  main.countByte sep s = 0 -> gostrings.Split s sep = [s].
Proof.
  induction s as [|c r IH]; simpl; [done|].
  destruct (Ascii.eqb c sep); [done|]. intros H. by rewrite IH.
Qed.

Lemma Split_one_sep name v (sep : ascii) :
  main.countByte sep name = 0 -> main.countByte sep v = 0 ->
  gostrings.Split (name +:+ String sep v) sep = [name; v].
Proof.
  intros Hn Hv. induction name as [|c r IH]; simpl in *.
  - by rewrite Ascii.eqb_refl, Split_no_sep.
  - destruct (Ascii.eqb c sep); [done|]. by rewrite IH.
Qed.

Lemma countByte_app (sep : ascii) s v :
  main.countByte sep (s +:+ v) = main.countByte sep s + main.countByte sep v.
Proof. induction s as [|c r IH]; simpl; [done|]. rewrite IH. lia. Qed.

Lemma getEnv_skip pre p post name :
  Forall (fun q => main.defines name q = false) pre ->
  main.defines name p = false ->
  main.getEnv (pre ++ p :: post) name = main.getEnv post name.
Proof.
  intros Hpre Hp. induction Hpre as [|q pre Hq _ IH]; simpl.
  - unfold main.defines in Hp.
    destruct (gostrings.Split p "=") as [|i0 [|i1 [|]]]; try done.
    by rewrite Hp.
  - unfold main.defines in Hq.
    destruct (gostrings.Split q "=") as [|i0 [|i1 [|]]]; try done.
    by rewrite Hq.
Qed.

(** X1. [getEnv] returns the value of the first entry [name=value]
    of the environment, provided neither the name nor the value has
    an equals sign in it. *)
Theorem getEnv_finds_first_definition pre post name v :
  main.countByte "=" name = 0 -> main.countByte "=" v = 0 ->
  Forall (fun q => main.defines name q = false) pre ->
  main.getEnv (pre ++ (name +:+ String "=" v) :: post) name = v.
Proof.
  intros Hn Hv Hpre. induction Hpre as [|q pre Hq _ IH]; simpl.
  - by rewrite Split_one_sep, String.eqb_refl.
  - unfold main.defines in Hq.
    destruct (gostrings.Split q "=") as [|i0 [|i1 [|]]]; try done.
    by rewrite Hq.
Qed.

(** X2. An entry whose value has an equals sign in it is not seen:
    [getEnv] answers as if the entry were not there, so that a worker
    whose [WORKER_ID] is set to such a value alone gets the identifier
    [0]. *)
Theorem getEnv_ignores_value_with_equals_sign pre post name v :
  main.countByte "=" v <> 0 ->
  Forall (fun q => main.defines name q = false) pre ->
  main.getEnv (pre ++ (name +:+ String "=" v) :: post) name
  = main.getEnv post name /\
  main.getWorkerID ["WORKER_ID" +:+ String "=" v] = "0".
Proof.
  intros Hv Hpre.
  assert (forall n, main.defines n (n +:+ String "=" v) = false) as Hskip.
  { intros n. unfold main.defines.
    pose proof (length_Split (n +:+ String "=" v) "=") as Hlen.
    rewrite countByte_app in Hlen. simpl in Hlen.
    destruct (gostrings.Split _ "=") as [|i0 [|i1 [|]]]; try done.
    simpl in Hlen. lia. }
  split; [by apply getEnv_skip|].
  unfold main.getWorkerID.
  change ["WORKER_ID" +:+ String "=" v]
    with ([] ++ ("WORKER_ID" +:+ String "=" v) :: []).
  by rewrite (getEnv_skip [] _ [] "WORKER_ID" (List.Forall_nil _) (Hskip _)).
Qed.

Lemma getEnv_finds_first_definition_witness :
  main.countByte "=" "WORKER_ID" = 0 /\ main.countByte "=" "7" = 0 /\
  Forall (fun q => main.defines "WORKER_ID" q = false)
    ["HOME=/root"; "WORKER_IDX=3"] /\
  main.getEnv (["HOME=/root"; "WORKER_IDX=3"]
               ++ ("WORKER_ID" +:+ String "=" "7") :: ["WORKER_ID=8"])
    "WORKER_ID" = "7".
Proof.
  assert (Forall (fun q => main.defines "WORKER_ID" q = false)
            ["HOME=/root"; "WORKER_IDX=3"]) as Hpre by (repeat constructor).
  split; [reflexivity|]. split; [reflexivity|]. split; [exact Hpre|].
  exact (getEnv_finds_first_definition ["HOME=/root"; "WORKER_IDX=3"]
           ["WORKER_ID=8"] "WORKER_ID" "7" eq_refl eq_refl Hpre).
Defined.

Lemma getEnv_ignores_value_with_equals_sign_witness :
  main.countByte "=" "a=b" <> 0 /\
  Forall (fun q => main.defines "WORKER_ID" q = false) ["HOME=/root"] /\
  main.getEnv (["HOME=/root"] ++ ("WORKER_ID" +:+ String "=" "a=b") :: [])
    "WORKER_ID" = main.getEnv [] "WORKER_ID" /\
  main.getWorkerID ["WORKER_ID" +:+ String "=" "a=b"] = "0".
Proof.
  assert (main.countByte "=" "a=b" <> 0) as Hv by discriminate.
  assert (Forall (fun q => main.defines "WORKER_ID" q = false)
            ["HOME=/root"]) as Hpre by (repeat constructor).
  split; [exact Hv|]. split; [exact Hpre|].
  exact (getEnv_ignores_value_with_equals_sign ["HOME=/root"] []
           "WORKER_ID" "a=b" Hv Hpre).
Defined.

End Environment.

(** ** The configuration *)

Section Configuration.

Context {RedisConf LoggingConf Location : Type}.
Variable LoadLocation : string -> result Location.
Variable CorporaValidateAndDefaults :
  option cnf.CorporaSetup -> string
  -> option cnf.CorporaSetup * option string.
Variable RedisValidate : option RedisConf -> option string.
Variable ReadDir : string -> result (list string).
Variable ReadFile : string -> result string.
Variable Join : string -> string -> string.
Variable UnmarshalConf :
  string -> result (cnf.Conf RedisConf LoggingConf).
Variable UnmarshalCorpus : string -> result corpus.CorpusSetup.

Implicit Types (conf : cnf.Conf RedisConf LoggingConf)
  (s : cnf.ServerInfo).

#[local] Abbreviation ValidateAndDefaults :=
  (cnf.ValidateAndDefaults LoadLocation CorporaValidateAndDefaults
     RedisValidate).
#[local] Abbreviation TimezoneLocation := (cnf.TimezoneLocation LoadLocation).
#[local] Abbreviation loadItems :=
  (cnf.loadItems ReadFile Join UnmarshalCorpus).
#[local] Abbreviation loadResources :=
  (cnf.loadResources ReadDir ReadFile Join UnmarshalCorpus).
#[local] Abbreviation LoadConfig :=
  (cnf.LoadConfig ReadDir ReadFile Join UnmarshalConf UnmarshalCorpus).
#[local] Abbreviation readsAs := (cnf.readsAs ReadFile Join UnmarshalCorpus).

Lemma hasEn_spec (m : gmap string string) :
  cnf.hasEn m = true <-> is_Some (m !! "en").
Proof. unfold cnf.hasEn. apply bool_decide_eq_true. Qed.

Lemma optionalEn_None (m : option (gmap string string)) err rest :
  cnf.optionalEn m err rest = None <->
  (forall m', m = Some m' -> is_Some (m' !! "en")) /\ rest = None.
Proof.
  unfold cnf.optionalEn. destruct m as [m'|].
  - destruct (cnf.hasEn m') eqn:Hen.
    + apply hasEn_spec in Hen. split; [|by intros [_ ->]].
      intros ->. split; [|done]. by intros ? [= <-].
    + split; [done|]. intros [Hm _].
      specialize (Hm m' eq_refl). apply hasEn_spec in Hm. congruence.
  - split; [by intros ->|by intros [_ ->]].
Qed.

(** X3. [Validate] accepts a server-info section exactly when it is
    there, host, port and database are not empty, the title has an [en]
    entry, and the description and the author, if given, have one too;
    the language and the external path play no part, and neither does
    the text of an entry: an empty title under [en] passes, an empty
    (non-nil) description does not. *)
Theorem serverInfo_accepted_iff (si : option cnf.ServerInfo) :
  cnf.Validate si = None <->
  exists s,
    si = Some s /\
    cnf.ServerHost s <> "" /\ cnf.ServerPort s <> "" /\
    cnf.Database s <> "" /\
    (exists title, cnf.DatabaseTitle s = Some title /\
                   is_Some (title !! "en")) /\
    (forall d, cnf.DatabaseDescription s = Some d -> is_Some (d !! "en")) /\
    (forall au, cnf.DatabaseAuthor s = Some au -> is_Some (au !! "en")).
Proof.
  destruct si as [s|]; simpl; [|split; [done|by intros (? & ? & _)]].
  destruct (String.eqb_spec (cnf.ServerHost s) "") as [Hh|Hh].
  { split; [done|]. by intros (? & [= <-] & ? & _). }
  destruct (String.eqb_spec (cnf.ServerPort s) "") as [Hp|Hp].
  { split; [done|]. by intros (? & [= <-] & ? & ? & _). }
  destruct (String.eqb_spec (cnf.Database s) "") as [Hd|Hd].
  { split; [done|]. by intros (? & [= <-] & ? & ? & ? & _). }
  destruct (cnf.DatabaseTitle s) as [title|] eqn:Ht.
  2:{ split; [done|].
      intros (? & [= <-] & _ & _ & _ & (? & ? & _) & _). congruence. }
  destruct (cnf.hasEn title) eqn:Hen; simpl.
  - apply hasEn_spec in Hen. rewrite !optionalEn_None. split.
    + intros (Hdesc & Hau & _). exists s. split_and!; try done.
      by exists title.
    + intros (? & [= <-] & _ & _ & _ & _ & Hdesc & Hau). by split_and!.
  - split; [done|].
    intros (? & [= <-] & _ & _ & _ & (t & Ht' & Hent) & _).
    rewrite Ht in Ht'. injection Ht' as <-.
    apply hasEn_spec in Hent. congruence.
Qed.

Lemma Outcome_bind_Done {A B} (m : cnf.Outcome A) (f : A -> cnf.Outcome B)
  (b : B) out :
  m ≫= f = cnf.Done b out ->
  exists a o1 o2, m = cnf.Done a o1 /\ f a = cnf.Done b o2 /\ out = o1 ++ o2.
Proof.
  unfold mbind, cnf.Outcome_bind. destruct m as [a o1| |]; [|done..].
  destruct (f a) as [b' o2| |] eqn:Hf; [|done..].
  intros [= <- <-]. by exists a, o1, o2.
Qed.

(** What [ValidateAndDefaults] has done when it returns. *)
Lemma ValidateAndDefaults_Done conf conf' out :
  ValidateAndDefaults conf = cnf.Done conf' out ->
  cnf.Validate (cnf.Info conf) = None /\
  (exists cs1,
     CorporaValidateAndDefaults (cnf.Corpora conf) "corpora" = (cs1, None) /\
     CorporaValidateAndDefaults cs1 "corporaSetup"
     = (cnf.Corpora conf', None)) /\
  RedisValidate (cnf.Redis conf) = None /\
  (exists loc, LoadLocation (cnf.TimeZone conf) = Ok loc) /\
  cnf.ServerWriteTimeoutSecs conf'
  = (if (cnf.ServerWriteTimeoutSecs conf =? 0)%Z then 30%Z
     else cnf.ServerWriteTimeoutSecs conf) /\
  cnf.SourcesRootDir conf'
  = (if String.eqb (cnf.SourcesRootDir conf) "" then "."
     else cnf.SourcesRootDir conf) /\
  cnf.AssetsURLPath conf'
  = (if String.eqb (cnf.AssetsURLPath conf) "" then "/"
     else cnf.AssetsURLPath conf) /\
  cnf.TimeZone conf' = cnf.TimeZone conf /\
  (cnf.TimeZone conf = "" ->
   cnf.Log cnf.LevelWarn [("timeZone", "Europe/Prague")]
     "time zone not specified, using default" ∈ out) /\
  (cnf.ListenAddress conf' = cnf.ListenAddress conf /\
   cnf.ListenPort conf' = cnf.ListenPort conf /\
   cnf.ServerReadTimeoutSecs conf' = cnf.ServerReadTimeoutSecs conf /\
   cnf.CorsAllowedOrigins conf' = cnf.CorsAllowedOrigins conf /\
   cnf.TrustedProxies conf' = cnf.TrustedProxies conf /\
   cnf.Info conf' = cnf.Info conf /\
   cnf.Watchdog conf' = cnf.Watchdog conf /\
   cnf.Redis conf' = cnf.Redis conf /\
   cnf.Logging conf' = cnf.Logging conf /\
   cnf.srcPath conf' = cnf.srcPath conf).
Proof.
  unfold cnf.ValidateAndDefaults.
  intros (c1 & o1 & o2 & H1 & H & ->)%Outcome_bind_Done.
  assert (c1 = if (cnf.ServerWriteTimeoutSecs conf =? 0)%Z
               then cnf.withServerWriteTimeoutSecs 30 conf else conf)
    as Hc1.
  { destruct (cnf.ServerWriteTimeoutSecs conf =? 0)%Z;
      by injection H1 as <- _. }
  clear H1.
  destruct (cnf.Validate (cnf.Info c1)) as [err|] eqn:Hinfo; [done|].
  destruct (CorporaValidateAndDefaults (cnf.Corpora c1) "corpora")
    as [cs1 [err|]] eqn:Hcs1; [done|].
  destruct (CorporaValidateAndDefaults cs1 "corporaSetup")
    as [cs2 [err|]] eqn:Hcs2; [done|].
  destruct (RedisValidate (cnf.Redis (cnf.withCorpora cs2 c1)))
    as [err|] eqn:Hredis; [done|].
  apply Outcome_bind_Done in H as ([] & o3 & o4 & Htz & H & ->).
  destruct (LoadLocation (cnf.TimeZone (cnf.withCorpora cs2 c1)))
    as [loc|err] eqn:Hloc; [|done].
  apply Outcome_bind_Done in H as (c2 & o5 & o6 & H2 & H & ->).
  assert (c2 = if String.eqb (cnf.SourcesRootDir c1) ""
               then cnf.withSourcesRootDir "." (cnf.withCorpora cs2 c1)
               else cnf.withCorpora cs2 c1) as Hc2.
  { simpl in H2. destruct (String.eqb (cnf.SourcesRootDir c1) "");
      by injection H2 as <- _. }
  clear H2.
  assert (conf' = if String.eqb (cnf.AssetsURLPath c2) ""
                  then cnf.withAssetsURLPath "/" c2 else c2) as Hc'.
  { destruct (String.eqb (cnf.AssetsURLPath c2) "");
      by injection H as <- _. }
  clear H.
  assert (cnf.Log cnf.LevelWarn [("timeZone", "Europe/Prague")]
            "time zone not specified, using default" ∈ o3
          \/ cnf.TimeZone c1 <> "") as Hwarn.
  { simpl in Htz. destruct (String.eqb_spec (cnf.TimeZone c1) "");
      [left|by right].
    injection Htz as <-. apply list_elem_of_here. }
  clear Htz. simpl in Hredis, Hloc.
  subst conf' c2 c1.
  destruct (cnf.ServerWriteTimeoutSecs conf =? 0)%Z; simpl in *;
    destruct (String.eqb (cnf.SourcesRootDir conf) "") eqn:Hs; simpl in *;
    destruct (String.eqb (cnf.AssetsURLPath conf) "") eqn:Ha; simpl in *;
    rewrite ?Hs, ?Ha; simpl.
  all: split_and!; try done.
  all: try (by exists cs1); try (by exists loc).
  all: intros Hempty; destruct Hwarn as [Hin|Hne]; [|done].
  all: apply elem_of_app; right; apply elem_of_app; by left.
Qed.

(** X4. A configuration that [ValidateAndDefaults] lets through has a
    write timeout, a sources root and an assets path that are set: each
    is the given one unless that was 0 or empty, in which case it is 30,
    [.] and [/].  The read timeout has no default, and like the listen
    address and port, the CORS origins, the proxies, the server info, the
    watchdog, Redis and logging sections and the source path it is what
    it was. *)
Theorem validated_configuration_has_defaults conf conf' out :
  ValidateAndDefaults conf = cnf.Done conf' out ->
  cnf.ServerWriteTimeoutSecs conf'
  = (if (cnf.ServerWriteTimeoutSecs conf =? 0)%Z then 30%Z
     else cnf.ServerWriteTimeoutSecs conf) /\
  cnf.SourcesRootDir conf'
  = (if String.eqb (cnf.SourcesRootDir conf) "" then "."
     else cnf.SourcesRootDir conf) /\
  cnf.AssetsURLPath conf'
  = (if String.eqb (cnf.AssetsURLPath conf) "" then "/"
     else cnf.AssetsURLPath conf) /\
  cnf.ServerWriteTimeoutSecs conf' <> 0%Z /\
  cnf.SourcesRootDir conf' <> "" /\ cnf.AssetsURLPath conf' <> "" /\
  cnf.ServerReadTimeoutSecs conf' = cnf.ServerReadTimeoutSecs conf /\
  cnf.ListenAddress conf' = cnf.ListenAddress conf /\
  cnf.ListenPort conf' = cnf.ListenPort conf /\
  cnf.CorsAllowedOrigins conf' = cnf.CorsAllowedOrigins conf /\
  cnf.TrustedProxies conf' = cnf.TrustedProxies conf /\
  cnf.Info conf' = cnf.Info conf /\
  cnf.Watchdog conf' = cnf.Watchdog conf /\
  cnf.Redis conf' = cnf.Redis conf /\
  cnf.Logging conf' = cnf.Logging conf /\
  cnf.srcPath conf' = cnf.srcPath conf.
Proof.
  intros (_ & _ & _ & _ & Hw & Hs & Ha & _ & _ & Hrest)%ValidateAndDefaults_Done.
  destruct Hrest as (? & ? & ? & ? & ? & ? & ? & ? & ? & ?).
  split_and!; try done.
  - rewrite Hw. destruct (Z.eqb_spec (cnf.ServerWriteTimeoutSecs conf) 0);
      [done|done].
  - rewrite Hs. by destruct (String.eqb_spec (cnf.SourcesRootDir conf) "").
  - rewrite Ha. by destruct (String.eqb_spec (cnf.AssetsURLPath conf) "").
Qed.

(** X5. For a configuration without a time zone that
    [ValidateAndDefaults] lets through, the warning that names the
    default [Europe/Prague] is written, and yet the time zone of the
    configuration stays empty: the location that was checked, and the
    one [TimezoneLocation] gives afterwards, is the one
    [time.LoadLocation] has for the empty name. *)
Theorem time_zone_default_is_announced_not_applied conf conf' out :
  cnf.TimeZone conf = "" ->
  ValidateAndDefaults conf = cnf.Done conf' out ->
  cnf.Log cnf.LevelWarn [("timeZone", "Europe/Prague")]
    "time zone not specified, using default" ∈ out /\
  cnf.TimeZone conf' = "" /\
  exists loc,
    LoadLocation "" = Ok loc /\ TimezoneLocation conf' = Some loc.
Proof.
  intros Htz (_ & _ & _ & [loc Hloc] & _ & _ & _ & Htz' & Hwarn & _)
    %ValidateAndDefaults_Done.
  split; [by apply Hwarn|]. rewrite Htz in *. split; [done|].
  exists loc. split; [done|].
  unfold cnf.TimezoneLocation. by rewrite Htz', Hloc.
Qed.

(** X6. After [ValidateAndDefaults] has let a configuration through,
    [TimezoneLocation] gives a location and not nil, which is what lets
    it drop the error of [time.LoadLocation]. *)
Theorem TimezoneLocation_after_validation conf conf' out :
  ValidateAndDefaults conf = cnf.Done conf' out ->
  exists loc,
    LoadLocation (cnf.TimeZone conf') = Ok loc /\
    TimezoneLocation conf' = Some loc.
Proof.
  intros (_ & _ & _ & [loc Hloc] & _ & _ & _ & Htz' & _)
    %ValidateAndDefaults_Done.
  exists loc. unfold cnf.TimezoneLocation. by rewrite Htz', Hloc.
Qed.

(** X7. [ValidateAndDefaults] never panics, and it returns (rather
    than end the process through [log.Fatal]) exactly when the server
    info is accepted, the corpora section passes its validation twice in
    a row (under the names [corpora] and [corporaSetup], the second time
    as the first left it), the Redis section passes its own, and the time
    zone loads. *)
Theorem ValidateAndDefaults_returns_iff conf :
  (forall out, ValidateAndDefaults conf <> cnf.Panic out) /\
  ((exists conf' out, ValidateAndDefaults conf = cnf.Done conf' out) <->
   cnf.Validate (cnf.Info conf) = None /\
   (exists cs1 cs2,
      CorporaValidateAndDefaults (cnf.Corpora conf) "corpora" = (cs1, None) /\
      CorporaValidateAndDefaults cs1 "corporaSetup" = (cs2, None)) /\
   RedisValidate (cnf.Redis conf) = None /\
   exists loc, LoadLocation (cnf.TimeZone conf) = Ok loc).
Proof.
  split; [|split].
  - intros out. unfold cnf.ValidateAndDefaults, mbind, cnf.Outcome_bind,
      mret, cnf.Outcome_ret, cnf.warn, cnf.fatal.
    destruct (cnf.ServerWriteTimeoutSecs conf =? 0)%Z; simpl;
      (destruct (cnf.Validate (cnf.Info conf)); [done|]);
      (destruct (CorporaValidateAndDefaults (cnf.Corpora conf) "corpora")
         as [cs1 [?|]]; [done|]);
      (destruct (CorporaValidateAndDefaults cs1 "corporaSetup")
         as [cs2 [?|]]; [done|]); simpl;
      (destruct (RedisValidate (cnf.Redis conf)); [done|]);
      destruct (String.eqb (cnf.TimeZone conf) ""); simpl;
      (destruct (LoadLocation (cnf.TimeZone conf)); [|done]);
      destruct (String.eqb (cnf.SourcesRootDir conf) ""); simpl;
      by destruct (String.eqb (cnf.AssetsURLPath conf) "").
  - intros (conf' & out & H). apply ValidateAndDefaults_Done in H
      as (Hinfo & (cs1 & H1 & H2) & Hredis & Hloc & _).
    split_and!; try done. by exists cs1, (cnf.Corpora conf').
  - intros (Hinfo & (cs1 & cs2 & H1 & H2) & Hredis & loc & Hloc).
    unfold cnf.ValidateAndDefaults, mbind, cnf.Outcome_bind,
      mret, cnf.Outcome_ret, cnf.warn, cnf.fatal.
    destruct (cnf.ServerWriteTimeoutSecs conf =? 0)%Z; simpl;
      rewrite Hinfo, H1, H2; simpl; rewrite Hredis;
      destruct (String.eqb (cnf.TimeZone conf) ""); simpl; rewrite Hloc;
      destruct (String.eqb (cnf.SourcesRootDir conf) ""); simpl;
      destruct (String.eqb (cnf.AssetsURLPath conf) "");
      by eexists _, _.
Qed.

Lemma loadItems_spec (path : string) (items : list string) :
  forall ans,
  exists rs err out,
    loadItems path items ans = cnf.Done (rs, err) out /\
    ((err = None /\
      out = map (fun item => cnf.Stdout ("item:  " +:+ item)) items /\
      exists parsed,
        rs = ans ++ parsed /\ Forall2 (readsAs path) items parsed) \/
     (exists e pre item post parsed,
        err = Some e /\ items = pre ++ item :: post /\
        out = map (fun item => cnf.Stdout ("item:  " +:+ item))
                (pre ++ [item]) /\
        rs = ans ++ parsed /\ Forall2 (readsAs path) pre parsed /\
        ~ exists cs, readsAs path item cs)).
Proof.
  induction items as [|item items IH]; intros ans; simpl.
  - exists ans, None, []. split; [done|]. left. split_and!; try done.
    exists []. by rewrite app_nil_r.
  - unfold mbind, cnf.Outcome_bind, cnf.println.
    destruct (ReadFile (Join path item)) as [raw|e] eqn:Hread.
    2:{ eexists _, _, _. split; [done|]. right.
        eexists _, [], item, items, []. rewrite app_nil_r.
        split_and!; try done. intros (cs & raw & Hr & _). congruence. }
    destruct (UnmarshalCorpus raw) as [cs|e] eqn:Hparse.
    2:{ eexists _, _, _. split; [done|]. right.
        eexists _, [], item, items, []. rewrite app_nil_r.
        split_and!; try done.
        intros (cs & raw' & Hr & Hp). congruence. }
    destruct (IH (ans ++ [cs])) as (rs & err & out & -> & Hcase).
    eexists _, _, _. split; [done|].
    destruct Hcase as [(-> & -> & parsed & -> & Hall)|
                       (e & pre & it & post & parsed & -> & -> & -> & -> & Hall & Hbad)].
    + left. split_and!; try done. exists (cs :: parsed).
      rewrite <-app_assoc. split; [done|]. constructor; [|done].
      by exists raw.
    + right. exists e, (item :: pre), it, post, (cs :: parsed).
      rewrite <-app_assoc. split_and!; try done.
      constructor; [|done]. by exists raw.
Qed.

(** X8. [loadResources] always returns.  Without an error it returns
    one resource per entry of the directory, in the order of the
    entries, each the decoding of that entry's file.  With an error,
    either the directory could not be listed and nothing is returned, or
    some entry did not read or decode, and what is returned are the
    resources of the entries before it.  One line is printed for every
    entry that was tried. *)
Theorem loadResources_in_directory_order (path : string) :
  exists rs err out,
    loadResources path = cnf.Done (rs, err) out /\
    (err = None ->
     exists items,
       ReadDir path = Ok items /\ Forall2 (readsAs path) items rs /\
       out = map (fun item => cnf.Stdout ("item:  " +:+ item)) items) /\
    (forall e, err = Some e ->
       (exists e', ReadDir path = Err e' /\ rs = [] /\ out = []) \/
       (exists items pre item post,
          ReadDir path = Ok items /\ items = pre ++ item :: post /\
          Forall2 (readsAs path) pre rs /\
          (~ exists cs, readsAs path item cs) /\
          out = map (fun item => cnf.Stdout ("item:  " +:+ item))
                  (pre ++ [item]))).
Proof.
  unfold cnf.loadResources.
  destruct (ReadDir path) as [items|e'] eqn:Hdir.
  - destruct (loadItems_spec path items []) as (rs & err & out & -> & Hcase).
    exists rs, err, out. split; [done|].
    destruct Hcase as [(-> & -> & parsed & -> & Hall)|
                       (e & pre & it & post & parsed & -> & -> & -> & -> & Hall & Hbad)].
    + split; [|done]. intros _. by exists items.
    + split; [done|]. intros ? _. right. by exists (pre ++ it :: post), pre, it, post.
  - eexists _, _, _. split; [done|]. split; [done|].
    intros ? _. left. by exists e'.
Qed.

(** X9. A configuration that [LoadConfig] returns has the path it was
    loaded from as its source path; its corpora section has the
    resources of the decoded file first and, after them, the resources of
    the directory [ResourcesConfDir] in the order of its entries, none
    if that directory is not named; every other field is as decoded. *)
Theorem LoadConfig_appends_directory_resources (path : string) conf out :
  LoadConfig path = cnf.Done conf out ->
  cnf.srcPath conf = path /\
  exists rawData decoded cs cs' extra,
    ReadFile path = Ok rawData /\ UnmarshalConf rawData = Ok decoded /\
    cnf.Corpora decoded = Some cs /\ cnf.Corpora conf = Some cs' /\
    corpus.Resources (cnf.Setup cs')
    = corpus.Resources (cnf.Setup cs) ++ extra /\
    corpus.MaximumRecords (cnf.Setup cs')
    = corpus.MaximumRecords (cnf.Setup cs) /\
    cnf.ResourcesConfDir cs' = cnf.ResourcesConfDir cs /\
    (cnf.ResourcesConfDir cs = "" -> extra = []) /\
    (cnf.ResourcesConfDir cs <> "" ->
     exists items,
       ReadDir (cnf.ResourcesConfDir cs) = Ok items /\
       Forall2 (readsAs (cnf.ResourcesConfDir cs)) items extra) /\
    conf = cnf.withCorpora (Some cs') (cnf.withSrcPath path decoded).
Proof.
  unfold cnf.LoadConfig.
  destruct (String.eqb path ""); [done|].
  destruct (ReadFile path) as [rawData|] eqn:Hread; [|done].
  destruct (UnmarshalConf rawData) as [decoded|] eqn:Hdec; [|done].
  simpl. destruct (cnf.Corpora decoded) as [cs|] eqn:Hcs; [|done].
  destruct (String.eqb_spec (cnf.ResourcesConfDir cs) "") as [Hdir|Hdir];
    simpl.
  - intros [= <- <-]. split; [done|].
    exists rawData, decoded, cs, cs, []. rewrite app_nil_r.
    split_and!; try done. destruct decoded. simpl in *. by rewrite Hcs.
  - destruct (loadResources_in_directory_order (cnf.ResourcesConfDir cs))
      as (rs & err & o & Hload & Hok & _).
    unfold mbind, cnf.Outcome_bind. rewrite Hload. simpl.
    destruct err as [e|]; [done|]. intros [= <- <-]. split; [done|].
    destruct (Hok eq_refl) as (items & Hitems & Hall & _).
    exists rawData, decoded, cs, (cnf.appendResources rs cs), rs.
    split_and!; try done. intros _. by exists items.
Qed.

(** X10. [LoadConfig] panics exactly when the file is read and decoded
    and the decoded configuration has no corpora section: the test of
    [ResourcesConfDir] goes through the nil section. *)
Theorem LoadConfig_panics_iff_no_corpora_section (path : string) :
  (exists out, LoadConfig path = cnf.Panic out) <->
  path <> "" /\
  exists rawData decoded,
    ReadFile path = Ok rawData /\ UnmarshalConf rawData = Ok decoded /\
    cnf.Corpora decoded = None.
Proof.
  unfold cnf.LoadConfig.
  destruct (String.eqb_spec path "") as [Hp|Hp].
  { split; [by intros [? ?]|by intros [? _]]. }
  destruct (ReadFile path) as [rawData|] eqn:Hread.
  2:{ split; [by intros [? ?]|by intros (_ & ? & ? & ? & _)]. }
  destruct (UnmarshalConf rawData) as [decoded|] eqn:Hdec.
  2:{ split; [by intros [? ?]|].
      intros (_ & ? & ? & [= <-] & ? & _). congruence. }
  simpl. destruct (cnf.Corpora decoded) as [cs|] eqn:Hcs.
  - split; [|intros (_ & ? & ? & [= <-] & ? & ?); congruence].
    intros [out H]. exfalso.
    destruct (String.eqb (cnf.ResourcesConfDir cs) ""); simpl in H; [done|].
    destruct (loadResources_in_directory_order (cnf.ResourcesConfDir cs))
      as (rs & err & o & Hload & _).
    unfold mbind, cnf.Outcome_bind in H. rewrite Hload in H. simpl in H.
    by destruct err.
  - split; [|by intros _; eexists]. intros _. split; [done|].
    by exists rawData, decoded.
Qed.

End Configuration.

Section ConfigurationScenarios.

Example scenario_server_info :
  cnf.Validate (Some demoConf.info) = None /\
  cnf.Validate None = Some "missing serverInfo section" /\
  cnf.Validate
    (Some {| cnf.ServerHost := "fcs.example.org"; cnf.ServerPort := "443";
             cnf.Database := "fcs";
             cnf.DatabaseTitle := Some {[ "en" := "Corpora" ]};
             cnf.DatabaseDescription := Some ∅;
             cnf.DatabaseAuthor := None;
             cnf.PrimaryLanguage := "en"; cnf.ExternalURLPath := "/" |})
  = Some "missing required configuration for `serverInfo.databaseDescription.en`".
Proof. split_and!; vm_compute; reflexivity. Qed.

Example scenario_load_config :
  (exists conf out,
     demoConf.LoadConfig "/etc/fcs/conf.json" = cnf.Done conf out /\
     cnf.Corpora conf
     = Some {| cnf.Setup :=
                 {| corpus.Resources :=
                      [demo.rsc "inline" [demo.word];
                       demo.rsc "a" [demo.word; demo.lemma];
                       demo.rsc "b" [demo.word]];
                    corpus.MaximumRecords := 50 |};
               cnf.ResourcesConfDir := "/etc/fcs/resources" |} /\
     out = [cnf.Stdout "item:  a.json"; cnf.Stdout "item:  b.json"]) /\
  demoConf.LoadConfig "/etc/fcs/bare.json" = cnf.Panic [] /\
  demoConf.LoadConfig ""
  = cnf.Exit [cnf.Log cnf.LevelFatal []
                "Cannot load config - path not specified"].
Proof.
  split_and!; [|vm_compute; reflexivity..].
  eexists _, _. split_and!; vm_compute; reflexivity.
Qed.

Lemma validated_configuration_has_defaults_witness :
  demoConf.ValidateAndDefaults demoConf.loaded
  = cnf.Done demoConf.validated demoConf.validationLog /\
  cnf.ServerWriteTimeoutSecs demoConf.validated = 30%Z /\
  cnf.SourcesRootDir demoConf.validated = "." /\
  cnf.AssetsURLPath demoConf.validated = "/static" /\
  cnf.ServerReadTimeoutSecs demoConf.validated = 0%Z.
Proof.
  assert (demoConf.ValidateAndDefaults demoConf.loaded
          = cnf.Done demoConf.validated demoConf.validationLog) as Hv
    by reflexivity.
  split; [exact Hv|].
  destruct (validated_configuration_has_defaults demoConf.LoadLocation
              demoConf.CorporaValidateAndDefaults demoConf.RedisValidate
              demoConf.loaded demoConf.validated demoConf.validationLog Hv)
    as (Hw & Hs & Ha & _ & _ & _ & Hr & _).
  split; [exact Hw|]. split; [exact Hs|]. split; [exact Ha|exact Hr].
Defined.

Lemma time_zone_default_is_announced_not_applied_witness :
  cnf.TimeZone demoConf.loaded = "" /\
  demoConf.ValidateAndDefaults demoConf.loaded
  = cnf.Done demoConf.validated demoConf.validationLog /\
  cnf.Log cnf.LevelWarn [("timeZone", "Europe/Prague")]
    "time zone not specified, using default" ∈ demoConf.validationLog /\
  cnf.TimeZone demoConf.validated = "" /\
  exists loc,
    demoConf.LoadLocation "" = Ok loc /\
    cnf.TimezoneLocation demoConf.LoadLocation demoConf.validated = Some loc.
Proof.
  assert (cnf.TimeZone demoConf.loaded = "") as Htz by reflexivity.
  assert (demoConf.ValidateAndDefaults demoConf.loaded
          = cnf.Done demoConf.validated demoConf.validationLog) as Hv
    by reflexivity.
  split; [exact Htz|]. split; [exact Hv|].
  exact (time_zone_default_is_announced_not_applied demoConf.LoadLocation
           demoConf.CorporaValidateAndDefaults demoConf.RedisValidate
           demoConf.loaded demoConf.validated demoConf.validationLog Htz Hv).
Defined.

Lemma TimezoneLocation_after_validation_witness :
  demoConf.ValidateAndDefaults demoConf.loaded
  = cnf.Done demoConf.validated demoConf.validationLog /\
  exists loc,
    demoConf.LoadLocation (cnf.TimeZone demoConf.validated) = Ok loc /\
    cnf.TimezoneLocation demoConf.LoadLocation demoConf.validated = Some loc.
Proof.
  assert (demoConf.ValidateAndDefaults demoConf.loaded
          = cnf.Done demoConf.validated demoConf.validationLog) as Hv
    by reflexivity.
  split; [exact Hv|].
  exact (TimezoneLocation_after_validation demoConf.LoadLocation
           demoConf.CorporaValidateAndDefaults demoConf.RedisValidate
           demoConf.loaded demoConf.validated demoConf.validationLog Hv).
Defined.

Lemma LoadConfig_appends_directory_resources_witness :
  demoConf.LoadConfig "/etc/fcs/conf.json"
  = cnf.Done demoConf.loaded
      [cnf.Stdout "item:  a.json"; cnf.Stdout "item:  b.json"] /\
  cnf.srcPath demoConf.loaded = "/etc/fcs/conf.json" /\
  exists cs' extra,
    cnf.Corpora demoConf.loaded = Some cs' /\
    corpus.Resources (cnf.Setup cs')
    = corpus.Resources (cnf.Setup demoConf.inlineCorpora) ++ extra.
Proof.
  assert (demoConf.LoadConfig "/etc/fcs/conf.json"
          = cnf.Done demoConf.loaded
              [cnf.Stdout "item:  a.json"; cnf.Stdout "item:  b.json"])
    as Hl by reflexivity.
  split; [exact Hl|].
  destruct (LoadConfig_appends_directory_resources demoConf.ReadDir
              demoConf.ReadFile demoConf.Join demoConf.UnmarshalConf
              demoConf.UnmarshalCorpus _ _ _ Hl)
    as (Hsrc & raw & dec & cs & cs' & extra & Hr & Hd & Hc & Hc' & Hres & _).
  split; [exact Hsrc|]. exists cs', extra. split; [exact Hc'|].
  injection Hr as <-. injection Hd as <-. injection Hc as <-.
  exact Hres.
Defined.

End ConfigurationScenarios.

(** ** [searchRetrieve]: statuses, diagnostics and what is written *)

(** A pair of a status and a code is in a table. *)
Ltac in_list :=
  let rec go :=
    first [apply list_elem_of_here | apply list_elem_of_further; go] in
  go.

Ltac in_table :=
  unfold validateTable, dispatchTable, collectTable, classifyTable; in_list.

(** The cases of a pair that is in one of the tables. *)
Ltac table_cases H :=
  unfold validateTable, dispatchTable, collectTable, classifyTable in H;
  rewrite ?elem_of_app, ?elem_of_cons, ?elem_of_nil in H;
  destruct_or!; try done; simplify_eq.

Section Outcomes.

Context {AST Payload WorkerResult : Type}.
Variable Validate : string -> option string.
Variable AsMessage : general.DiagnosticCode -> string.
Variable ParseQuery :
  string -> list corpus.PosAttr -> corpus.StructureMapping -> result AST.
Variable Generate : AST -> string * list string.
Variable GetRegistryPath : corpus.CorporaSetup -> string -> string.
Variable Marshal : rdb.ConcExampleArgs -> result Payload.
Variable PublishQuery : nat -> rdb.Query Payload -> result WorkerResult.
Variable DeserializeConcExampleResult :
  WorkerResult -> result rdb.ConcExampleResult.
Variable makeRows : Z -> bool.

Implicit Types (w : World Payload) (a : FCSSubHandlerV12)
  (ctx : gin.Context) (tbl : list (Z * general.DiagnosticCode)).

#[local] Abbreviation checkParams := (v12.checkParams (Payload:=Payload) Validate).
#[local] Abbreviation readQuery := (v12.readQuery (Payload:=Payload)).
#[local] Abbreviation readStartRecord :=
  (v12.readStartRecord (Payload:=Payload) AsMessage).
#[local] Abbreviation readMaximumRecords :=
  (v12.readMaximumRecords (Payload:=Payload) AsMessage).
#[local] Abbreviation checkResources := (v12.checkResources (Payload:=Payload)).
#[local] Abbreviation checkCorpora := (v12.checkCorpora (Payload:=Payload)).
#[local] Abbreviation commonAttrs := (v12.commonAttrs (Payload:=Payload) AsMessage).
#[local] Abbreviation validate := (v12.validate (Payload:=Payload) Validate AsMessage).
#[local] Abbreviation translateQuery := (v12.translateQuery AsMessage ParseQuery).
#[local] Abbreviation dispatch :=
  (v12.dispatch AsMessage ParseQuery Generate GetRegistryPath Marshal
     PublishQuery).
#[local] Abbreviation collectOne :=
  (v12.collectOne (Payload:=Payload) AsMessage DeserializeConcExampleResult).
#[local] Abbreviation collect :=
  (v12.collect (Payload:=Payload) AsMessage DeserializeConcExampleResult).
#[local] Abbreviation classify := (v12.classify (Payload:=Payload) AsMessage).
#[local] Abbreviation mergeLoop := (v12.mergeLoop (Payload:=Payload) AsMessage).
#[local] Abbreviation merge :=
  (v12.merge (Payload:=Payload) AsMessage makeRows).
#[local] Abbreviation jobArgs := (v12.jobArgs GetRegistryPath).
#[local] Abbreviation jobOf :=
  (v12.jobOf ParseQuery Generate GetRegistryPath Marshal).
#[local] Abbreviation searchRetrieve :=
  (v12.searchRetrieve Validate AsMessage ParseQuery Generate GetRegistryPath
     Marshal PublishQuery DeserializeConcExampleResult makeRows).

Lemma bind_inv_Return {A B} (m : M Payload A) (f : A -> M Payload B)
  w s w' :
  (m ≫= f) w = Return s w' ->
  m w = Return s w' \/
  exists x w1, m w = Continue x w1 /\ f x w1 = Return s w'.
Proof.
  unfold mbind, M_bind. destruct (m w) as [x w1| | |]; try done.
  - right. by exists x, w1.
  - intros [= <- <-]. by left.
Qed.

Lemma frame_refl w : frame w w.
Proof. done. Qed.

Lemma phaseOk_ret {A} tbl (x : A) : phaseOk (Payload:=Payload) tbl (mret x).
Proof. intros w. apply frame_refl. Qed.

Lemma phaseOk_panic {A} tbl : phaseOk tbl (panic : M Payload A).
Proof. by intros w. Qed.

Lemma phaseOk_fail {A} tbl e (s : Z) :
  (s, general.Code e) ∈ tbl ->
  phaseOk tbl (AddError e ;; exit s : M Payload A).
Proof. intros Hin w. rewrite fail_with. by exists e. Qed.

Lemma phaseOk_bind {A B} tbl (m : M Payload A) (f : A -> M Payload B) :
  phaseOk tbl m -> (forall x, phaseOk tbl (f x)) -> phaseOk tbl (m ≫= f).
Proof.
  intros Hm Hf w. specialize (Hm w). unfold mbind, M_bind.
  destruct (m w) as [x w1| | |]; try done.
  destruct Hm as (He & Hr & Hq & Hs). specialize (Hf x w1).
  destruct (f x w1) as [y w2|s w2| |]; try done.
  - destruct Hf as (He' & Hr' & Hq' & Hs'). unfold frame.
    split_and!; by etrans.
  - destruct Hf as (e & Hin & He' & Hr' & Hq' & Hs'). exists e.
    split_and!; [done|by rewrite He', He|by etrans..].
Qed.

Lemma phaseOk_mono {A} tbl tbl' (m : M Payload A) :
  tbl ⊆ tbl' -> phaseOk tbl m -> phaseOk tbl' m.
Proof.
  intros Hsub Hm w. specialize (Hm w).
  destruct (m w) as [x w1|s w1| |]; try done.
  destruct Hm as (e & Hin & ?). exists e. split; [by apply Hsub|done].
Qed.

Lemma phaseOk_publish tbl i q :
  phaseOk tbl (publish PublishQuery i q).
Proof. by intros w. Qed.

Lemma phaseOk_dispatch a (q : string) (attrs : list string) (K : Z)
  (rs : list query.PartialRange) :
  Forall (fun rng => resolves a (query.Rsc rng)) rs ->
  forall i, phaseOk dispatchTable (dispatch a q attrs K i rs).
Proof.
  induction rs as [|rng rs IH]; intros Hres i; simpl; [apply phaseOk_ret|].
  apply Forall_cons in Hres as [Hrng Hres].
  destruct (translateQuery a (query.Rsc rng) q) as [ast|e] eqn:Ht.
  2:{ apply phaseOk_fail.
      rewrite (translateQuery_resolved _ _ _ _ _ _ Hrng Ht). in_table. }
  destruct (Generate ast) as [cql [|e0 es]]; [|apply phaseOk_fail; in_table].
  destruct (Marshal _) as [args|err]; [|apply phaseOk_fail; in_table].
  apply phaseOk_bind; [apply phaseOk_publish|].
  intros [wait|err]; [|apply phaseOk_fail; in_table].
  apply phaseOk_bind; [by apply IH|]. intros waits. apply phaseOk_ret.
Qed.

Lemma phaseOk_collectOne (names : list string) i raw sel :
  phaseOk collectTable (collectOne names i raw sel).
Proof.
  unfold v12.collectOne.
  destruct (DeserializeConcExampleResult raw) as [res|err];
    [|apply phaseOk_fail; in_table].
  apply phaseOk_bind.
  - destruct (rdb.ResErr res) as [err|]; [|apply phaseOk_ret].
    destruct (String.eqb err _);
      [apply phaseOk_ret|apply phaseOk_fail; in_table].
  - intros sel'. destruct (names !! i); [apply phaseOk_ret|apply phaseOk_panic].
Qed.

Lemma phaseOk_collect (names : list string) waits :
  forall i sel, phaseOk collectTable (collect names i waits sel).
Proof.
  induction waits as [|raw waits IH]; intros i sel; simpl;
    [apply phaseOk_ret|].
  apply phaseOk_bind; [apply phaseOk_collectOne|]. intros sel'. apply IH.
Qed.

Lemma phaseOk_classify sel : phaseOk classifyTable (classify sel).
Proof.
  unfold v12.classify.
  destruct (result.AllHasOutOfRangeError sel).
  - destruct (result.GetFirstError sel);
      [apply phaseOk_fail; in_table|apply phaseOk_panic].
  - destruct (result.HasFatalError sel); [|apply phaseOk_ret].
    destruct (result.GetFirstError sel);
      [apply phaseOk_fail; in_table|apply phaseOk_panic].
Qed.

(** *** The validation (lines 69-167) *)

Lemma fail_inv {A} e (s s' : Z) w w' :
  (AddError e ;; exit s : M Payload A) w = Return s' w' ->
  s' = s /\ w' = onResponse (addError e) w.
Proof. rewrite fail_with. by intros [= <- <-]. Qed.

Lemma checkParams_Return (keys : list string) w s w' :
  checkParams keys w = Return s w' ->
  exists e,
    s = 400%Z /\ general.Code e = general.DCUnsupportedParameter /\
    w' = onResponse (addError e) w.
Proof.
  induction keys as [|k keys IH]; simpl; [done|].
  destruct (Validate k) as [msg|]; [|done].
  intros [-> ->]%fail_inv. eexists. split_and!; [done| |reflexivity]. done.
Qed.

Lemma checkResources_Return a (names : list string) w s w' :
  checkResources a names w = Return s w' ->
  exists e,
    s = 400%Z /\ general.Code e = general.DCUnsupportedParameterValue /\
    w' = onResponse (addError e) w.
Proof.
  induction names as [|v names IH]; simpl; [done|].
  destruct (corpus.GetResource _ v); [done|].
  intros [-> ->]%fail_inv. eexists. split_and!; [done| |reflexivity]. done.
Qed.

(** A request the validation turns down gets one diagnostic of a code
    of the validation's table; nothing is published and the records are
    left alone. *)
Lemma validate_Return a ctx w s w' :
  validate a ctx w = Return s w' ->
  exists e,
    (s, general.Code e) ∈ validateTable /\
    Published w' = Published w /\
    GeneralErrors (Response w') = GeneralErrors (Response w) ++ [e] /\
    Results (Response w') = Results (Response w).
Proof.
  unfold v12.validate. intros H.
  apply bind_inv_Return in H as [H|([] & w0 & [_ ->]%checkParams_inv & H)].
  { apply checkParams_Return in H as (e & -> & Hc & ->). exists e.
    rewrite Hc. split_and!; [in_table|done..]. }
  apply bind_inv_Return in H as [H|(q & w1 & Hq & H)].
  { unfold v12.readQuery in H.
    destruct (String.length _ =? 0)%nat; [|done].
    apply fail_inv in H as [-> ->]. eexists.
    split; [|split_and!; [done|reflexivity|done]]. in_table. }
  assert (Published w1 = Published w /\
          GeneralErrors (Response w1) = GeneralErrors (Response w) /\
          Results (Response w1) = Results (Response w)) as (Hp1 & He1 & Hr1).
  { unfold v12.readQuery in Hq.
    destruct (String.length _ =? 0)%nat; [by rewrite fail_with in Hq|].
    by injection Hq as <- <-. }
  apply bind_inv_Return in H as [H|(sr & w2 & Hsr & H)].
  { unfold v12.readStartRecord in H.
    destruct (strconv.Atoi _) as [n|];
      [destruct (n <? 1)%Z; [|done]|];
      apply fail_inv in H as [-> ->]; eexists;
      (split; [|split_and!; [done|simpl; by rewrite He1|done]]); in_table. }
  assert (Published w2 = Published w /\
          GeneralErrors (Response w2) = GeneralErrors (Response w) /\
          Results (Response w2) = Results (Response w)) as (Hp2 & He2 & Hr2).
  { unfold v12.readStartRecord in Hsr.
    destruct (strconv.Atoi _) as [n|]; [|by rewrite fail_with in Hsr].
    destruct (n <? 1)%Z; [by rewrite fail_with in Hsr|].
    by injection Hsr as <- <-. }
  clear Hq Hsr Hp1 He1 Hr1 w1.
  apply bind_inv_Return in H as [H|(K & w3 & HK & H)].
  { unfold v12.readMaximumRecords in H.
    apply bind_inv_Return in H as [H|(K0 & w3 & HK0 & H)].
    - destruct (0 <? String.length _)%nat; [|done].
      destruct (strconv.Atoi _); [done|].
      apply fail_inv in H as [-> ->]. eexists.
      split; [|split_and!; [done|simpl; by rewrite He2|done]]. in_table.
    - assert (w3 = w2) as ->.
      { destruct (0 <? String.length _)%nat; [|by injection HK0].
        destruct (strconv.Atoi _); [by injection HK0|].
        by rewrite fail_with in HK0. }
      destruct (K0 <? 1)%Z; [|done].
      apply fail_inv in H as [-> ->]. eexists.
      split; [|split_and!; [done|simpl; by rewrite He2|done]]. in_table. }
  assert (w3 = w2) as ->.
  { unfold v12.readMaximumRecords in HK.
    apply bind_inv_Continue in HK as (K0 & w3' & HK0 & HK).
    destruct (K0 <? 1)%Z; [by rewrite fail_with in HK|].
    injection HK as _ <-.
    destruct (0 <? String.length _)%nat; [|by injection HK0].
    destruct (strconv.Atoi _); [by injection HK0|].
    by rewrite fail_with in HK0. }
  apply bind_inv_Return in H as [H|([] & w4 & Hc & H)].
  { unfold v12.checkCorpora in H.
    destruct (0 <? length _)%nat.
    - apply checkResources_Return in H as (e & -> & Hc & ->). exists e.
      rewrite Hc. split_and!; [in_table|done|simpl; by rewrite He2|done].
    - apply fail_inv in H as [-> ->]. eexists.
      split; [|split_and!; [done|simpl; by rewrite He2|done]]. in_table. }
  assert (w4 = w2) as ->.
  { unfold v12.checkCorpora in Hc.
    destruct (0 <? length _)%nat; [|by rewrite fail_with in Hc].
    by apply checkResources_inv in Hc as [_ ->]. }
  apply bind_inv_Return in H as [H|(attrs & w5 & _ & H)]; [|done].
  unfold v12.commonAttrs in H.
  destruct (corpus.GetCommonPosAttrNames _ _); [done|].
  apply fail_inv in H as [-> ->]. eexists.
  split; [|split_and!; [done|simpl; by rewrite He2|done]]. in_table.
Qed.

(** *** The merge (lines 266-296) *)

Lemma mergeLoop_outcome a (K : Z) fuel :
  forall sel w,
  (Z.of_nat (length (Results (Response w))) <= K)%Z ->
  match mergeLoop fuel a K sel w with
  | Continue _ w' =>
      GeneralErrors (Response w') = GeneralErrors (Response w) /\
      EchoedQuery (Response w') = EchoedQuery (Response w) /\
      EchoedStartRecord (Response w') = EchoedStartRecord (Response w) /\
      (Z.of_nat (length (Results (Response w'))) <= K)%Z
  | Return s w' =>
      s = 500%Z /\
      EchoedQuery (Response w') = EchoedQuery (Response w) /\
      EchoedStartRecord (Response w') = EchoedStartRecord (Response w) /\
      exists e,
        general.Code e = general.DCGeneralSystemError /\
        GeneralErrors (Response w') = GeneralErrors (Response w) ++ [e]
  | Panic _ | OutOfFuel _ => True
  end.
Proof.
  induction fuel as [|fuel IH]; intros sel w Hlen;
    rewrite mergeLoop_unfold; simpl;
    (destruct (Z.of_nat _ <? K)%Z eqn:HK; [|done]);
    destruct (result.Next sel) as [[] sel']; try done.
  destruct (corpus.GetResource _ _) as [res|err].
  - match goal with
    | |- context [v12.mergeLoop _ fuel a K sel' ?w1] =>
        specialize (IH sel' w1)
    end.
    simpl in IH. rewrite length_app in IH. simpl in IH.
    apply Z.ltb_lt in HK.
    destruct (v12.mergeLoop _ fuel a K sel' _) as [? w'|s w'| |]; try done.
    + apply IH. lia.
    + apply IH. lia.
  - split; [done|]. split; [done|]. split; [done|].
    eexists. split; [|reflexivity]. done.
Qed.

Lemma merge_outcome a (K : Z) sel w :
  (0 <= K)%Z ->
  match merge a K sel w with
  | Continue _ _ => False
  | Return s w' =>
      EchoedQuery (Response w') = EchoedQuery (Response w) /\
      EchoedStartRecord (Response w') = EchoedStartRecord (Response w) /\
      ((s = 200%Z /\
        GeneralErrors (Response w') = GeneralErrors (Response w) /\
        (Z.of_nat (length (Results (Response w'))) <= K)%Z) \/
       (s = 500%Z /\
        exists e,
          general.Code e = general.DCGeneralSystemError /\
          GeneralErrors (Response w') = GeneralErrors (Response w) ++ [e]))
  | Panic _ | OutOfFuel _ => True
  end.
Proof.
  intros HK. unfold v12.merge, v12.makeResults.
  destruct (makeRows K); [|done].
  unfold mbind at 1, M_bind at 1, setResults, withResponse.
  pose proof (mergeLoop_outcome a K (result.remaining (result.Slots sel)) sel
                (onResponse (withResults []) w) HK) as H.
  unfold mbind, M_bind.
  destruct (mergeLoop _ a K sel _) as [? w'|s w'| |]; try done; simpl in *.
  - destruct H as (He & Hq & Hs & Hl). split_and!; [done..|]. by left.
  - destruct H as (-> & Hq & Hs & e & Hc & He). split_and!; [done..|].
    right. split; [done|]. by exists e.
Qed.

Lemma classify_Continue sel w w' :
  classify sel w = Continue tt w' -> w' = w.
Proof.
  unfold v12.classify.
  destruct (result.AllHasOutOfRangeError sel);
    [by destruct (result.GetFirstError sel)|].
  destruct (result.HasFatalError sel);
    [by destruct (result.GetFirstError sel)|].
  by intros [= <-].
Qed.

(** *** Where a request ends *)

(** The step at which [searchRetrieve] returns. *)
Lemma searchRetrieve_Return a ctx w s w' :
  searchRetrieve a ctx w = Return s w' ->
  validate a ctx w = Return s w' \/
  exists l w1,
    validate a ctx w = Continue l w1 /\
    (dispatch a (fcsQuery l) (retrieveAttrs l) (maximumRecords l) 0
       (ranges l) w1 = Return s w' \/
     exists waits w2,
       dispatch a (fcsQuery l) (retrieveAttrs l) (maximumRecords l) 0
         (ranges l) w1 = Continue waits w2 /\
       (collect (corpora l) 0 waits
          (result.NewRoundRobinLineSel (maximumRecords l) (corpora l)) w2
          = Return s w' \/
        exists sel,
          collect (corpora l) 0 waits
            (result.NewRoundRobinLineSel (maximumRecords l) (corpora l)) w2
            = Continue sel w2 /\
          (classify sel w2 = Return s w' \/
           classify sel w2 = Continue tt w2 /\
           merge a (maximumRecords l) sel w2 = Return s w'))).
Proof.
  unfold v12.searchRetrieve. intros H.
  apply bind_inv_Return in H as [H|(l & w1 & Hv & H)]; [by left|].
  right. exists l, w1. split; [done|].
  apply bind_inv_Return in H as [H|(waits & w2 & Hd & H)]; [by left|].
  right. exists waits, w2. split; [done|].
  apply bind_inv_Return in H as [H|(sel & w3 & Hc & H)]; [by left|].
  pose proof (collect_inv _ _ _ _ _ _ _ _ _ Hc) as [-> _].
  right. exists sel. split; [done|].
  apply bind_inv_Return in H as [H|([] & w4 & Hcl & H)]; [by left|].
  pose proof (classify_Continue _ _ _ Hcl) as ->. by right.
Qed.

Lemma ranges_resolve a ctx w l w1 :
  validate a ctx w = Continue l w1 ->
  Forall (fun rng => resolves a (query.Rsc rng)) (ranges l).
Proof.
  intros Hv. pose proof (validate_inv _ _ _ _ _ _ _ Hv)
    as (_ & _ & _ & _ & _ & _ & _ & _ & _ & Hres & _).
  apply Forall_lookup_2. intros j rng Hj.
  apply ranges_lookup in Hj as (c & Hc & ->). simpl.
  exact (Forall_lookup_1 _ _ _ _ Hres Hc).
Qed.

(** What is known of a request that has returned: either the
    validation turned it down, or it was validated and then either a step
    before the merge added a diagnostic and left the records alone, or
    the merge was reached. *)
Lemma searchRetrieve_outcome a ctx w s w' :
  searchRetrieve a ctx w = Return s w' ->
  (validate a ctx w = Return s w' /\
   exists e,
     (s, general.Code e) ∈ validateTable /\
     Published w' = Published w /\
     GeneralErrors (Response w') = GeneralErrors (Response w) ++ [e] /\
     Results (Response w') = Results (Response w)) \/
  exists l w1,
    validate a ctx w = Continue l w1 /\
    EchoedQuery (Response w') = fcsQuery l /\
    EchoedStartRecord (Response w') = startRecord l /\
    ((exists e,
        (s, general.Code e) ∈ dispatchTable ++ collectTable ++ classifyTable /\
        GeneralErrors (Response w') = GeneralErrors (Response w) ++ [e] /\
        Results (Response w') = Results (Response w)) \/
     (exists waits w2,
        dispatch a (fcsQuery l) (retrieveAttrs l) (maximumRecords l) 0
          (ranges l) w1 = Continue waits w2 /\
        Published w' = Published w2 /\
        ((s = 200%Z /\
          GeneralErrors (Response w') = GeneralErrors (Response w) /\
          (Z.of_nat (length (Results (Response w'))) <= maximumRecords l)%Z)
         \/
         (s = 500%Z /\
          exists e,
            general.Code e = general.DCGeneralSystemError /\
            GeneralErrors (Response w')
            = GeneralErrors (Response w) ++ [e])))).
Proof.
  intros [Hv|(l & w1 & Hv & H)]%searchRetrieve_Return;
    [left; split; [done|]; by apply validate_Return in Hv|].
  right. exists l, w1. split; [done|].
  pose proof (validate_inv _ _ _ _ _ _ _ Hv)
    as (_ & _ & _ & _ & _ & _ & HK & _ & _ & _ & _ & Hw1).
  assert (GeneralErrors (Response w1) = GeneralErrors (Response w) /\
          Results (Response w1) = Results (Response w) /\
          EchoedQuery (Response w1) = fcsQuery l /\
          EchoedStartRecord (Response w1) = startRecord l)
    as (He1 & Hr1 & Hq1 & Hs1) by by rewrite Hw1.
  destruct H as [Hd|(waits & w2 & Hd & H)].
  { pose proof (phaseOk_dispatch a (fcsQuery l) (retrieveAttrs l)
                  (maximumRecords l) (ranges l)
                  (ranges_resolve _ _ _ _ _ Hv) 0 w1) as Hp.
    rewrite Hd in Hp. destruct Hp as (e & Hin & He & Hr & Hq & Hs).
    split_and!; [congruence..|]. left. exists e.
    split_and!; [|congruence..]. rewrite !elem_of_app. by left. }
  pose proof (dispatch_response _ _ _ _ _ _ _ _ _ _ _ _ _ _ _ Hd) as Hw2.
  destruct H as [Hc|(sel & Hc & H)].
  { pose proof (phaseOk_collect (corpora l) waits 0
                  (result.NewRoundRobinLineSel (maximumRecords l) (corpora l))
                  w2) as Hp.
    rewrite Hc in Hp. destruct Hp as (e & Hin & He & Hr & Hq & Hs).
    rewrite Hw2 in He, Hr, Hq, Hs.
    split_and!; [congruence..|]. left. exists e.
    split_and!; [|congruence..]. rewrite !elem_of_app. right. by left. }
  destruct H as [Hcl|[Hcl Hm]].
  { pose proof (phaseOk_classify sel w2) as Hp.
    rewrite Hcl in Hp. destruct Hp as (e & Hin & He & Hr & Hq & Hs).
    rewrite Hw2 in He, Hr, Hq, Hs.
    split_and!; [congruence..|]. left. exists e.
    split_and!; [|congruence..]. rewrite !elem_of_app. right. by right. }
  pose proof (merge_outcome a (maximumRecords l) sel w2 ltac:(lia)) as Hp.
  pose proof (quiet_merge AsMessage makeRows a (maximumRecords l) sel w2) as Hpub.
  rewrite Hm in Hp, Hpub. simpl in Hpub.
  destruct Hp as (Hq & Hs & Hp). rewrite Hw2 in Hq, Hs.
  split_and!; [congruence..|]. right. exists waits, w2.
  split_and!; [done..|].
  destruct Hp as [(-> & He & Hl)|(-> & e & Hcode & He)]; rewrite Hw2 in He.
  - left. split_and!; [done|congruence|done].
  - right. split; [done|]. exists e. split; [done|congruence].
Qed.

(** *** Neither a panic nor an endless loop *)

Lemma settles_ret {A} (x : A) : settles (Payload:=Payload) (mret x).
Proof. by intros w. Qed.

Lemma settles_fail {A} e (s : Z) :
  settles (AddError e ;; exit s : M Payload A).
Proof. by intros w. Qed.

Lemma settles_withResponse f : settles (withResponse (Payload:=Payload) f).
Proof. by intros w. Qed.

Lemma settles_bind {A B} (m : M Payload A) (f : A -> M Payload B) :
  settles m -> (forall x, settles (f x)) -> settles (m ≫= f).
Proof.
  intros Hm Hf w. specialize (Hm w). unfold mbind, M_bind.
  destruct (m w) as [x w1| | |]; try done. apply Hf.
Qed.

Lemma settles_checkParams (keys : list string) : settles (checkParams keys).
Proof.
  induction keys as [|k keys IH]; simpl; [apply settles_ret|].
  destruct (Validate k); [apply settles_fail|done].
Qed.

Lemma settles_checkResources a (names : list string) :
  settles (checkResources a names).
Proof.
  induction names as [|v names IH]; simpl; [apply settles_ret|].
  destruct (corpus.GetResource _ v); [done|apply settles_fail].
Qed.

Lemma settles_validate a ctx : settles (validate a ctx).
Proof.
  unfold v12.validate.
  apply settles_bind; [apply settles_checkParams|]. intros _.
  apply settles_bind.
  { unfold v12.readQuery. destruct (String.length _ =? 0)%nat;
      [apply settles_fail|].
    apply settles_bind; [apply settles_withResponse|].
    intros _. apply settles_ret. }
  intros q. apply settles_bind.
  { unfold v12.readStartRecord.
    destruct (strconv.Atoi _) as [n|]; [|apply settles_fail].
    destruct (n <? 1)%Z; [apply settles_fail|].
    apply settles_bind; [apply settles_withResponse|].
    intros _. apply settles_ret. }
  intros sr. apply settles_bind.
  { unfold v12.readMaximumRecords. apply settles_bind.
    - destruct (0 <? String.length _)%nat; [|apply settles_ret].
      destruct (strconv.Atoi _); [apply settles_ret|apply settles_fail].
    - intros K. destruct (K <? 1)%Z; [apply settles_fail|apply settles_ret]. }
  intros K. apply settles_bind.
  { unfold v12.checkCorpora.
    destruct (0 <? length _)%nat;
      [apply settles_checkResources|apply settles_fail]. }
  intros _. apply settles_bind; [|intros attrs; apply settles_ret].
  unfold v12.commonAttrs.
  destruct (corpus.GetCommonPosAttrNames _ _);
    [apply settles_ret|apply settles_fail].
Qed.

Lemma settles_dispatch a (q : string) (attrs : list string) (K : Z)
  (rs : list query.PartialRange) :
  forall i, settles (dispatch a q attrs K i rs).
Proof.
  induction rs as [|rng rs IH]; intros i; simpl; [apply settles_ret|].
  destruct (translateQuery a (query.Rsc rng) q) as [ast|e];
    [|apply settles_fail].
  destruct (Generate ast) as [cql [|e0 es]]; [|apply settles_fail].
  destruct (Marshal _) as [args|err]; [|apply settles_fail].
  apply settles_bind; [by intros w|].
  intros [wait|err]; [|apply settles_fail].
  apply settles_bind; [apply IH|]. intros waits. apply settles_ret.
Qed.

Lemma settles_collectOne (names : list string) i raw sel :
  i < length names -> settles (collectOne names i raw sel).
Proof.
  intros [c Hc]%lookup_lt_is_Some. unfold v12.collectOne.
  destruct (DeserializeConcExampleResult raw) as [res|err];
    [|apply settles_fail].
  apply settles_bind.
  - destruct (rdb.ResErr res) as [err|]; [|apply settles_ret].
    destruct (String.eqb err _); [apply settles_ret|apply settles_fail].
  - intros sel'. rewrite Hc. apply settles_ret.
Qed.

Lemma settles_collect (names : list string) waits :
  forall i sel,
  i + length waits <= length names -> settles (collect names i waits sel).
Proof.
  induction waits as [|raw waits IH]; intros i sel Hlen; simpl in *;
    [apply settles_ret|].
  apply settles_bind; [apply settles_collectOne; lia|].
  intros sel'. apply IH. lia.
Qed.

Lemma settles_mergeLoop a (K : Z) fuel :
  forall sel,
  result.remaining (result.Slots sel) <= fuel ->
  settles (mergeLoop fuel a K sel).
Proof.
  induction fuel as [|fuel IH]; intros sel Hfuel w;
    rewrite mergeLoop_unfold; simpl;
    (destruct (Z.of_nat _ <? K)%Z; [|done]);
    destruct (result.Next sel) as [[] sel'] eqn:HNext; try done.
  - apply remaining_Next in HNext. lia.
  - destruct (corpus.GetResource _ _) as [res|err]; [|done].
    apply IH. apply remaining_Next in HNext. lia.
Qed.

Lemma settles_merge a (K : Z) sel :
  makeRows K = true -> settles (merge a K sel).
Proof.
  intros Hm. unfold v12.merge, v12.makeResults. rewrite Hm.
  apply settles_bind; [apply settles_withResponse|].
  intros _. apply settles_bind; [by apply settles_mergeLoop|].
  by intros _ w.
Qed.

(** *** The jobs (lines 173-217) *)

Lemma translateQuery_inl a (name q : string) ast :
  translateQuery a name q = inl ast ->
  exists res,
    corpus.GetResource (corpus.Resources (corporaConf a)) name = Ok res /\
    ParseQuery q (corpus.PosAttrs res) (corpus.StructMapping res) = Ok ast.
Proof.
  unfold v12.translateQuery.
  destruct (corpus.GetResource _ _) as [res|err]; [|done].
  destruct (ParseQuery _ _ _) as [ast'|] eqn:Hp; [|done].
  intros [= <-]. by exists res.
Qed.

Lemma dispatch_jobs a (q : string) (attrs : list string) (K : Z)
  (rs : list query.PartialRange) :
  forall (i : nat) w,
  exists jobs,
    Published (worldOf (dispatch a q attrs K i rs w)) = Published w ++ jobs /\
    Forall2 (jobOf a q attrs K) (take (length jobs) rs) jobs.
Proof.
  induction rs as [|rng rs IH]; intros i w; simpl.
  - exists []. rewrite app_nil_r. split; [done|constructor].
  - destruct (translateQuery a (query.Rsc rng) q) as [ast|e] eqn:Ht.
    2:{ rewrite fail_with. exists []. rewrite app_nil_r. simpl.
        split; [done|constructor]. }
    destruct (Generate ast) as [cql [|e0 es]] eqn:Hgen.
    2:{ rewrite fail_with. exists []. rewrite app_nil_r. simpl.
        split; [done|constructor]. }
    destruct (Marshal _) as [args|err] eqn:Hm.
    2:{ rewrite fail_with. exists []. rewrite app_nil_r. simpl.
        split; [done|constructor]. }
    set (job := {| rdb.Func := "concExample"; rdb.Args := args |}).
    assert (jobOf a q attrs K rng job) as Hjob.
    { apply translateQuery_inl in Ht as (res & Hres & Hparse).
      by exists res, ast, cql. }
    unfold mbind, M_bind, publish. simpl. fold job.
    destruct (PublishQuery i job) as [wait|err].
    2:{ rewrite ?fail_with. exists [job]. simpl.
        split; [done|by repeat constructor]. }
    remember {| Response := Response w;
                Published := Published w ++ [job] |} as w1 eqn:Hw1.
    destruct (IH (S i) w1) as (jobs & Hpub & Hjobs).
    exists (job :: jobs).
    unfold mbind, M_bind, mret, M_ret.
    destruct (dispatch a q attrs K (S i) rs w1) as [waits w'| | |] eqn:Hd;
      simpl in *; rewrite Hpub, Hw1; simpl; rewrite <-app_assoc;
      (split; [done|]); by constructor.
Qed.

(** *** The properties *)

(** X11. A request whose keys are all supported and whose [query] is
    absent or empty is answered with 400 and the one diagnostic
    [DCMandatoryParameterNotSupplied] that names [fcs_query]; whatever
    else the request carries is not looked at, nothing is echoed and
    nothing is published. *)
Theorem missing_query_rejected a ctx w :
  Forall (fun k => Validate k = None) (url.keys (gin.URLQuery ctx)) ->
  gin.Query ctx "query" = "" ->
  searchRetrieve a ctx w
  = Return 400
      (onResponse
         (addError {| general.Code := general.DCMandatoryParameterNotSupplied;
                      general.Ident := "fcs_query";
                      general.Message := "Mandatory parameter not supplied" |})
         w).
Proof.
  intros Hkeys Hq. unfold v12.searchRetrieve, v12.validate.
  apply bind_Return.
  rewrite (bind_Continue _ _ _ _ _ (checkParams_pass Validate _ w Hkeys)).
  apply bind_Return. unfold v12.readQuery. by rewrite Hq.
Qed.

(** X12. The status [searchRetrieve] returns and the diagnostics go
    together: with 200 no diagnostic is added; with any other status
    exactly one is added, at the end, and its code is one of
    unsupported-parameter, mandatory-parameter-not-supplied and
    unsupported-parameter-value for 400, one of
    unsupported-parameter-value, query-syntax-error,
    query-cannot-process and first-record-position-out-of-range for 422,
    and one of general-system-error and query-cannot-process for 500.
    There is no other status. *)
Theorem status_goes_with_diagnostic a ctx w s w' :
  searchRetrieve a ctx w = Return s w' ->
  (s = 200%Z /\
   GeneralErrors (Response w') = GeneralErrors (Response w)) \/
  exists e,
    GeneralErrors (Response w') = GeneralErrors (Response w) ++ [e] /\
    ((s = 400%Z /\
      general.Code e ∈ [general.DCUnsupportedParameter;
                        general.DCMandatoryParameterNotSupplied;
                        general.DCUnsupportedParameterValue]) \/
     (s = 422%Z /\
      general.Code e ∈ [general.DCUnsupportedParameterValue;
                        general.DCQuerySyntaxError;
                        general.DCQueryCannotProcess;
                        general.DCFirstRecordPosOutOfRange]) \/
     (s = 500%Z /\
      general.Code e ∈ [general.DCGeneralSystemError;
                        general.DCQueryCannotProcess])).
Proof.
  intros [(_ & e & Hin & _ & He & _)|(l & w1 & _ & _ & _ & H)]%searchRetrieve_outcome.
  - right. exists e. split; [done|].
    table_cases Hin;
      match goal with Hc : general.Code e = _ |- _ => rewrite Hc end;
      first [left; split; [done|in_list]
            |right; left; split; [done|in_list]
            |right; right; split; [done|in_list]].
  - destruct H as [(e & Hin & He & _)|(waits & w2 & _ & _ & H)].
    + right. exists e. split; [done|].
      table_cases Hin;
        match goal with Hc : general.Code e = _ |- _ => rewrite Hc end;
        first [left; split; [done|in_list]
              |right; left; split; [done|in_list]
              |right; right; split; [done|in_list]].
    + destruct H as [(-> & He & _)|(-> & e & Hc & He)]; [by left|].
      right. exists e. split; [done|]. right. right. split; [done|].
      rewrite Hc. in_list.
Qed.

(** X13. A request answered with 400 has published no job, and a
    request answered with 400 or 422 has left the records of the response
    as they were: records are written only by the merge, which is reached
    after every job has been published and every reply read. *)
Theorem rejection_writes_no_records a ctx w s w' :
  searchRetrieve a ctx w = Return s w' ->
  (s = 400%Z -> Published w' = Published w) /\
  (s = 400%Z \/ s = 422%Z ->
   Results (Response w') = Results (Response w)).
Proof.
  intros [(_ & e & Hin & Hp & _ & Hr)|(l & w1 & _ & _ & _ & H)]%searchRetrieve_outcome;
    [done|].
  destruct H as [(e & Hin & _ & Hr)|(waits & w2 & _ & _ & H)].
  - split; [|done]. intros ->. table_cases Hin.
  - split; [intros ->|intros [-> | ->]];
      by destruct H as [(? & _)|(? & _)].
Qed.

(** X14. The jobs a validated request publishes are, in the order of
    the selected corpora and at most one per corpus, the ones of function
    [concExample] whose arguments encode the registry path of the corpus,
    the CQL that [Generate] gives, without errors, for the [query] parsed
    with the positional attributes and the structure mapping of that
    corpus, the positional attributes common to the selected corpora,
    the start line [startRecord - 1] and the page size. *)
Theorem published_jobs_are_translations a ctx w l w1 :
  validate a ctx w = Continue l w1 ->
  corpus.GetCommonPosAttrNames (corpus.Resources (corporaConf a)) (corpora l)
    = Ok (retrieveAttrs l) /\
  exists jobs,
    Published (worldOf (searchRetrieve a ctx w)) = Published w ++ jobs /\
    length jobs <= length (corpora l) /\
    forall (j : nat) job, jobs !! j = Some job ->
      exists c res ast cql,
        corpora l !! j = Some c /\
        corpus.GetResource (corpus.Resources (corporaConf a)) c = Ok res /\
        ParseQuery (gin.Query ctx "query")
          (corpus.PosAttrs res) (corpus.StructMapping res) = Ok ast /\
        Generate ast = (cql, []) /\
        rdb.Func job = "concExample" /\
        Marshal {| rdb.CorpusPath := GetRegistryPath (corporaConf a) c;
                   rdb.QueryCQL := cql;
                   rdb.Attrs := retrieveAttrs l;
                   rdb.StartLine := startRecord l - 1;
                   rdb.MaxItems := maximumRecords l |} = Ok (rdb.Args job).
Proof.
  intros Hv. pose proof (validate_inv _ _ _ _ _ _ _ Hv)
    as (_ & Hq & _ & _ & _ & _ & _ & _ & _ & _ & Hattrs & Hw1).
  split; [done|].
  destruct (dispatch_jobs a (fcsQuery l) (retrieveAttrs l)
              (maximumRecords l) (ranges l) 0 w1) as (jobs & Hpub & Hjobs).
  exists jobs. split; [|split].
  - erewrite searchRetrieve_validated by exact Hv.
    rewrite published_bind_quiet.
    + rewrite Hpub, Hw1. done.
    + intros waits. apply quiet_bind; [apply quiet_collect|].
      intros sel. apply quiet_bind; [apply quiet_classify|].
      intros _. apply quiet_merge.
  - apply Forall2_length in Hjobs. rewrite length_take in Hjobs.
    rewrite <-(length_ranges l). lia.
  - intros j job Hj.
    destruct (Forall2_lookup_r _ _ _ _ _ Hjobs Hj)
      as (rng & Hrng & res & ast & cql & Hres & Hparse & Hgen & Hfunc & Hargs).
    apply lookup_take_Some in Hrng as [Hrng _].
    apply ranges_lookup in Hrng as (c & Hc & ->).
    exists c, res, ast, cql. rewrite <-Hq. by split_and!.
Qed.

(** X15. When the arguments of a job cannot be encoded, or the queue
    does not take the job, the request ends at once with 500 and
    [DCGeneralSystemError], whose details are the text of the error and
    whose message is the literal [General system error]; the jobs of the
    corpora before have been published, and the one the queue turned
    down has been handed to it. *)
Theorem publish_failure_is_system_error a ctx w l w1 pre rng post waits w2
  ast cql :
  validate a ctx w = Continue l w1 ->
  ranges l = pre ++ rng :: post ->
  dispatch a (fcsQuery l) (retrieveAttrs l) (maximumRecords l) 0 pre w1
    = Continue waits w2 ->
  translateQuery a (query.Rsc rng) (fcsQuery l) = inl ast ->
  Generate ast = (cql, []) ->
  (forall err,
     Marshal (jobArgs a (retrieveAttrs l) (maximumRecords l) rng cql)
       = Err err ->
     searchRetrieve a ctx w
     = Return 500
         (onResponse
            (addError {| general.Code := general.DCGeneralSystemError;
                         general.Ident := err;
                         general.Message := "General system error" |}) w2)) /\
  (forall args err,
     Marshal (jobArgs a (retrieveAttrs l) (maximumRecords l) rng cql)
       = Ok args ->
     PublishQuery (length pre) {| rdb.Func := "concExample";
                                  rdb.Args := args |} = Err err ->
     searchRetrieve a ctx w
     = Return 500
         (onResponse
            (addError {| general.Code := general.DCGeneralSystemError;
                         general.Ident := err;
                         general.Message := "General system error" |})
            {| Response := Response w2;
               Published := Published w2
                              ++ [ {| rdb.Func := "concExample";
                                      rdb.Args := args |} ] |})).
Proof.
  intros Hv Hr Hpre Hast Hgen.
  assert (forall st,
    dispatch a (fcsQuery l) (retrieveAttrs l) (maximumRecords l)
      (0 + length pre) (rng :: post) w2 = Return 500 st ->
    searchRetrieve a ctx w = Return 500 st) as Hret.
  { intros st Hd. erewrite searchRetrieve_validated by exact Hv.
    apply bind_Return. erewrite Hr, dispatch_app by exact Hpre.
    by apply bind_Return. }
  split.
  - intros err Hm. apply Hret. simpl. rewrite Hast, Hgen.
    unfold v12.jobArgs in Hm. by rewrite Hm.
  - intros args err Hm Hp. apply Hret. simpl. rewrite Hast, Hgen.
    unfold v12.jobArgs in Hm. rewrite Hm.
    unfold mbind, M_bind, publish. by rewrite Hp.
Qed.

(** X16. Whatever the status a validated request ends with, the
    response echoes the [query] of the request and the [startRecord] it
    was read with, 1 when the parameter is absent. *)
Theorem validated_request_is_echoed a ctx w l w1 s w' :
  validate a ctx w = Continue l w1 ->
  searchRetrieve a ctx w = Return s w' ->
  EchoedQuery (Response w') = gin.Query ctx "query" /\
  strconv.Atoi (gin.DefaultQuery ctx "startRecord" "1")
    = Some (EchoedStartRecord (Response w')).
Proof.
  intros Hv [(Hv' & _)|(l' & w1' & Hv' & Hq & Hs & _)]%searchRetrieve_outcome;
    rewrite Hv in Hv'; [done|].
  injection Hv' as <- <-.
  pose proof (validate_inv _ _ _ _ _ _ _ Hv) as (_ & Hq' & _ & Hs' & _).
  by rewrite Hq, Hs, Hq'.
Qed.

(** X17. A request is answered with 200 only if it was validated and
    one job was published for every selected corpus; then no diagnostic
    has been added and the response has at most [maximumRecords]
    records. *)
Theorem ok_only_after_every_job a ctx w w' :
  searchRetrieve a ctx w = Return 200 w' ->
  exists l w1 jobs,
    validate a ctx w = Continue l w1 /\
    Published w' = Published w ++ jobs /\
    length jobs = length (corpora l) /\
    GeneralErrors (Response w') = GeneralErrors (Response w) /\
    (Z.of_nat (length (Results (Response w'))) <= maximumRecords l)%Z.
Proof.
  intros [(_ & e & Hin & _)|(l & w1 & Hv & _ & _ & H)]%searchRetrieve_outcome;
    [table_cases Hin|].
  destruct H as [(e & Hin & _)|(waits & w2 & Hd & Hp & H)];
    [table_cases Hin|].
  destruct H as [(_ & He & Hl)|(? & _)]; [|done].
  destruct (dispatch_published AsMessage ParseQuery Generate GetRegistryPath
              Marshal PublishQuery a (fcsQuery l) (retrieveAttrs l)
              (maximumRecords l) (ranges l) 0 w1)
    as (jobs & Hpub & _ & Hlen).
  destruct (Hlen _ _ Hd) as [Hj _]. rewrite Hd in Hpub. simpl in Hpub.
  pose proof (validate_inv _ _ _ _ _ _ _ Hv)
    as (_ & _ & _ & _ & _ & _ & _ & _ & _ & _ & _ & Hw1).
  exists l, w1, jobs. split_and!; [done| |by rewrite Hj, length_ranges|done..].
  by rewrite Hp, Hpub, Hw1.
Qed.

(** X18. Provided the workers answer the jobs that were published,
    [searchRetrieve] either returns a status or panics at the one place
    where it can: at line 266, when the request was validated, every job
    was published and answered, not every corpus was out of range, and
    the runtime does not give a slice of [maximumRecords] rows.
    [maximumRecords] is only checked to be at least 1, so a request can
    ask for such a number.  Nothing else panics: the collecting loop never
    reads past the selected corpora and the first error is never asked of
    a selector without one; and the merge loop ends. *)
Theorem searchRetrieve_returns_unless_allocation_panics a ctx w :
  (exists s w', searchRetrieve a ctx w = Return s w') \/
  (exists l w1 waits w2 sel,
     validate a ctx w = Continue l w1 /\
     dispatch a (fcsQuery l) (retrieveAttrs l) (maximumRecords l) 0
       (ranges l) w1 = Continue waits w2 /\
     collect (corpora l) 0 waits
       (result.NewRoundRobinLineSel (maximumRecords l) (corpora l)) w2
       = Continue sel w2 /\
     result.AllHasOutOfRangeError sel = false /\
     makeRows (maximumRecords l) = false /\
     searchRetrieve a ctx w = Panic w2).
Proof.
  pose proof (settles_validate a ctx w) as Hs.
  destruct (validate a ctx w) as [l w1|s w1| |] eqn:Hv; try done.
  2:{ left. exists s, w1. unfold v12.searchRetrieve. by apply bind_Return. }
  clear Hs.
  pose proof (settles_dispatch a (fcsQuery l) (retrieveAttrs l)
                (maximumRecords l) (ranges l) 0 w1) as Hs.
  destruct (dispatch a (fcsQuery l) (retrieveAttrs l) (maximumRecords l) 0
              (ranges l) w1) as [waits w2|s w2| |] eqn:Hd; try done.
  2:{ left. exists s, w2. erewrite searchRetrieve_validated by exact Hv.
      by apply bind_Return. }
  clear Hs.
  erewrite searchRetrieve_dispatched; [|exact Hv|exact Hd].
  pose proof (settles_collect (corpora l) waits 0
                (result.NewRoundRobinLineSel (maximumRecords l) (corpora l)))
    as Hs.
  specialize (Hs ltac:(
    rewrite (dispatch_waits _ _ _ _ _ _ _ _ _ _ _ _ _ _ _ Hd), length_ranges;
    simpl; lia) w2).
  destruct (collect (corpora l) 0 waits _ w2) as [sel w3|s w3| |] eqn:Hc;
    try done.
  2:{ left. exists s, w3. by apply bind_Return. }
  clear Hs. rewrite (bind_Continue _ _ _ _ _ Hc).
  destruct (classify_without_fatal _ _ _ _ _ _ _ _ makeRows _ _ _ _ _ _ _ _ _
              Hv Hd Hc) as [Hnf Hgo].
  pose proof (collect_from_New _ _ _ _ _ _ _ _ Hc) as (-> & Hn & Herrs).
  pose proof (validate_inv _ _ _ _ _ _ _ Hv)
    as (_ & _ & _ & _ & _ & _ & HK & _ & Hne & _).
  destruct (result.AllHasOutOfRangeError sel) eqn:Hall.
  - assert (result.GetFirstError sel = Some mango.ErrRowsRangeOutOfConc)
      as Hfirst.
    { apply GetFirstError_all_out_of_range.
      - intros Hnil. unfold result.names in Hn. rewrite Hnil in Hn.
        by rewrite <-Hn in Hne.
      - apply AllHasOutOfRangeError_errors in Hall.
        apply Forall_lookup_2. intros k e Hk.
        pose proof (Forall_lookup_1 _ _ _ _ Hall Hk) as [err ->].
        by pose proof (Forall_lookup_1 _ _ _ _ Herrs Hk) as [?|?]. }
    left. eexists _, _. apply bind_Return. unfold v12.classify.
    by rewrite Hall, Hfirst.
  - destruct (Hgo eq_refl) as [Hcl _].
    rewrite (bind_Continue _ _ _ _ _ Hcl).
    destruct (makeRows (maximumRecords l)) eqn:Hm.
    + pose proof (settles_merge a (maximumRecords l) sel Hm w2) as Hs.
      pose proof (merge_outcome a (maximumRecords l) sel w2 ltac:(lia))
        as Ho.
      destruct (merge a (maximumRecords l) sel w2) as [?|s w4| |]; try done.
      left. by exists s, w4.
    + right. exists l, w1, waits, w2, sel. split_and!; try done.
      unfold v12.merge, v12.makeResults. by rewrite Hm.
Qed.

Lemma checkResources_first_unknown a (pre post : list string) (v : string) w :
  Forall (resolves a) pre -> ~ resolves a v ->
  checkResources a (pre ++ v :: post) w
  = Return 400
      (onResponse
         (addError {| general.Code := general.DCUnsupportedParameterValue;
                      general.Ident := "x-fcs-context";
                      general.Message := "Unknown context " +:+ v |}) w).
Proof.
  intros Hpre Hv. induction Hpre as [|c pre [res Hc] _ IH]; simpl.
  - destruct (corpus.GetResource _ v) as [res|err] eqn:Hres;
      [by destruct Hv; exists res|].
    by rewrite fail_with.
  - by rewrite Hc.
Qed.

(** X19. Let the keys, the query, [startRecord] and [maximumRecords]
    of a request pass.  If the registry does not know one of the selected
    corpora, the request is answered with 400 and
    [DCUnsupportedParameterValue] for [x-fcs-context], with the message
    [Unknown context] and the first such name.  If no corpus is selected,
    the answer is 400 with the message [Empty context], and this happens
    only when the registry has no corpus: the list split from the
    parameter is never empty. *)
Theorem context_is_checked_against_registry a ctx w (sr K : Z) :
  Forall (fun k => Validate k = None) (url.keys (gin.URLQuery ctx)) ->
  gin.Query ctx "query" <> "" ->
  strconv.Atoi (gin.DefaultQuery ctx "startRecord" "1") = Some sr ->
  (1 <= sr)%Z ->
  maximumRecordsText a ctx = Some K ->
  (1 <= K)%Z ->
  let w2 := onResponse (withEchoedStartRecord sr)
              (onResponse (withEchoedQuery (gin.Query ctx "query")) w) in
  (forall pre v post,
     selectCorpora a ctx = pre ++ v :: post ->
     Forall (resolves a) pre -> ~ resolves a v ->
     searchRetrieve a ctx w
     = Return 400
         (onResponse
            (addError {| general.Code := general.DCUnsupportedParameterValue;
                         general.Ident := "x-fcs-context";
                         general.Message := "Unknown context " +:+ v |})
            w2)) /\
  (selectCorpora a ctx = [] ->
   corpus.GetCorpora (corpus.Resources (corporaConf a)) = [] /\
   searchRetrieve a ctx w
   = Return 400
       (onResponse
          (addError {| general.Code := general.DCUnsupportedParameterValue;
                       general.Ident := "x-fcs-context";
                       general.Message := "Empty context" |}) w2)).
Proof.
  intros Hkeys Hq Hsr Hsr1 HK HK1 w2.
  assert (forall st,
    checkCorpora a (selectCorpora a ctx) w2 = Return 400 st ->
    searchRetrieve a ctx w = Return 400 st) as Hret.
  { intros st Hc. unfold v12.searchRetrieve. apply bind_Return.
    unfold v12.validate.
    erewrite bind_Continue by by apply checkParams_pass.
    erewrite bind_Continue by by apply readQuery_pass.
    erewrite bind_Continue by by apply readStartRecord_pass.
    erewrite bind_Continue by by apply readMaximumRecords_pass.
    by apply bind_Return. }
  split.
  - intros pre v post Hsel Hpre Hv. apply Hret. rewrite Hsel.
    unfold v12.checkCorpora.
    assert ((0 <? length (pre ++ v :: post))%nat = true) as ->.
    { rewrite length_app. simpl. apply Nat.ltb_lt. lia. }
    by apply checkResources_first_unknown.
  - intros Hsel. split; [|apply Hret; by rewrite Hsel].
    unfold v12.selectCorpora in Hsel.
    destruct (url.Has _ _); [|done].
    by apply Split_nonempty in Hsel.
Qed.

End Outcomes.

(** ** The outcomes on the concrete installation *)

Section OutcomeScenarios.

(** X11 at a request that has a [startRecord] and no [query]. *)
Lemma missing_query_rejected_witness :
  Forall (fun k => demo.Validate k = None)
    (url.keys (gin.URLQuery demo.reqNoQuery)) /\
  gin.Query demo.reqNoQuery "query" = "" /\
  demo.searchRetrieve demo.reqNoQuery
  = Return 400
      (onResponse
         (addError {| general.Code := general.DCMandatoryParameterNotSupplied;
                      general.Ident := "fcs_query";
                      general.Message := "Mandatory parameter not supplied" |})
         demo.fresh).
Proof.
  assert (Forall (fun k => demo.Validate k = None)
            (url.keys (gin.URLQuery demo.reqNoQuery)))
    as Hkeys by (repeat constructor).
  split; [exact Hkeys|]. split; [reflexivity|].
  exact (missing_query_rejected demo.Validate demo.AsMessage
           demo.ParseQuery demo.Generate demo.GetRegistryPath demo.Marshal
           demo.PublishQuery demo.DeserializeConcExampleResult demo.makeRows
           demo.handler demo.reqNoQuery demo.fresh
           Hkeys eq_refl).
Defined.

(** X12 at the request that starts past the end of both corpora. *)
Lemma status_goes_with_diagnostic_witness :
  exists w',
    demo.searchRetrieve demo.reqFar = Return 422 w' /\
    ((422 = 200 /\
      GeneralErrors (Response w') = GeneralErrors (Response demo.fresh)) \/
     exists e,
       GeneralErrors (Response w')
       = GeneralErrors (Response demo.fresh) ++ [e] /\
       ((422 = 400 /\
         general.Code e ∈ [general.DCUnsupportedParameter;
                           general.DCMandatoryParameterNotSupplied;
                           general.DCUnsupportedParameterValue]) \/
        (422 = 422 /\
         general.Code e ∈ [general.DCUnsupportedParameterValue;
                           general.DCQuerySyntaxError;
                           general.DCQueryCannotProcess;
                           general.DCFirstRecordPosOutOfRange]) \/
        (422 = 500 /\
         general.Code e ∈ [general.DCGeneralSystemError;
                           general.DCQueryCannotProcess])))%Z.
Proof.
  eassert (demo.searchRetrieve demo.reqFar = Return 422 _) as H
    by (vm_compute; reflexivity).
  eexists. split; [exact H|].
  exact (status_goes_with_diagnostic demo.Validate demo.AsMessage
           demo.ParseQuery demo.Generate demo.GetRegistryPath demo.Marshal
           demo.PublishQuery demo.DeserializeConcExampleResult demo.makeRows
           demo.handler demo.reqFar demo.fresh _ _ H).
Defined.

(** X13 at the request with an unknown key. *)
Lemma rejection_writes_no_records_witness :
  exists w',
    demo.searchRetrieve demo.reqBogus = Return 400 w' /\
    (400%Z = 400%Z -> Published w' = Published demo.fresh) /\
    (400%Z = 400%Z \/ 400%Z = 422%Z ->
     Results (Response w') = Results (Response demo.fresh)).
Proof.
  eassert (demo.searchRetrieve demo.reqBogus = Return 400 _) as H
    by (vm_compute; reflexivity).
  eexists. split; [exact H|].
  exact (rejection_writes_no_records demo.Validate demo.AsMessage
           demo.ParseQuery demo.Generate demo.GetRegistryPath demo.Marshal
           demo.PublishQuery demo.DeserializeConcExampleResult demo.makeRows
           demo.handler demo.reqBogus demo.fresh _ _ H).
Defined.

(** X14 at the plain request. *)
Lemma published_jobs_are_translations_witness :
  exists l w1,
    demo.validate demo.reqPlain = Continue l w1 /\
    corpus.GetCommonPosAttrNames
      (corpus.Resources (corporaConf demo.handler)) (corpora l)
    = Ok (retrieveAttrs l) /\
    exists jobs,
      Published (worldOf (demo.searchRetrieve demo.reqPlain))
      = Published demo.fresh ++ jobs /\
      length jobs <= length (corpora l) /\
      forall (j : nat) job, jobs !! j = Some job ->
        exists c res ast cql,
          corpora l !! j = Some c /\
          corpus.GetResource (corpus.Resources (corporaConf demo.handler)) c
          = Ok res /\
          demo.ParseQuery (gin.Query demo.reqPlain "query")
            (corpus.PosAttrs res) (corpus.StructMapping res) = Ok ast /\
          demo.Generate ast = (cql, []) /\
          rdb.Func job = "concExample" /\
          demo.Marshal
            {| rdb.CorpusPath :=
                 demo.GetRegistryPath (corporaConf demo.handler) c;
               rdb.QueryCQL := cql;
               rdb.Attrs := retrieveAttrs l;
               rdb.StartLine := startRecord l - 1;
               rdb.MaxItems := maximumRecords l |} = Ok (rdb.Args job).
Proof.
  eassert (demo.validate demo.reqPlain = Continue _ _) as Hv
    by (vm_compute; reflexivity).
  eexists _, _. split; [exact Hv|].
  exact (published_jobs_are_translations demo.Validate demo.AsMessage
           demo.ParseQuery demo.Generate demo.GetRegistryPath demo.Marshal
           demo.PublishQuery demo.DeserializeConcExampleResult demo.makeRows
           demo.handler demo.reqPlain demo.fresh _ _ Hv).
Defined.

(** X15 at the plain request and its second job, the one of corpus
    [b]: once with a queue that takes the job of [a] and turns down the
    one of [b], once with an encoder that fails on the job of [b].  Both
    times the request ends with 500 and the job of [a] is published. *)
Lemma publish_failure_is_system_error_witness :
  (exists l w1 waits w2 args,
     demo.validate demo.reqPlain = Continue l w1 /\
     ranges l
     = [ {| query.Rsc := "a"; query.From := 0 |} ]
       ++ {| query.Rsc := "b"; query.From := 0 |} :: [] /\
     v12.dispatch demo.AsMessage demo.ParseQuery demo.Generate
       demo.GetRegistryPath demo.Marshal demo.PublishQueryDown demo.handler
       (fcsQuery l) (retrieveAttrs l) (maximumRecords l) 0
       [ {| query.Rsc := "a"; query.From := 0 |} ] w1
     = Continue waits w2 /\
     length (Published w2) = 1 /\
     v12.translateQuery demo.AsMessage demo.ParseQuery demo.handler "b"
       (fcsQuery l) = inl ("cat", ["word"]) /\
     demo.Generate ("cat", ["word"]) = ("[word=cat]", []) /\
     demo.Marshal
       (v12.jobArgs demo.GetRegistryPath demo.handler (retrieveAttrs l)
          (maximumRecords l) {| query.Rsc := "b"; query.From := 0 |}
          "[word=cat]") = Ok args /\
     demo.PublishQueryDown 1 {| rdb.Func := "concExample"; rdb.Args := args |}
     = Err "redis: connection refused" /\
     v12.searchRetrieve demo.Validate demo.AsMessage demo.ParseQuery
       demo.Generate demo.GetRegistryPath demo.Marshal demo.PublishQueryDown
       demo.DeserializeConcExampleResult demo.makeRows demo.handler
       demo.reqPlain demo.fresh
     = Return 500
         (onResponse
            (addError {| general.Code := general.DCGeneralSystemError;
                         general.Ident := "redis: connection refused";
                         general.Message := "General system error" |})
            {| Response := Response w2;
               Published := Published w2
                              ++ [ {| rdb.Func := "concExample";
                                      rdb.Args := args |} ] |})) /\
  (exists l w1 waits w2,
     demo.validate demo.reqPlain = Continue l w1 /\
     ranges l
     = [ {| query.Rsc := "a"; query.From := 0 |} ]
       ++ {| query.Rsc := "b"; query.From := 0 |} :: [] /\
     v12.dispatch demo.AsMessage demo.ParseQuery demo.Generate
       demo.GetRegistryPath demo.MarshalPartial demo.PublishQuery
       demo.handler (fcsQuery l) (retrieveAttrs l) (maximumRecords l) 0
       [ {| query.Rsc := "a"; query.From := 0 |} ] w1
     = Continue waits w2 /\
     length (Published w2) = 1 /\
     v12.translateQuery demo.AsMessage demo.ParseQuery demo.handler "b"
       (fcsQuery l) = inl ("cat", ["word"]) /\
     demo.Generate ("cat", ["word"]) = ("[word=cat]", []) /\
     demo.MarshalPartial
       (v12.jobArgs demo.GetRegistryPath demo.handler (retrieveAttrs l)
          (maximumRecords l) {| query.Rsc := "b"; query.From := 0 |}
          "[word=cat]") = Err "json: unsupported value" /\
     v12.searchRetrieve demo.Validate demo.AsMessage demo.ParseQuery
       demo.Generate demo.GetRegistryPath demo.MarshalPartial
       demo.PublishQuery demo.DeserializeConcExampleResult demo.makeRows
       demo.handler demo.reqPlain demo.fresh
     = Return 500
         (onResponse
            (addError {| general.Code := general.DCGeneralSystemError;
                         general.Ident := "json: unsupported value";
                         general.Message := "General system error" |})
            w2)).
Proof.
  eassert (demo.validate demo.reqPlain = Continue _ _) as Hv
    by (vm_compute; reflexivity).
  split.
  - lazymatch type of Hv with
    | _ = Continue ?l ?w1 =>
        eassert (v12.dispatch demo.AsMessage demo.ParseQuery demo.Generate
                   demo.GetRegistryPath demo.Marshal demo.PublishQueryDown
                   demo.handler (fcsQuery l) (retrieveAttrs l)
                   (maximumRecords l) 0
                   [ {| query.Rsc := "a"; query.From := 0 |} ] w1
                 = Continue _ _) as Hd by (vm_compute; reflexivity)
    end.
    eexists _, _, _, _, _. split; [exact Hv|]. split; [reflexivity|].
    split; [exact Hd|]. split; [reflexivity|]. split; [reflexivity|].
    split; [reflexivity|]. split; [reflexivity|]. split; [reflexivity|].
    destruct (publish_failure_is_system_error demo.Validate demo.AsMessage
                demo.ParseQuery demo.Generate demo.GetRegistryPath
                demo.Marshal demo.PublishQueryDown
                demo.DeserializeConcExampleResult demo.makeRows
                demo.handler demo.reqPlain demo.fresh _ _
                [ {| query.Rsc := "a"; query.From := 0 |} ]
                {| query.Rsc := "b"; query.From := 0 |} [] _ _
                ("cat", ["word"]) "[word=cat]"
                Hv eq_refl Hd eq_refl eq_refl) as [_ Hpub].
    exact (Hpub _ _ eq_refl eq_refl).
  - lazymatch type of Hv with
    | _ = Continue ?l ?w1 =>
        eassert (v12.dispatch demo.AsMessage demo.ParseQuery demo.Generate
                   demo.GetRegistryPath demo.MarshalPartial demo.PublishQuery
                   demo.handler (fcsQuery l) (retrieveAttrs l)
                   (maximumRecords l) 0
                   [ {| query.Rsc := "a"; query.From := 0 |} ] w1
                 = Continue _ _) as Hd by (vm_compute; reflexivity)
    end.
    eexists _, _, _, _. split; [exact Hv|]. split; [reflexivity|].
    split; [exact Hd|]. split; [reflexivity|]. split; [reflexivity|].
    split; [reflexivity|]. split; [reflexivity|].
    destruct (publish_failure_is_system_error demo.Validate demo.AsMessage
                demo.ParseQuery demo.Generate demo.GetRegistryPath
                demo.MarshalPartial demo.PublishQuery
                demo.DeserializeConcExampleResult demo.makeRows
                demo.handler demo.reqPlain demo.fresh _ _
                [ {| query.Rsc := "a"; query.From := 0 |} ]
                {| query.Rsc := "b"; query.From := 0 |} [] _ _
                ("cat", ["word"]) "[word=cat]"
                Hv eq_refl Hd eq_refl eq_refl) as [Hmar _].
    exact (Hmar _ eq_refl).
Defined.

(** X16 at the request for the page of three records that starts at
    the second one. *)
Lemma validated_request_is_echoed_witness :
  exists l w1 s w',
    demo.validate demo.reqPage = Continue l w1 /\
    demo.searchRetrieve demo.reqPage = Return s w' /\
    EchoedQuery (Response w') = gin.Query demo.reqPage "query" /\
    strconv.Atoi (gin.DefaultQuery demo.reqPage "startRecord" "1")
    = Some (EchoedStartRecord (Response w')).
Proof.
  eassert (demo.validate demo.reqPage = Continue _ _) as Hv
    by (vm_compute; reflexivity).
  eassert (demo.searchRetrieve demo.reqPage = Return _ _) as H
    by (vm_compute; reflexivity).
  eexists _, _, _, _. split; [exact Hv|]. split; [exact H|].
  exact (validated_request_is_echoed demo.Validate demo.AsMessage
           demo.ParseQuery demo.Generate demo.GetRegistryPath demo.Marshal
           demo.PublishQuery demo.DeserializeConcExampleResult demo.makeRows
           demo.handler demo.reqPage demo.fresh _ _ _ _ Hv H).
Defined.

(** X17 at the plain request. *)
Lemma ok_only_after_every_job_witness :
  exists w',
    demo.searchRetrieve demo.reqPlain = Return 200 w' /\
    exists l w1 jobs,
      demo.validate demo.reqPlain = Continue l w1 /\
      Published w' = Published demo.fresh ++ jobs /\
      length jobs = length (corpora l) /\
      GeneralErrors (Response w') = GeneralErrors (Response demo.fresh) /\
      (Z.of_nat (length (Results (Response w'))) <= maximumRecords l)%Z.
Proof.
  eassert (demo.searchRetrieve demo.reqPlain = Return 200 _) as H
    by (vm_compute; reflexivity).
  eexists. split; [exact H|].
  exact (ok_only_after_every_job demo.Validate demo.AsMessage
           demo.ParseQuery demo.Generate demo.GetRegistryPath demo.Marshal
           demo.PublishQuery demo.DeserializeConcExampleResult demo.makeRows
           demo.handler demo.reqPlain demo.fresh _ H).
Defined.

(** X19 at a request whose [x-fcs-context] is the name of one of its
    own parameters, the one case in which the parameter is read. *)
Lemma context_is_checked_against_registry_witness :
  Forall (fun k => demo.Validate k = None)
    (url.keys (gin.URLQuery demo.reqContextQuery)) /\
  gin.Query demo.reqContextQuery "query" <> "" /\
  strconv.Atoi (gin.DefaultQuery demo.reqContextQuery "startRecord" "1")
  = Some 1%Z /\
  (1 <= 1)%Z /\
  maximumRecordsText demo.handler demo.reqContextQuery = Some 4%Z /\
  (1 <= 4)%Z /\
  selectCorpora demo.handler demo.reqContextQuery = [] ++ "query" :: [] /\
  Forall (resolves demo.handler) [] /\
  ~ resolves demo.handler "query" /\
  demo.searchRetrieve demo.reqContextQuery
  = Return 400
      (onResponse
         (addError {| general.Code := general.DCUnsupportedParameterValue;
                      general.Ident := "x-fcs-context";
                      general.Message := "Unknown context " +:+ "query" |})
         (onResponse (withEchoedStartRecord 1)
            (onResponse
               (withEchoedQuery (gin.Query demo.reqContextQuery "query"))
               demo.fresh))).
Proof.
  assert (Forall (fun k => demo.Validate k = None)
            (url.keys (gin.URLQuery demo.reqContextQuery))) as Hkeys
    by (repeat constructor).
  assert (gin.Query demo.reqContextQuery "query" <> "") as Hq
    by discriminate.
  assert (~ resolves demo.handler "query") as Hno.
  { intros [res Hres]. vm_compute in Hres. discriminate. }
  split; [exact Hkeys|]. split; [exact Hq|]. split; [reflexivity|].
  split; [lia|]. split; [reflexivity|]. split; [lia|].
  split; [reflexivity|]. split; [constructor|]. split; [exact Hno|].
  destruct (context_is_checked_against_registry demo.Validate demo.AsMessage
              demo.ParseQuery demo.Generate demo.GetRegistryPath demo.Marshal
              demo.PublishQuery demo.DeserializeConcExampleResult demo.makeRows
              demo.handler demo.reqContextQuery demo.fresh 1 4 Hkeys Hq
              eq_refl ltac:(lia) eq_refl ltac:(lia)) as [Hunknown _].
  exact (Hunknown [] "query" [] eq_refl (List.Forall_nil _) Hno).
Defined.

(** A page of 2^63 - 1 records passes the validation, both jobs are
    published and answered, and the request panics where the results are
    made. *)
Example scenario_page_too_large :
  strconv.Atoi "9223372036854775807" = Some 9223372036854775807%Z /\
  demo.makeRows 9223372036854775807 = false /\
  exists w',
    demo.searchRetrieve demo.reqHuge = Panic w' /\
    length (Published w') = 2 /\ GeneralErrors (Response w') = [].
Proof.
  split; [reflexivity|]. split; [reflexivity|].
  eexists. split; [lazy; reflexivity|]. by split.
Qed.

End OutcomeScenarios.
